(** * Knowledge query and extraction engine: a shallow embedding

    The development follows the JavaScript sources of the knowledge
    graph server:

    - [utils/cypher-builder.js]: the query builders, which compose a
      query text and a record of bound parameters;
    - [knowledge/retrieval.js]: search, exploration, path finding and
      gap analysis, each of which opens a session, runs one query and
      maps the returned records;
    - [knowledge/storage.js]: the write path (concept upsert,
      relationship creation);
    - [extractors/mcp-extractor.js]: the heuristic extractor;
    - [schemas/schema-setup.js] and the path tool of [index.js].

    The graph store is an external collaborator.  It is modelled as a
    labelled property graph, and every query text the program composes
    is given its reading over that graph by a function next to the
    builder that composes it.  Where the program composes a text that
    is no Cypher, the store rejects it and the session fails with the
    store's message, which is a parameter.  The readings take the
    tokens spliced into a text for names; the properties say so.
    Numbers are rationals; strings are byte strings, which agree with
    JavaScript's on texts of ASCII characters. *)

From Stdlib Require Import Bool Arith List Lia ZArith QArith Qminmax.
From Stdlib Require Import Ascii String DecimalString.
From Stdlib Require Import Sorted Permutation.
Import ListNotations.

Local Open Scope string_scope.
Local Open Scope list_scope.
Local Open Scope nat_scope.

(** ** Query texts

    The template literals of the sources, cut at their interpolation
    holes.  Line breaks and indentation are those of the sources. *)

Module Text.

(* createConceptQuery: the merge-on-name template *)
Definition createConcept_text : string :=
"
    MERGE (c:Concept {name: $name})
    ON CREATE SET 
      c.id = randomUUID(),
      c.description = $description,
      c.source = $source,
      c.confidence = $confidence,
      c.created_date = datetime(),
      c.last_updated = datetime(),
      c.metadata = $metadata
    ON MATCH SET
      c.description = CASE WHEN $description IS NOT NULL AND $description <> '' THEN $description ELSE c.description END,
      c.last_updated = datetime(),
      c.confidence = CASE WHEN $confidence > c.confidence THEN $confidence ELSE c.confidence END
    RETURN c.id as id, c.name as name, labels(c) as labels
  ".

(* createFactConceptRelationQuery: the text around ${relationshipType} *)
Definition linkFactConcept_pre : string :=
"
    MATCH (f:Fact {id: $factId})
    MATCH (c:Concept {id: $conceptId})
    MERGE (f)-[r:".
Definition linkFactConcept_post : string :=
"]->(c)
    RETURN f.id as factId, c.id as conceptId, type(r) as relationship
  ".

(* findPathsQuery: the text around ${matchA}, ${matchB} and ${relFilter} *)
Definition findPaths_match : string :=
"
    MATCH ".
Definition findPaths_comma : string :=
", ".
Definition findPaths_path : string :=
"
    MATCH path = (a)-".
Definition findPaths_with : string :=
"-(b)
    WITH path, relationships(path) as rels, length(path) as pathLength
  ".

(* findPathsQuery: the RETURN clause when includePathNodes holds *)
Definition findPaths_return_nodes : string :=
"
      RETURN path, rels, pathLength,
             [node in nodes(path) | {id: node.id, name: CASE WHEN node.name IS NOT NULL THEN node.name ELSE node.statement END, type: labels(node)[0]}] as pathNodes
      ORDER BY pathLength ASC
      LIMIT 10
    ".

(* findPathsQuery: the RETURN clause otherwise *)
Definition findPaths_return_plain : string :=
"
      RETURN path, rels, pathLength
      ORDER BY pathLength ASC
      LIMIT 10
    ".

(* analyzeGapsQuery, case missing-connections *)
Definition missingConnections_text : string :=
"
        MATCH (d:Domain {name: $domain})<-[:BELONGS_TO]-(c:Concept)
        MATCH (c2:Concept)-[:BELONGS_TO]->(d)
        WHERE c <> c2 AND NOT (c)-[]-(c2)
        WITH c, c2,
             CASE
               WHEN c.keywords IS NOT NULL AND c2.keywords IS NOT NULL 
               THEN apoc.text.jaroWinklerDistance(c.name, c2.name)
               ELSE 0.5
             END as similarity
        WHERE similarity > $threshold
        RETURN c.name as concept1, c2.name as concept2, similarity
        ORDER BY similarity DESC
        LIMIT 20
      ".

(* analyzeGapsQuery, case weak-areas *)
Definition weakAreas_text : string :=
"
        MATCH (d:Domain {name: $domain})<-[:BELONGS_TO]-(c:Concept)
        WITH c, 
             size((c)-[]->()) as outDegree,
             size((c)<-[]-()) as inDegree,
             c.confidence as confidence
        WHERE outDegree + inDegree < 3 OR confidence < $threshold
        RETURN c.name as concept, 
               outDegree + inDegree as connectionCount,
               confidence,
               'weak_connections' as reason
        ORDER BY connectionCount ASC, confidence ASC
        LIMIT 20
      ".

(* analyzeGapsQuery, case outdated-content *)
Definition outdatedContent_text : string :=
"
        MATCH (d:Domain {name: $domain})<-[:BELONGS_TO]-(c:Concept)
        WHERE c.last_updated IS NOT NULL AND 
              duration.between(c.last_updated, datetime()).days > 90
        WITH c, duration.between(c.last_updated, datetime()).days as daysSinceUpdate
        RETURN c.name as concept,
               c.source as source,
               daysSinceUpdate,
               c.confidence as confidence
        ORDER BY daysSinceUpdate DESC
        LIMIT 20
      ".

(* KnowledgeStorage.createRelationship: the text around ${type} *)
Definition createRelationship_pre : string :=
"
        MATCH (source) WHERE source.id = $sourceId
        MATCH (target) WHERE target.id = $targetId
        MERGE (source)-[r:".
Definition createRelationship_post : string :=
"]->(target)
        SET r += $properties
        RETURN type(r) as relationship, source.id as sourceId, target.id as targetId
      ".

(* KnowledgeRetrieval.searchKnowledge, case exact *)
Definition exactSearch_text : string :=
"
            MATCH (n:Knowledge)
            WHERE toLower(n.content) CONTAINS toLower($query) OR 
                  toLower(n.name) CONTAINS toLower($query) OR 
                  toLower(n.statement) CONTAINS toLower($query)
            RETURN n, 
                  CASE 
                    WHEN n.confidence IS NOT NULL THEN n.confidence 
                    ELSE 0.5 
                  END as relevance
            ORDER BY relevance DESC
            LIMIT $maxResults
          ".

(* KnowledgeRetrieval.exploreKnowledgeGraph: the text around ${matchCondition} and ${relFilter} *)
Definition explore_match : string :=
"
        MATCH ".
Definition explore_path : string :=
"
        MATCH path = (start)-".
Definition explore_return : string :=
"-(connected:Knowledge)
        WITH start, connected, relationships(path) as rels, length(path) as depth
        RETURN 
          start, 
          collect(DISTINCT {
            node: connected, 
            depth: depth, 
            relationships: [rel in rels WHERE startNode(rel) = start | type(rel)]
          }) as connections
        LIMIT 1
      ".

(* KnowledgeRetrieval.exploreKnowledgeGraph: the start pattern for a name *)
Definition explore_byName : string :=
"(start:Knowledge) WHERE start.name = $startConcept OR 
                                                  start.content = $startConcept OR 
                                                  start.statement = $startConcept OR
                                                  start.name CONTAINS $startConcept OR 
                                                  start.content CONTAINS $startConcept OR 
                                                  start.statement CONTAINS $startConcept".

(* KnowledgeStorage.storeConcept: the domain query *)
Definition attachDomain_text : string :=
"
          MATCH (c:Concept {id: $conceptId})
          MERGE (d:Domain {name: $domain})
          ON CREATE SET 
            d.id = randomUUID(),
            d.created_date = datetime()
          MERGE (c)-[:BELONGS_TO]->(d)
          RETURN d.name as domainName
        ".

(* KnowledgeStorage.storeConcept: the text around ${rel.type} *)
Definition relateConcept_pre : string :=
"
            MATCH (a:Concept {id: $conceptId})
            MATCH (b) WHERE id(b) = $targetId OR b.id = $targetId
            MERGE (a)-[r:".
Definition relateConcept_post : string :=
"]->(b)
            RETURN type(r) as relationship
          ".

End Text.

(** ** JavaScript and Cypher string primitives *)

Module JS.

(** [a || b] on an optional string: [undefined], [null] and the
    empty string are falsy. *)
Definition or_string (a : option string) (b : string) : string :=
  match a with
  | Some (String c s) => String c s
  | _ => b
  end.

(** A string in a condition: truthy when present and not empty. *)
Definition truthy_string (a : option string) : bool :=
  match a with
  | Some (String _ _) => true
  | _ => false
  end.

(** [a || b] on an optional number: [undefined], [null] and [0] are
    falsy. *)
Definition or_number (a : option Q) (b : Q) : Q :=
  match a with
  | Some q => if Qeq_bool q 0 then b else q
  | None => b
  end.

Definition truthy_number (a : option Q) : bool :=
  match a with
  | Some q => negb (Qeq_bool q 0)
  | None => false
  end.

Definition is_upper (c : ascii) : bool :=
  let n := nat_of_ascii c in (65 <=? n) && (n <=? 90).

Definition is_lower (c : ascii) : bool :=
  let n := nat_of_ascii c in (97 <=? n) && (n <=? 122).

Definition is_digit (c : ascii) : bool :=
  let n := nat_of_ascii c in (48 <=? n) && (n <=? 57).

Definition is_letter (c : ascii) : bool := is_upper c || is_lower c.

(** The class [\w] of regular expressions. *)
Definition is_word (c : ascii) : bool :=
  is_letter c || is_digit c || Ascii.eqb c "_".

(** The class [\s] of regular expressions, and the white space that
    [trim] removes, on the ASCII range.  A text is read here as the
    sequence of its bytes: on a text of ASCII characters the bytes are
    JavaScript's code units, so that lengths, classes and case agree
    with the code; other texts are outside this reading. *)
Definition is_space (c : ascii) : bool :=
  let n := nat_of_ascii c in (n =? 32) || ((9 <=? n) && (n <=? 13)).

(** A text of ASCII characters. *)
Definition ascii_only (s : string) : bool :=
  forallb (fun c => nat_of_ascii c <? 128) (list_ascii_of_string s).

Definition is_hex (c : ascii) : bool :=
  let n := nat_of_ascii c in
  is_digit c || ((97 <=? n) && (n <=? 102)) || ((65 <=? n) && (n <=? 70)).

Definition lower_char (c : ascii) : ascii :=
  if is_upper c then ascii_of_nat (nat_of_ascii c + 32) else c.

(** [s.toLowerCase()], and Cypher's [toLower(s)]. *)
Fixpoint toLowerCase (s : string) : string :=
  match s with
  | EmptyString => EmptyString
  | String c s' => String (lower_char c) (toLowerCase s')
  end.

(** [s.includes(t)], and Cypher's [s CONTAINS t]. *)
Fixpoint includes (s t : string) : bool :=
  String.prefix t s ||
  match s with
  | EmptyString => false
  | String _ s' => includes s' t
  end.

Fixpoint trimStart (s : string) : string :=
  match s with
  | String c s' => if is_space c then trimStart s' else s
  | EmptyString => EmptyString
  end.

Definition reverse (s : string) : string :=
  string_of_list_ascii (rev (list_ascii_of_string s)).

(** [s.trim()] *)
Definition trim (s : string) : string :=
  reverse (trimStart (reverse (trimStart s))).

(** [s.split(re)] for a regular expression [re] that is one
    character class. *)
Fixpoint split (sep : ascii -> bool) (s : string) : list string :=
  match s with
  | EmptyString => [EmptyString]
  | String c s' =>
      if sep c then EmptyString :: split sep s'
      else match split sep s' with
           | h :: t => String c h :: t
           | [] => [String c EmptyString]
           end
  end.

(** [xs.join(sep)] *)
Fixpoint join (sep : string) (xs : list string) : string :=
  match xs with
  | [] => EmptyString
  | [x] => x
  | x :: rest => x ++ sep ++ join sep rest
  end.

(** [s.slice(n)] *)
Fixpoint slice (n : nat) (s : string) : string :=
  match n, s with
  | S n', String _ s' => slice n' s'
  | _, _ => s
  end.

(** The text that [String.prototype.replace] puts in place of a match
    of a string pattern: in the replacement, [$$] is a dollar sign,
    [$&] the matched text, [$`] the text before the match and [$'] the
    text after it; a dollar sign before any other character, a digit
    included since a string pattern captures nothing, stands for
    itself. *)
Fixpoint substitution (matched before after replacement : string) : string :=
  match replacement with
  | EmptyString => EmptyString
  | String c rest =>
      if Ascii.eqb c "$" then
        match rest with
        | String d rest' =>
            if Ascii.eqb d "$"
            then String d (substitution matched before after rest')
            else if Ascii.eqb d "&"
            then (matched ++ substitution matched before after rest')%string
            else if Ascii.eqb d "`"
            then (before ++ substitution matched before after rest')%string
            else if Ascii.eqb d "'"
            then (after ++ substitution matched before after rest')%string
            else String c (substitution matched before after rest)
        | EmptyString => String c EmptyString
        end
      else String c (substitution matched before after rest)
  end.

(** [s.replace(pattern, replacement)] for a string pattern: the first
    occurrence only; [before] is the text already passed. *)
Fixpoint replace_from (before s pattern replacement : string) : string :=
  if String.prefix pattern s
  then
    let after := slice (String.length pattern) s in
    (before ++ substitution pattern before after replacement ++ after)%string
  else match s with
       | String c s' =>
           replace_from (before ++ String c EmptyString) s' pattern replacement
       | EmptyString => before
       end.

Definition replace (s pattern replacement : string) : string :=
  replace_from EmptyString s pattern replacement.

Definition upper_char (c : ascii) : ascii :=
  if is_lower c then ascii_of_nat (nat_of_ascii c - 32) else c.

(** [s.charAt(0).toUpperCase() + s.slice(1)] *)
Definition capitalize (s : string) : string :=
  match s with
  | String c s' => String (upper_char c) s'
  | EmptyString => EmptyString
  end.

(** A non-negative integer in a template literal. *)
Definition of_nat (n : nat) : string :=
  NilEmpty.string_of_uint (Nat.to_uint n).

(** [xs.includes(x)] on an array of strings. *)
Definition mem (x : string) (xs : list string) : bool :=
  existsb (String.eqb x) xs.

(** [[...new Set(xs)]]: the first occurrence of each element, in
    order. *)
Fixpoint unique_from (seen : list string) (xs : list string) : list string :=
  match xs with
  | [] => []
  | x :: rest =>
      if mem x seen then unique_from seen rest
      else x :: unique_from (x :: seen) rest
  end.

Definition unique (xs : list string) : list string := unique_from [] xs.

(** The double quote, for message texts. *)
Definition dquote : string := String (ascii_of_nat 34) EmptyString.

Definition quoted (s : string) : string := (dquote ++ s ++ dquote)%string.

Definition backslash : ascii := ascii_of_nat 92.

Definition hex_digit (n : nat) : ascii :=
  nth n (list_ascii_of_string "0123456789abcdef") "0"%char.

(** A character inside a JSON string: the quote and the backslash
    take a backslash before them, and a control character is written
    in its short form or as [\u00XX]. *)
Definition json_char (c : ascii) : string :=
  let n := nat_of_ascii c in
  if (n =? 34) || (n =? 92) then String backslash (String c EmptyString)
  else if n =? 8 then String backslash "b"
  else if n =? 9 then String backslash "t"
  else if n =? 10 then String backslash "n"
  else if n =? 12 then String backslash "f"
  else if n =? 13 then String backslash "r"
  else if n <? 32
       then String backslash
              (String "u" (String "0" (String "0"
                 (String (hex_digit (n / 16))
                    (String (hex_digit (n mod 16)) EmptyString)))))
  else String c EmptyString.

Fixpoint json_text (s : string) : string :=
  match s with
  | EmptyString => EmptyString
  | String c s' => (json_char c ++ json_text s')%string
  end.

Definition json_string (s : string) : string :=
  (dquote ++ json_text s ++ dquote)%string.

(** [JSON.stringify(o)] for an object whose values are strings, given
    as the list of its properties in the order of their enumeration. *)
Definition stringify (o : list (string * string)) : string :=
  ("{" ++ join ","
            (map (fun kv => json_string (fst kv) ++ ":" ++ json_string (snd kv)) o)
       ++ "}")%string.

End JS.

(** ** What a call produces: a value, or an exception with its message *)

Inductive outcome (A : Type) : Type :=
| Returned (a : A)
| Thrown (message : string).

Arguments Returned {A} a.
Arguments Thrown {A} message.

(** ** Bound parameters *)

Inductive value : Type :=
| VNull
| VStr (s : string)
| VNum (q : Q)
| VInt (n : nat)
| VMap (entries : list (string * string)).

Record built_query : Type := mkBuilt {
  query : string;
  params : list (string * value)
}.

(** ** The graph store *)

Module Graph.

(** A node: its labels and the properties the program reads or
    writes.  [node_key] is the store's own identity of the node, the
    one [c <> c2] compares. *)
Record node : Type := mkNode {
  node_key : nat;
  labels : list string;
  p_id : option string;
  p_name : option string;
  p_content : option string;
  p_statement : option string;
  p_description : option string;
  p_source : option string;
  p_confidence : option Q;
  p_keywords : option string;
  p_created_date : option nat;
  p_last_updated : option nat;
  p_metadata : option string
}.

(** A relationship, directed from [rel_start] to [rel_end]. *)
Record rel : Type := mkRel {
  rel_key : nat;
  rel_start : nat;
  rel_type : string;
  rel_end : nat;
  rel_properties : list (string * string)
}.

Record graph : Type := mkGraph {
  nodes : list node;
  rels : list rel
}.

Definition has_label (l : string) (n : node) : bool := JS.mem l (labels n).

Definition same_node (a b : node) : bool := node_key a =? node_key b.

Definition node_at (g : graph) (k : nat) : option node :=
  find (fun n => node_key n =? k) (nodes g).

(** *** Three-valued conditions.  [None] is Cypher's [null]. *)

Definition and3 (a b : option bool) : option bool :=
  match a, b with
  | Some false, _ | _, Some false => Some false
  | Some true, Some true => Some true
  | _, _ => None
  end.

Definition or3 (a b : option bool) : option bool :=
  match a, b with
  | Some true, _ | _, Some true => Some true
  | Some false, Some false => Some false
  | _, _ => None
  end.

Definition is_not_null {A : Type} (a : option A) : option bool :=
  match a with Some _ => Some true | None => Some false end.

Definition lift2 {A B : Type} (f : A -> A -> B) (a b : option A) : option B :=
  match a, b with
  | Some x, Some y => Some (f x y)
  | _, _ => None
  end.

Definition toLower (a : option string) : option string :=
  option_map JS.toLowerCase a.

Definition contains3 : option string -> option string -> option bool :=
  lift2 JS.includes.

Definition eq3 : option string -> option string -> option bool :=
  lift2 String.eqb.

(** [x < y] and [x >= y] on numbers. *)
Definition Qltb (x y : Q) : bool := negb (Qle_bool y x).

Definition lt3 : option Q -> option Q -> option bool := lift2 Qltb.

Definition ge3 : option Q -> option Q -> option bool :=
  lift2 (fun x y => Qle_bool y x).

(** A [WHERE] clause keeps a row only when its condition is true. *)
Definition holds (c : option bool) : bool :=
  match c with Some true => true | _ => false end.

(** *** Patterns *)

(** [(a)-[]-(b)]: some relationship joins the two nodes, in either
    direction. *)
Definition adjacent (g : graph) (a b : node) : bool :=
  existsb (fun r =>
    ((rel_start r =? node_key a) && (rel_end r =? node_key b)) ||
    ((rel_start r =? node_key b) && (rel_end r =? node_key a))) (rels g).

(** [size((c)-[]->())] and [size((c)<-[]-())] *)
Definition outDegree (g : graph) (c : node) : nat :=
  List.length (filter (fun r => rel_start r =? node_key c) (rels g)).

Definition inDegree (g : graph) (c : node) : nat :=
  List.length (filter (fun r => rel_end r =? node_key c) (rels g)).

(** [(d:Domain {name: $domain})<-[:BELONGS_TO]-(c:Concept)]: one row
    per domain node and per [BELONGS_TO] relationship into it that
    starts at a [Concept]. *)
Definition domains (g : graph) (domain : string) : list node :=
  filter (fun d => has_label "Domain" d && holds (eq3 (p_name d) (Some domain)))
         (nodes g).

Definition members_of (g : graph) (d : node) : list node :=
  flat_map (fun r =>
    if (rel_type r =? "BELONGS_TO")%string && (rel_end r =? node_key d) then
      match node_at g (rel_start r) with
      | Some c => if has_label "Concept" c then [c] else []
      | None => []
      end
    else []) (rels g).

(** *** Variable-length patterns

    [(a)-[r:T1|T2*1..n]-(b)]: the walks of one to [n] relationships
    from a node, taken in either direction, that use no relationship
    twice.  With no type listed every type is allowed.  A walk is
    the list of its steps, each the relationship taken and the node
    reached. *)

Definition step : Type := (rel * nat)%type.

(** The types are read as relationship names, which is what the store
    makes of [T1|T2] when each token is a name.  A token that is no
    name (one with a bar or a bracket in it, for one) composes another
    pattern, which [walks] does not read: the properties that rest on
    [walks] ask for names. *)
Definition type_allowed (types : list string) (r : rel) : bool :=
  match types with
  | [] => true
  | _ => JS.mem (rel_type r) types
  end.

Definition other_end (from : nat) (r : rel) : option nat :=
  if rel_start r =? from then Some (rel_end r)
  else if rel_end r =? from then Some (rel_start r)
  else None.

Fixpoint walks (g : graph) (types : list string) (hops : nat)
         (from : nat) (used : list nat) : list (list step) :=
  match hops with
  | O => []
  | S h =>
      flat_map (fun r =>
        if type_allowed types r && negb (existsb (Nat.eqb (rel_key r)) used) then
          match other_end from r with
          | Some next =>
              [(r, next)] ::
              map (cons (r, next)) (walks g types h next (rel_key r :: used))
          | None => []
          end
        else []) (rels g)
  end.

(** The node a walk from [from] ends in. *)
Definition walk_end (from : nat) (w : list step) : nat :=
  last (map snd w) from.

(** [nodes(path)] and [relationships(path)] *)
Definition walk_nodes (g : graph) (from : nat) (w : list step) : list node :=
  flat_map (fun k => match node_at g k with Some n => [n] | None => [] end)
           (from :: map snd w).

Definition walk_rels (w : list step) : list rel := map fst w.

End Graph.

(** ** Sessions

    A call of the program runs against a world: the graph, the record
    of what was asked of the store, the store's clock and its supply
    of fresh identifiers.  When [outage] holds a message, every query
    fails with it: a store-level failure. *)

Inductive event : Type :=
| SessionOpened
| QueryRun (text : string) (bound : list (string * value))
| SessionClosed.

Record world : Type := mkWorld {
  store : Graph.graph;
  log : list event;
  clock : nat;
  fresh : nat;
  outage : option string
}.

Definition session (A : Type) : Type := world -> outcome A * world.

Module Session.

Definition ret {A : Type} (a : A) : session A := fun w => (Returned a, w).

Definition throw {A : Type} (message : string) : session A :=
  fun w => (Thrown message, w).

Definition bind {A B : Type} (m : session A) (k : A -> session B) : session B :=
  fun w =>
    match m w with
    | (Returned a, w') => k a w'
    | (Thrown e, w') => (Thrown e, w')
    end.

(** [try { m } catch (error) { h error.message }] *)
Definition try_catch {A : Type} (m : session A) (h : string -> session A)
  : session A :=
  fun w =>
    match m w with
    | (Returned a, w') => (Returned a, w')
    | (Thrown e, w') => h e w'
    end.

(** [try { m } finally { f }] *)
Definition finally {A : Type} (m : session A) (f : session unit) : session A :=
  fun w =>
    match m w with
    | (r, w') =>
        match f w' with
        | (Returned _, w'') => (r, w'')
        | (Thrown e, w'') => (Thrown e, w'')
        end
    end.

Definition record (e : event) : session unit :=
  fun w => (Returned tt,
            mkWorld (store w) (log w ++ [e]) (clock w) (fresh w) (outage w)).

(** [driver.session()] and [session.close()] *)
Definition open : session unit := record SessionOpened.
Definition close : session unit := record SessionClosed.

(** [session.run(query, params)] for a query that only reads: the
    records are those of the query's reading over the graph. *)
Definition run {R : Type} (q : built_query) (reading : Graph.graph -> list R)
  : session (list R) :=
  bind (record (QueryRun (query q) (params q))) (fun _ w =>
    match outage w with
    | Some e => (Thrown e, w)
    | None => (Returned (reading (store w)), w)
    end).

(** [session.run(query, params)] for a text the store cannot parse:
    the store answers with an error of its own wording; [message]
    gives the store's message for a text. *)
Definition run_rejected {R : Type} (message : string -> string)
           (q : built_query) : session (list R) :=
  bind (record (QueryRun (query q) (params q))) (fun _ w =>
    match outage w with
    | Some e => (Thrown e, w)
    | None => (Thrown (message (query q)), w)
    end).

(** The same for a query that reads the store's clock. *)
Definition run_clocked {R : Type} (q : built_query)
           (reading : nat -> Graph.graph -> list R) : session (list R) :=
  bind (record (QueryRun (query q) (params q))) (fun _ w =>
    match outage w with
    | Some e => (Thrown e, w)
    | None => (Returned (reading (clock w) (store w)), w)
    end).

(** [session.run(query, params)] for a query that writes. *)
Definition run_update {R : Type} (q : built_query)
           (reading : world -> list R * world) : session (list R) :=
  bind (record (QueryRun (query q) (params q))) (fun _ w =>
    match outage w with
    | Some e => (Thrown e, w)
    | None => let (rs, w') := reading w in (Returned rs, w')
    end).

(** The queries a world has been asked. *)
Definition queries_run (w : world) : list event :=
  filter (fun e => match e with QueryRun _ _ => true | _ => false end) (log w).

End Session.

Declare Scope session_scope.
Delimit Scope session_scope with session.
Notation "x <- m ;; k" := (Session.bind m (fun x => k))
  (at level 61, m at next level, right associativity) : session_scope.
Notation "m ;;; k" := (Session.bind m (fun _ => k))
  (at level 61, right associativity) : session_scope.

(** ** Ordering and limits: [ORDER BY] and [LIMIT] *)

Module Order.

Section Sorting.

Context {A : Type}.
Variable leb : A -> A -> bool.

Fixpoint insert (x : A) (xs : list A) : list A :=
  match xs with
  | [] => [x]
  | y :: rest => if leb x y then x :: xs else y :: insert x rest
  end.

(** [ORDER BY]: rows with equal keys keep the order they were
    produced in. *)
Definition order_by (xs : list A) : list A := fold_right insert [] xs.

End Sorting.

(** Two neighbours of an ordered list. *)
Definition in_order {A : Type} (leb : A -> A -> bool) (a b : A) : Prop :=
  leb a b = true.

(** [LIMIT n] *)
Definition limit {A : Type} (n : nat) (xs : list A) : list A := firstn n xs.

(** Ascending order on a nullable number: [null] sorts last. *)
Definition opt_leb (a b : option Q) : bool :=
  match a, b with
  | Some x, Some y => Qle_bool x y
  | _, None => true
  | None, Some _ => false
  end.

End Order.

(** ** utils/cypher-builder.js *)

Module CypherBuilder.

Record concept_params : Type := mkConceptParams {
  name : string;
  description : option string;
  source : option string;
  confidence : option Q;
  metadata : option (list (string * string))
}.

Definition opt_value (a : option string) : value :=
  match a with Some s => VStr s | None => VNull end.

Definition createConceptQuery (p : concept_params) : built_query :=
  mkBuilt Text.createConcept_text
    [ ("name", VStr (name p));
      ("description", VStr (JS.or_string (description p) (name p)));
      ("source", opt_value (source p));
      ("confidence", VNum (JS.or_number (confidence p) (8 # 10)));
      ("metadata",
       VStr (JS.stringify (match metadata p with Some m => m | None => [] end))) ].

Definition createFactConceptRelationQuery
           (factId conceptId : string) (relationshipType : option string)
  : built_query :=
  let relationshipType :=
    match relationshipType with Some t => t | None => "ABOUT" end in
  mkBuilt
    (Text.linkFactConcept_pre ++ relationshipType ++ Text.linkFactConcept_post)%string
    [ ("factId", VStr factId); ("conceptId", VStr conceptId) ].

(** [n] characters of [[0-9a-f]], case ignored, then the rest. *)
Fixpoint hex_run (n : nat) (s : string) : option string :=
  match n with
  | O => Some s
  | S n' =>
      match s with
      | String c s' => if JS.is_hex c then hex_run n' s' else None
      | EmptyString => None
      end
  end.

Definition dash (s : option string) : option string :=
  match s with
  | Some (String c s') => if Ascii.eqb c "-" then Some s' else None
  | _ => None
  end.

Definition then_hex (n : nat) (s : option string) : option string :=
  match s with Some s' => hex_run n s' | None => None end.

(** [/^[0-9a-f]{8}-[0-9a-f]{4}-[0-9a-f]{4}-[0-9a-f]{4}-[0-9a-f]{12}$/i.test(str)] *)
Definition isUuid (str : string) : bool :=
  match then_hex 12 (dash (then_hex 4 (dash (then_hex 4 (dash
          (then_hex 4 (dash (hex_run 8 str)))))))) with
  | Some EmptyString => true
  | _ => false
  end.

Record paths_params : Type := mkPathsParams {
  conceptA : string;
  conceptB : string;
  maxPathLength : option nat;
  relationshipTypes : option (list string);
  includePathNodes : option bool
}.

Definition hops (p : paths_params) : nat :=
  match maxPathLength p with Some n => n | None => 5 end.

Definition types (p : paths_params) : list string :=
  match relationshipTypes p with Some ts => ts | None => [] end.

Definition relFilter (relationshipTypes : list string) (maxPathLength : nat)
  : string :=
  if 0 <? List.length relationshipTypes
  then ("[r:" ++ JS.join "|" relationshipTypes ++ "*1.."
        ++ JS.of_nat maxPathLength ++ "]")%string
  else ("[r*1.." ++ JS.of_nat maxPathLength ++ "]")%string.

Definition matchA (conceptA : string) : string :=
  if isUuid conceptA
  then "(a:Concept {id: $conceptA})"
  else "(a:Concept) WHERE a.name = $conceptA OR a.name CONTAINS $conceptA".

Definition matchB (conceptB : string) : string :=
  if isUuid conceptB
  then "(b:Concept {id: $conceptB})"
  else "(b:Concept) WHERE b.name = $conceptB OR b.name CONTAINS $conceptB".

Definition findPathsQuery (p : paths_params) : built_query :=
  let head :=
    (Text.findPaths_match ++ matchA (conceptA p) ++ Text.findPaths_comma ++
     matchB (conceptB p) ++ Text.findPaths_path ++
     relFilter (types p) (hops p) ++ Text.findPaths_with)%string in
  let includePathNodes :=
    match includePathNodes p with Some b => b | None => true end in
  mkBuilt
    (if includePathNodes
     then (head ++ Text.findPaths_return_nodes)%string
     else (head ++ Text.findPaths_return_plain)%string)
    [ ("conceptA", VStr (conceptA p));
      ("conceptB", VStr (conceptB p));
      ("maxPathLength", VInt (hops p)) ].

Definition threshold_or_default (threshold : option Q) : Q :=
  match threshold with Some t => t | None => 7 # 10 end.

Definition analyzeGapsQuery
           (domain analysisType : string) (threshold : option Q)
  : outcome built_query :=
  let bound :=
    [ ("domain", VStr domain);
      ("threshold", VNum (threshold_or_default threshold)) ] in
  if (analysisType =? "missing-connections")%string then
    Returned (mkBuilt Text.missingConnections_text bound)
  else if (analysisType =? "weak-areas")%string then
    Returned (mkBuilt Text.weakAreas_text bound)
  else if (analysisType =? "outdated-content")%string then
    Returned (mkBuilt Text.outdatedContent_text bound)
  else
    Thrown ("Unknown analysis type: " ++ analysisType)%string.

End CypherBuilder.

(** ** What the composed queries mean over the graph

    One function per query text; each quotes the clause it reads. *)

Module Reading.

Import Graph.

(** *** Path finding *)

(** An element of [pathNodes]:
    [{id: node.id, name: CASE WHEN node.name IS NOT NULL THEN node.name
      ELSE node.statement END, type: labels(node)[0]}] *)
Record path_node : Type := mkPathNode {
  pn_id : option string;
  pn_name : option string;
  pn_type : option string
}.

Definition path_node_of (n : node) : path_node :=
  mkPathNode (p_id n)
             (match p_name n with Some s => Some s | None => p_statement n end)
             (hd_error (labels n)).

(** [RETURN path, rels, pathLength, pathNodes]; [pathLength] is an
    integer of the store. *)
Record path_record : Type := mkPathRecord {
  rec_rels : list rel;
  rec_pathLength : nat;
  rec_pathNodes : list path_node
}.

(** The nodes an endpoint pattern matches: [(a:Concept {id: $conceptA})]
    for a text in the shape of an identifier, and otherwise the
    concepts whose name is or contains the text,
    [(b:Concept) WHERE b.name = $conceptB OR b.name CONTAINS $conceptB].
    The second reading serves [conceptB] only: with a name for
    [conceptA] the text does not parse, see [path_text_parses]. *)
Definition endpoints (g : graph) (x : string) : list node :=
  filter (fun n =>
    has_label "Concept" n &&
    holds (if CypherBuilder.isUuid x
           then eq3 (p_id n) (Some x)
           else or3 (eq3 (p_name n) (Some x)) (contains3 (p_name n) (Some x))))
    (nodes g).

(** [MATCH path = (a)-[r:T*1..n]-(b)
     WITH path, relationships(path) as rels, length(path) as pathLength] *)
Definition paths_between (g : graph) (types : list string) (hops : nat)
           (a b : node) : list path_record :=
  map (fun w =>
         mkPathRecord (walk_rels w) (List.length w)
                      (map path_node_of (walk_nodes g (node_key a) w)))
      (filter (fun w => walk_end (node_key a) w =? node_key b)
              (walks g types hops (node_key a) [])).

(** Whether the store can parse the text of a path query.  For a
    [conceptA] that has not the shape of an identifier the text
    begins [MATCH (a:Concept) WHERE a.name = $conceptA OR a.name
    CONTAINS $conceptA, (b:Concept ...]: a pattern after the [WHERE]
    of its [MATCH], which is no Cypher.  For an identifier the two
    patterns come first and the [WHERE] of [b], if there is one,
    ends the clause. *)
Definition path_text_parses (p : CypherBuilder.paths_params) : bool :=
  CypherBuilder.isUuid (CypherBuilder.conceptA p).

(** [ORDER BY pathLength ASC LIMIT 10], for a text the store can
    parse. *)
Definition findPaths (p : CypherBuilder.paths_params) (g : graph)
  : list path_record :=
  Order.limit 10
    (Order.order_by (fun r1 r2 => rec_pathLength r1 <=? rec_pathLength r2)
       (flat_map (fun a =>
          flat_map (fun b =>
            paths_between g (CypherBuilder.types p) (CypherBuilder.hops p) a b)
            (endpoints g (CypherBuilder.conceptB p)))
          (endpoints g (CypherBuilder.conceptA p)))).

(** *** Gap analysis *)

Section Similarity.

(** [apoc.text.jaroWinklerDistance], a function of the store. *)
Variable jaroWinklerDistance : string -> string -> Q.

(** [CASE WHEN c.keywords IS NOT NULL AND c2.keywords IS NOT NULL
     THEN apoc.text.jaroWinklerDistance(c.name, c2.name) ELSE 0.5 END].
    The score of two names is taken when both are present. *)
Definition similarity (c c2 : node) : option Q :=
  if holds (and3 (is_not_null (p_keywords c)) (is_not_null (p_keywords c2)))
  then lift2 jaroWinklerDistance (p_name c) (p_name c2)
  else Some (1 # 2).

(** [MATCH (d:Domain {name: $domain})<-[:BELONGS_TO]-(c:Concept)
     MATCH (c2:Concept)-[:BELONGS_TO]->(d)
     WHERE c <> c2 AND NOT (c)-[]-(c2)
     WITH c, c2, ... as similarity
     WHERE similarity > $threshold] *)
Definition missing_rows (g : graph) (domain : string) (threshold : Q)
  : list (node * node * Q) :=
  flat_map (fun d =>
    flat_map (fun c =>
      flat_map (fun c2 =>
        if negb (same_node c c2) && negb (adjacent g c c2) then
          match similarity c c2 with
          | Some s => if Qltb threshold s then [(c, c2, s)] else []
          | None => []
          end
        else [])
        (members_of g d))
      (members_of g d))
    (domains g domain).

(** What the two [WHERE] clauses keep, as a relation: [c] and [c2] are
    members of one domain node of that name, are two nodes, have no
    relationship between them, and score above the threshold. *)
Definition missing_row (g : graph) (domain : string) (threshold : Q)
           (c c2 : node) (s : Q) : Prop :=
  exists d,
    In d (domains g domain) /\
    In c (members_of g d) /\ In c2 (members_of g d) /\
    node_key c <> node_key c2 /\
    adjacent g c c2 = false /\
    similarity c c2 = Some s /\ (threshold < s)%Q.

(** [RETURN c.name as concept1, c2.name as concept2, similarity
     ORDER BY similarity DESC LIMIT 20] *)
Record missing_record : Type := mkMissing {
  mc_concept1 : option string;
  mc_concept2 : option string;
  mc_similarity : Q
}.

Definition missing_of (row : node * node * Q) : missing_record :=
  let '(c, c2, s) := row in mkMissing (p_name c) (p_name c2) s.

Definition by_similarity_desc (r1 r2 : node * node * Q) : bool :=
  Qle_bool (snd r2) (snd r1).

Definition missingConnections (g : graph) (domain : string) (threshold : Q)
  : list missing_record :=
  map missing_of
      (Order.limit 20
         (Order.order_by by_similarity_desc (missing_rows g domain threshold))).

End Similarity.

(** [RETURN c.name as concept, outDegree + inDegree as connectionCount,
     confidence, 'weak_connections' as reason] *)
Record weak_record : Type := mkWeak {
  wa_concept : option string;
  wa_connectionCount : nat;
  wa_confidence : option Q;
  wa_reason : string
}.

(** [MATCH (d:Domain {name: $domain})<-[:BELONGS_TO]-(c:Concept)
     WITH c, size((c)-[]->()) as outDegree, size((c)<-[]-()) as inDegree,
          c.confidence as confidence
     WHERE outDegree + inDegree < 3 OR confidence < $threshold] *)
Definition weak_rows (g : graph) (domain : string) (threshold : Q)
  : list weak_record :=
  flat_map (fun d =>
    flat_map (fun c =>
      let outDegree := outDegree g c in
      let inDegree := inDegree g c in
      let confidence := p_confidence c in
      if holds (or3 (Some (outDegree + inDegree <? 3))
                    (lt3 confidence (Some threshold)))
      then [mkWeak (p_name c) (outDegree + inDegree) confidence "weak_connections"]
      else [])
      (members_of g d))
    (domains g domain).

(** [ORDER BY connectionCount ASC, confidence ASC] *)
Definition by_count_then_confidence (r1 r2 : weak_record) : bool :=
  (wa_connectionCount r1 <? wa_connectionCount r2) ||
  ((wa_connectionCount r1 =? wa_connectionCount r2) &&
   Order.opt_leb (wa_confidence r1) (wa_confidence r2)).

(** [LIMIT 20] *)
Definition weakAreas (g : graph) (domain : string) (threshold : Q)
  : list weak_record :=
  Order.limit 20 (Order.order_by by_count_then_confidence
                                 (weak_rows g domain threshold)).

(** [RETURN c.name as concept, c.source as source, daysSinceUpdate,
     c.confidence as confidence] *)
Record outdated_record : Type := mkOutdated {
  oc_concept : option string;
  oc_source : option string;
  oc_daysSinceUpdate : nat;
  oc_confidence : option Q
}.

(** [WHERE c.last_updated IS NOT NULL AND
     duration.between(c.last_updated, datetime()).days > 90
     ... ORDER BY daysSinceUpdate DESC LIMIT 20].
    The clock counts whole days. *)
Definition outdatedContent (now : nat) (g : graph) (domain : string)
  : list outdated_record :=
  Order.limit 20
    (Order.order_by
       (fun r1 r2 => oc_daysSinceUpdate r2 <=? oc_daysSinceUpdate r1)
       (flat_map (fun d =>
          flat_map (fun c =>
            match p_last_updated c with
            | Some t =>
                if 90 <? now - t
                then [mkOutdated (p_name c) (p_source c) (now - t) (p_confidence c)]
                else []
            | None => []
            end)
            (members_of g d))
          (domains g domain))).

(** *** Exact search *)

Inductive content_type : Type :=
| OneType (t : string)
| ManyTypes (ts : list string).

(** [contextFilters] *)
Record filters : Type := mkFilters {
  f_domain : option string;
  f_minConfidence : option Q;
  f_contentType : option content_type;
  f_source : option string
}.

Definition no_filters : filters := mkFilters None None None None.

(** The pattern after the rewrites of [MATCH (n:Knowledge)]: the label
    of a single content type, and one row per [BELONGS_TO] relationship
    into a domain of the given name. *)
Definition type_matches (f : filters) (n : node) : bool :=
  match f_contentType f with
  | Some (OneType (String c t)) => has_label (JS.capitalize (String c t)) n
  | _ => true
  end.

Definition domain_rows (g : graph) (f : filters) (n : node) : list node :=
  if JS.truthy_string (f_domain f) then
    flat_map (fun r =>
      if (rel_type r =? "BELONGS_TO")%string && (rel_start r =? node_key n) then
        match node_at g (rel_end r) with
        | Some d =>
            if has_label "Domain" d && holds (eq3 (p_name d) (f_domain f))
            then [n] else []
        | None => []
        end
      else []) (rels g)
  else [n].

(** An array of content types puts a [WHERE] of its own after the
    pattern, [WHERE ANY(label IN labels(n) WHERE label IN ['...'])],
    just before the [WHERE] of the query: two [WHERE] clauses in a
    row, which is no Cypher.  The store cannot parse such a text, so
    it has no reading; this holds for the empty array too. *)
Definition several_types (f : filters) : bool :=
  match f_contentType f with Some (ManyTypes _) => true | _ => false end.

(** The condition after the rewrites of the query's own [WHERE]:
    [n.source = $source AND n.confidence >= $minConfidence AND
     toLower(n.content) CONTAINS toLower($query) OR
     toLower(n.name) CONTAINS toLower($query) OR
     toLower(n.statement) CONTAINS toLower($query)],
    in which [AND] binds tighter than [OR]. *)
Definition exact_where (query : string) (f : filters) (n : node) : option bool :=
  let q := toLower (Some query) in
  let on_content := contains3 (toLower (p_content n)) q in
  let with_confidence :=
    if JS.truthy_number (f_minConfidence f)
    then and3 (ge3 (p_confidence n) (f_minConfidence f)) on_content
    else on_content in
  let with_source :=
    if JS.truthy_string (f_source f)
    then and3 (eq3 (p_source n) (f_source f)) with_confidence
    else with_confidence in
  or3 (or3 with_source (contains3 (toLower (p_name n)) q))
      (contains3 (toLower (p_statement n)) q).

(** [CASE WHEN n.confidence IS NOT NULL THEN n.confidence ELSE 0.5 END] *)
Definition relevance_of (n : node) : Q :=
  match p_confidence n with Some c => c | None => 1 # 2 end.

(** [RETURN n, ... as relevance ORDER BY relevance DESC LIMIT $maxResults],
    for filters without an array of content types. *)
Definition exactSearch (query : string) (f : filters) (maxResults : nat)
           (g : graph) : list (node * Q) :=
  Order.limit maxResults
    (Order.order_by (fun r1 r2 => Qle_bool (snd r2) (snd r1))
       (map (fun n => (n, relevance_of n))
          (filter (fun n => holds (exact_where query f n))
             (flat_map (domain_rows g f)
                (filter (fun n => has_label "Knowledge" n && type_matches f n)
                        (nodes g)))))).

(** *** Exploration *)

(** [{node: connected, depth: depth,
      relationships: [rel in rels WHERE startNode(rel) = start | type(rel)]}] *)
Record connection : Type := mkConnection {
  conn_node : node;
  conn_depth : nat;
  conn_relationships : list string
}.

Definition same_connection (a b : connection) : bool :=
  same_node (conn_node a) (conn_node b) &&
  (conn_depth a =? conn_depth b) &&
  if list_eq_dec string_dec (conn_relationships a) (conn_relationships b)
  then true else false.

(** [collect(DISTINCT ...)] *)
Fixpoint distinct (seen : list connection) (xs : list connection)
  : list connection :=
  match xs with
  | [] => []
  | x :: rest =>
      if existsb (same_connection x) seen then distinct seen rest
      else x :: distinct (x :: seen) rest
  end.

(** [(start:Knowledge {id: $startConcept})], or [(start:Knowledge)] with
    the six conditions on name, content and statement. *)
Definition starts (g : graph) (startConcept : string) : list node :=
  filter (fun n =>
    has_label "Knowledge" n &&
    holds (if CypherBuilder.isUuid startConcept
           then eq3 (p_id n) (Some startConcept)
           else
             let x := Some startConcept in
             or3 (or3 (or3 (or3 (or3 (eq3 (p_name n) x)
                                      (eq3 (p_content n) x))
                                 (eq3 (p_statement n) x))
                            (contains3 (p_name n) x))
                       (contains3 (p_content n) x))
                 (contains3 (p_statement n) x)))
    (nodes g).

(** [MATCH path = (start)-[r*1..d]-(connected:Knowledge)
     WITH start, connected, relationships(path) as rels, length(path) as depth] *)
Definition connections_of (g : graph) (types : list string) (maxDepth : nat)
           (start : node) : list connection :=
  flat_map (fun w =>
    match node_at g (walk_end (node_key start) w) with
    | Some connected =>
        if has_label "Knowledge" connected then
          [mkConnection connected (List.length w)
             (map rel_type
                (filter (fun r => rel_start r =? node_key start) (walk_rels w)))]
        else []
    | None => []
    end)
    (walks g types maxDepth (node_key start) []).

(** [RETURN start, collect(DISTINCT {...}) as connections LIMIT 1]: one
    record per start node that has a row, the first one kept. *)
Definition explore (startConcept : string) (types : list string)
           (maxDepth : nat) (g : graph) : list (node * list connection) :=
  Order.limit 1
    (flat_map (fun start =>
       match connections_of g types maxDepth start with
       | [] => []
       | rows => [(start, distinct [] rows)]
       end)
       (starts g startConcept)).

End Reading.

(** ** knowledge/retrieval.js *)

Module Retrieval.

Import Graph.
Local Open Scope session_scope.

(** *** searchKnowledge, for [searchType: "exact"]

    The case [exact] of the switch, with the context filters and the
    mapping of the records that follow it.  The cases [semantic],
    [graph] and [hybrid] are not embedded: their texts call the
    store's regular expressions and similarity functions. *)

Record search_params : Type := mkSearchParams {
  sp_query : string;
  sp_contextFilters : option Reading.filters;
  sp_maxResults : option nat;
  sp_includeContext : option bool
}.

Definition contextFilters (p : search_params) : Reading.filters :=
  match sp_contextFilters p with Some f => f | None => Reading.no_filters end.

Definition maxResults (p : search_params) : nat :=
  match sp_maxResults p with Some n => n | None => 10 end.

Definition includeContext (p : search_params) : bool :=
  match sp_includeContext p with Some b => b | None => true end.

(** The text after [// Apply context filters]. *)
Definition search_text (f : Reading.filters) : string :=
  let cypherQuery := Text.exactSearch_text in
  let cypherQuery :=
    if JS.truthy_string (Reading.f_domain f)
    then JS.replace cypherQuery "MATCH (n:Knowledge)"
           "MATCH (n:Knowledge)-[:BELONGS_TO]->(d:Domain {name: $domain})"
    else cypherQuery in
  let cypherQuery :=
    if JS.truthy_number (Reading.f_minConfidence f) then
      if JS.includes cypherQuery "WHERE"
      then JS.replace cypherQuery "WHERE" "WHERE n.confidence >= $minConfidence AND"
      else JS.replace cypherQuery "MATCH (n:Knowledge)"
             "MATCH (n:Knowledge) WHERE n.confidence >= $minConfidence"
    else cypherQuery in
  let cypherQuery :=
    match Reading.f_contentType f with
    | Some (Reading.ManyTypes ts) =>
        let labels := JS.join "|" (map JS.capitalize ts) in
        JS.replace cypherQuery "MATCH (n:Knowledge)"
          ("MATCH (n:Knowledge) WHERE ANY(label IN labels(n) WHERE label IN ['"
             ++ labels ++ "'])")
    | Some (Reading.OneType (String c t)) =>
        let label := JS.capitalize (String c t) in
        JS.replace cypherQuery "MATCH (n:Knowledge)"
          ("MATCH (n:Knowledge:" ++ label ++ ")")
    | _ => cypherQuery
    end in
  if JS.truthy_string (Reading.f_source f) then
    if JS.includes cypherQuery "WHERE"
    then JS.replace cypherQuery "WHERE" "WHERE n.source = $source AND"
    else JS.replace cypherQuery "MATCH (n:Knowledge)"
           "MATCH (n:Knowledge) WHERE n.source = $source"
  else cypherQuery.

Definition search_bound (p : search_params) : list (string * value) :=
  let f := contextFilters p in
  ([ ("query", VStr (sp_query p)); ("maxResults", VInt (maxResults p)) ]
   ++ (if JS.truthy_string (Reading.f_domain f)
       then [("domain", CypherBuilder.opt_value (Reading.f_domain f))] else [])
   ++ (if JS.truthy_number (Reading.f_minConfidence f)
       then [("minConfidence", VNum (JS.or_number (Reading.f_minConfidence f) 0))]
       else [])
   ++ (if JS.truthy_string (Reading.f_source f)
       then [("source", CypherBuilder.opt_value (Reading.f_source f))] else []))%list.

Record related_concept : Type := mkRelated {
  rc_id : option string;
  rc_content : string
}.

Record search_result : Type := mkSearchResult {
  sr_id : option string;
  sr_content : string;
  sr_contentType : string;
  sr_source : option string;
  sr_confidence : Q;
  sr_relevance : Q;
  sr_relatedConcepts : list related_concept
}.

Inductive search_response : Type :=
| SearchSuccess (results : list search_result) (totalCount : nat)
                (searchType : string) (includeContext : bool)
| SearchFailure (error : string).

(** [nodeLabels.find(label => label !== 'Knowledge') || 'Unknown'] *)
Definition node_type (n : node) : string :=
  JS.or_string (find (fun label => negb (label =? "Knowledge")%string) (labels n))
               "Unknown".

Section Search.

(** The store's message for a text it cannot parse. *)
Variable syntax_error : string -> string.

(** [JSON.stringify(node)] *)
Variable stringify_node : node -> string.

(** [if (node.content) ... else if (node.name) ... else if
    (node.statement) ... else JSON.stringify(node)] *)
Definition display (n : node) : string :=
  if JS.truthy_string (p_content n) then JS.or_string (p_content n) EmptyString
  else if JS.truthy_string (p_name n) then JS.or_string (p_name n) EmptyString
  else if JS.truthy_string (p_statement n)
       then JS.or_string (p_statement n) EmptyString
  else stringify_node n.

(** The body of [result.records.map]; an exact search returns no
    [related] column, so [relatedConcepts] is empty. *)
Definition to_result (record : node * Q) : search_result :=
  let n := fst record in
  mkSearchResult (p_id n) (display n) (node_type n) (p_source n)
                 (JS.or_number (p_confidence n) (1 # 2)) (snd record) [].

Definition searchKnowledge (p : search_params) : session search_response :=
  Session.open ;;;
  Session.finally
    (Session.try_catch
       (let q := mkBuilt (search_text (contextFilters p)) (search_bound p) in
        records <- (if Reading.several_types (contextFilters p)
                    then Session.run_rejected syntax_error q
                    else Session.run q (Reading.exactSearch
                                          (sp_query p) (contextFilters p)
                                          (maxResults p))) ;;
        let results := map to_result records in
        Session.ret (SearchSuccess results (List.length results) "exact"
                                   (includeContext p)))
       (fun error => Session.ret (SearchFailure error)))
    Session.close.

End Search.

(** *** exploreKnowledgeGraph *)

Record explore_params : Type := mkExploreParams {
  ep_startConcept : string;
  ep_relationshipTypes : option (list string);
  ep_maxDepth : option nat
}.

Definition explore_types (p : explore_params) : list string :=
  match ep_relationshipTypes p with Some ts => ts | None => [] end.

Definition maxDepth (p : explore_params) : nat :=
  match ep_maxDepth p with Some d => d | None => 3 end.

Definition matchCondition (startConcept : string) : string :=
  if CypherBuilder.isUuid startConcept
  then "(start:Knowledge {id: $startConcept})"
  else Text.explore_byName.

Definition explore_query (p : explore_params) : built_query :=
  mkBuilt
    (Text.explore_match ++ matchCondition (ep_startConcept p) ++
     Text.explore_path ++
     CypherBuilder.relFilter (explore_types p) (maxDepth p) ++
     Text.explore_return)%string
    [ ("startConcept", VStr (ep_startConcept p)) ].

Record explored_node : Type := mkExplored {
  en_id : option string;
  en_name : option string;
  en_type : string;
  en_content : option string;
  en_source : option string;
  en_confidence : option Q;
  en_depth : option nat;
  en_relationships : list string
}.

(** [a || b] where both may be absent. *)
Definition or_else (a b : option string) : option string :=
  if JS.truthy_string a then a else b.

Definition start_of (n : node) : explored_node :=
  mkExplored (p_id n)
    (or_else (p_name n) (or_else (p_content n) (p_statement n)))
    (node_type n)
    (or_else (p_content n) (or_else (p_name n) (p_statement n)))
    (p_source n) (p_confidence n) None [].

Definition connected_of (conn : Reading.connection) : explored_node :=
  let n := Reading.conn_node conn in
  mkExplored (p_id n)
    (or_else (p_name n) (or_else (p_content n) (p_statement n)))
    (node_type n)
    (or_else (p_content n) (or_else (p_name n) (p_statement n)))
    (p_source n) (p_confidence n)
    (Some (Reading.conn_depth conn)) (Reading.conn_relationships conn).

(** What the summary holds under a name: a count, or a text that is
    no number. *)
Inductive tally : Type :=
| Count (n : nat)
| Text.

(** The properties every plain object inherits from
    [Object.prototype]. *)
Definition inherited : list string :=
  ["constructor"; "hasOwnProperty"; "isPrototypeOf"; "propertyIsEnumerable";
   "toLocaleString"; "toString"; "valueOf"; "__proto__";
   "__defineGetter__"; "__defineSetter__"; "__lookupGetter__";
   "__lookupSetter__"].

(** [summary[rel] = (summary[rel] || 0) + 1] on the plain object
    [summary], given as the list of its own properties.  A name the
    object does not hold yet counts from 0, unless the object
    inherits it: the inherited value is a function or an object, is
    truthy, and [+ 1] makes a text of it.  A text stays a text.
    Assigning to [__proto__] a value that is no object leaves the
    object as it is.  The list is in the order of the first
    assignments, which is not the order of enumeration when a name is
    a number. *)
Fixpoint count_type (rel : string) (summary : list (string * tally))
  : list (string * tally) :=
  match summary with
  | [] =>
      if (rel =? "__proto__")%string then []
      else if JS.mem rel inherited then [(rel, Text)]
      else [(rel, Count 1)]
  | (k, v) :: rest =>
      if (k =? rel)%string
      then (k, match v with Count n => Count (n + 1) | Text => Text end) :: rest
      else (k, v) :: count_type rel rest
  end.

Definition summarize (connectedNodes : list explored_node)
  : list (string * tally) :=
  fold_left (fun summary node =>
               fold_left (fun summary rel => count_type rel summary)
                         (en_relationships node) summary)
            connectedNodes [].

Record exploration : Type := mkExploration {
  startNode : explored_node;
  connectedNodes : list explored_node;
  relationshipSummary : list (string * tally)
}.

Inductive explore_response : Type :=
| ExploreSuccess (explorationData : exploration)
| ExploreFailure (error : string).

(** The [visualization] text, added on request, is left out: it is
    computed from the exploration data and changes no other field. *)
Definition exploreKnowledgeGraph (p : explore_params)
  : session explore_response :=
  Session.open ;;;
  Session.finally
    (Session.try_catch
       (records <- Session.run (explore_query p)
                     (Reading.explore (ep_startConcept p) (explore_types p)
                                      (maxDepth p)) ;;
        match records with
        | [] =>
            Session.ret (ExploreFailure
              ("No concept found matching: " ++ ep_startConcept p))
        | record :: _ =>
            let connectedNodes := map connected_of (snd record) in
            Session.ret (ExploreSuccess
              (mkExploration (start_of (fst record)) connectedNodes
                             (summarize connectedNodes)))
        end)
       (fun error => Session.ret (ExploreFailure error)))
    Session.close.

(** *** findKnowledgePaths *)

Record path_params : Type := mkPathParams {
  pp_conceptA : string;
  pp_conceptB : string;
  pp_maxPathLength : option nat;
  pp_relationshipConstraints : option (list string)
}.

Definition maxPathLength (p : path_params) : nat :=
  match pp_maxPathLength p with Some n => n | None => 5 end.

Definition relationshipConstraints (p : path_params) : list string :=
  match pp_relationshipConstraints p with Some ts => ts | None => [] end.

Definition builder_params (p : path_params) : CypherBuilder.paths_params :=
  CypherBuilder.mkPathsParams (pp_conceptA p) (pp_conceptB p)
    (Some (maxPathLength p)) (Some (relationshipConstraints p)) (Some true).

Record segment : Type := mkSegment {
  seg_source : Reading.path_node;
  seg_relationship : string;
  seg_target : Reading.path_node
}.

(** [for (let i = 0; i < pathNodes.length - 1; i++)], with
    [rels[i]?.type || 'RELATED_TO'] *)
Fixpoint segments_of (pathNodes : list Reading.path_node) (rels : list rel)
  : list segment :=
  match pathNodes with
  | sourceNode :: ((targetNode :: _) as rest) =>
      mkSegment sourceNode
        (JS.or_string (option_map rel_type (hd_error rels)) "RELATED_TO")
        targetNode
      :: segments_of rest (tl rels)
  | _ => []
  end.

Record found_path : Type := mkFoundPath {
  fp_index : nat;
  fp_length : nat;
  fp_nodes : list Reading.path_node;
  fp_segments : list segment
}.

(** [records.map((record, index) => ...)], the index counted from
    [from]. *)
Fixpoint to_paths (from : nat) (records : list Reading.path_record)
  : list found_path :=
  match records with
  | [] => []
  | record :: rest =>
      mkFoundPath (from + 1) (Reading.rec_pathLength record)
                  (Reading.rec_pathNodes record)
                  (segments_of (Reading.rec_pathNodes record)
                               (Reading.rec_rels record))
      :: to_paths (S from) rest
  end.

(** [Math.min(...xs)] on the lengths as they arrive.  The driver is
    created without [disableLosslessIntegers], so an integer of the
    store arrives as the driver's [Integer] object, whose [valueOf] is
    a BigInt: [Math.min], which converts its arguments to numbers,
    throws a TypeError on the first one.  [None] is the [Infinity] of
    no argument. *)
Definition bigint_to_number : string :=
  "Cannot convert a BigInt value to a number".

Definition math_min (xs : list nat) : outcome (option nat) :=
  match xs with
  | [] => Returned None
  | _ :: _ => Thrown bigint_to_number
  end.

Inductive paths_response : Type :=
| PathsFound (paths : list found_path) (count : nat)
             (shortestPathLength : option nat)
| PathsNotFound (message : string)
| PathsFailure (error : string).

(** [PathsFound] is [{success: true, found: true, ...}],
    [PathsNotFound] is [{success: true, found: false, message}] and
    [PathsFailure] is [{success: false, error}]. *)

Definition not_found_message (p : path_params) : string :=
  ("No paths found between " ++ JS.quoted (pp_conceptA p) ++ " and "
   ++ JS.quoted (pp_conceptB p) ++ " within " ++ JS.of_nat (maxPathLength p)
   ++ " steps.")%string.

Section Paths.

(** The store's message for a text it cannot parse. *)
Variable syntax_error : string -> string.

Definition findKnowledgePaths (p : path_params) : session paths_response :=
  Session.open ;;;
  Session.finally
    (Session.try_catch
       (let q := CypherBuilder.findPathsQuery (builder_params p) in
        records <- (if Reading.path_text_parses (builder_params p)
                    then Session.run q (Reading.findPaths (builder_params p))
                    else Session.run_rejected syntax_error q) ;;
        match records with
        | [] => Session.ret (PathsNotFound (not_found_message p))
        | _ =>
            let paths := to_paths 0 records in
            match math_min (map fp_length paths) with
            | Returned shortestPathLength =>
                Session.ret (PathsFound paths (List.length paths)
                                        shortestPathLength)
            | Thrown message => Session.throw message
            end
        end)
       (fun error => Session.ret (PathsFailure error)))
    Session.close.

End Paths.

(** *** analyzeKnowledgeGaps *)

Inductive gap : Type :=
| MissingConnection (concept1 concept2 : option string) (similarity : Q)
| WeakArea (concept : option string) (connectionCount : nat)
           (confidence : option Q) (reason : string)
| OutdatedContent (concept source : option string) (daysSinceUpdate : nat)
                  (confidence : option Q).

Inductive gaps_response : Type :=
| GapsSuccess (domain analysisType : string) (threshold : Q)
              (results : list gap) (count : nat)
| GapsFailure (error : string).

Definition gap_of_missing (r : Reading.missing_record) : gap :=
  MissingConnection (Reading.mc_concept1 r) (Reading.mc_concept2 r)
                    (Reading.mc_similarity r).

Definition gap_of_weak (r : Reading.weak_record) : gap :=
  WeakArea (Reading.wa_concept r) (Reading.wa_connectionCount r)
           (Reading.wa_confidence r) (Reading.wa_reason r).

Definition gap_of_outdated (r : Reading.outdated_record) : gap :=
  OutdatedContent (Reading.oc_concept r) (Reading.oc_source r)
                  (Reading.oc_daysSinceUpdate r) (Reading.oc_confidence r).

Section Gaps.

Variable jaroWinklerDistance : string -> string -> Q.

(** The builder is called inside [try]: what it throws is caught
    below.  The records are those of the text the builder chose, and
    the second [switch] maps them by the same [analysisType]. *)
Definition analyzeKnowledgeGaps
           (domain analysisType : string) (threshold : option Q)
  : session gaps_response :=
  let threshold := CypherBuilder.threshold_or_default threshold in
  Session.open ;;;
  Session.finally
    (Session.try_catch
       (match CypherBuilder.analyzeGapsQuery domain analysisType (Some threshold) with
        | Thrown e => Session.throw e
        | Returned q =>
            analysisResults <-
              (if (analysisType =? "missing-connections")%string then
                 rs <- Session.run q (fun g =>
                         Reading.missingConnections jaroWinklerDistance
                                                    g domain threshold) ;;
                 Session.ret (map gap_of_missing rs)
               else if (analysisType =? "weak-areas")%string then
                 rs <- Session.run q (fun g =>
                         Reading.weakAreas g domain threshold) ;;
                 Session.ret (map gap_of_weak rs)
               else
                 rs <- Session.run_clocked q (fun now g =>
                         Reading.outdatedContent now g domain) ;;
                 Session.ret (map gap_of_outdated rs)) ;;
            Session.ret (GapsSuccess domain analysisType threshold
                                     analysisResults
                                     (List.length analysisResults))
        end)
       (fun error => Session.ret (GapsFailure error)))
    Session.close.

End Gaps.

End Retrieval.

(** ** knowledge/storage.js *)

Module Storage.

Import Graph.
Local Open Scope session_scope.

(** *** What the write queries do to the store *)

Fixpoint lookup (k : string) (bound : list (string * value)) : value :=
  match bound with
  | [] => VNull
  | (k', v) :: rest => if (k' =? k)%string then v else lookup k rest
  end.

Definition bound_string (k : string) (bound : list (string * value))
  : option string :=
  match lookup k bound with VStr s => Some s | _ => None end.

Definition bound_number (k : string) (bound : list (string * value))
  : option Q :=
  match lookup k bound with VNum q => Some q | _ => None end.

(** [randomUUID()]: the store's next fresh number, in the shape of an
    identifier. *)
Fixpoint zeros (n : nat) : string :=
  match n with O => EmptyString | S n' => String "0" (zeros n') end.

Definition uuid (n : nat) : string :=
  let digits := JS.of_nat n in
  ("00000000-0000-4000-8000-" ++ zeros (12 - String.length digits) ++ digits)%string.

Definition with_store (w : world) (g : graph) (used : nat) : world :=
  mkWorld g (log w) (clock w) (fresh w + used) (outage w).

(** [MERGE (c:Concept {name: $name})]: the nodes the pattern matches. *)
Definition concept_named (name : option string) (n : node) : bool :=
  has_label "Concept" n && holds (eq3 (p_name n) name).

(** [ON CREATE SET c.id = randomUUID(), c.description = $description,
     c.source = $source, c.confidence = $confidence,
     c.created_date = datetime(), c.last_updated = datetime(),
     c.metadata = $metadata] *)
Definition created_concept (bound : list (string * value)) (w : world) : node :=
  mkNode (fresh w) ["Concept"]
         (Some (uuid (fresh w)))
         (bound_string "name" bound)
         None None
         (bound_string "description" bound)
         (bound_string "source" bound)
         (bound_number "confidence" bound)
         None
         (Some (clock w)) (Some (clock w))
         (bound_string "metadata" bound).

(** [ON MATCH SET
     c.description = CASE WHEN $description IS NOT NULL AND
       $description <> '' THEN $description ELSE c.description END,
     c.last_updated = datetime(),
     c.confidence = CASE WHEN $confidence > c.confidence THEN $confidence
       ELSE c.confidence END] *)
Definition matched_concept (bound : list (string * value)) (now : nat)
           (c : node) : node :=
  let description := bound_string "description" bound in
  let confidence := bound_number "confidence" bound in
  mkNode (node_key c) (labels c) (p_id c) (p_name c) (p_content c)
         (p_statement c)
         (if holds (and3 (is_not_null description)
                         (option_map negb (eq3 description (Some EmptyString))))
          then description else p_description c)
         (p_source c)
         (if holds (lt3 (p_confidence c) confidence)
          then confidence else p_confidence c)
         (p_keywords c) (p_created_date c) (Some now) (p_metadata c).

(** [RETURN c.id as id, c.name as name, labels(c) as labels] *)
Record concept_record : Type := mkConceptRecord {
  cr_id : option string;
  cr_name : option string;
  cr_labels : list string
}.

Definition concept_record_of (c : node) : concept_record :=
  mkConceptRecord (p_id c) (p_name c) (labels c).

Definition mergeConcept (bound : list (string * value)) (w : world)
  : list concept_record * world :=
  let name := bound_string "name" bound in
  match filter (concept_named name) (nodes (store w)) with
  | [] =>
      let c := created_concept bound w in
      ([concept_record_of c],
       with_store w (mkGraph (nodes (store w) ++ [c]) (rels (store w))) 1)
  | _ =>
      let update c :=
        if concept_named name c then matched_concept bound (clock w) c else c in
      let updated := map update (nodes (store w)) in
      (map concept_record_of (filter (concept_named name) updated),
       with_store w (mkGraph updated (rels (store w))) 0)
  end.

(** [MERGE (a)-[r:TYPE]->(b)], then [SET r += $properties]: the
    relationship is created when none of that type joins the two
    nodes in that direction; the given properties overwrite. *)
Definition joins (a : nat) (type : string) (b : nat) (r : rel) : bool :=
  (rel_start r =? a) && (rel_type r =? type)%string && (rel_end r =? b).

Fixpoint set_properties (properties old : list (string * string))
  : list (string * string) :=
  match properties with
  | [] => old
  | (k, v) :: rest =>
      set_properties rest
        ((k, v) :: filter (fun kv => negb (fst kv =? k)%string) old)
  end.

Definition mergeRel (a : nat) (type : string) (b : nat)
           (properties : list (string * string)) (w : world) : world :=
  let g := store w in
  if existsb (joins a type b) (rels g) then
    with_store w
      (mkGraph (nodes g)
         (map (fun r =>
                 if joins a type b r
                 then mkRel (rel_key r) (rel_start r) (rel_type r) (rel_end r)
                            (set_properties properties (rel_properties r))
                 else r) (rels g))) 0
  else
    with_store w
      (mkGraph (nodes g)
               (rels g ++ [mkRel (fresh w) a type b (set_properties properties [])]))
      1.

(** [MERGE (d:Domain {name: $domain})
     ON CREATE SET d.id = randomUUID(), d.created_date = datetime()] *)
Definition domain_named (domain : string) (n : node) : bool :=
  has_label "Domain" n && holds (eq3 (p_name n) (Some domain)).

Definition mergeDomain (domain : string) (w : world) : world :=
  if existsb (domain_named domain) (nodes (store w)) then w
  else
    with_store w
      (mkGraph (nodes (store w) ++
                [mkNode (fresh w) ["Domain"] (Some (uuid (fresh w)))
                        (Some domain) None None None None None None
                        (Some (clock w)) None None])
               (rels (store w))) 1.

Definition with_id (label : option string) (id : option string) (n : node)
  : bool :=
  match label with Some l => has_label l n | None => true end &&
  holds (eq3 (p_id n) id).

(** [MATCH (c:Concept {id: $conceptId}) MERGE (d:Domain ...)
     MERGE (c)-[:BELONGS_TO]->(d) RETURN d.name as domainName] *)
Definition attachDomain (conceptId : option string) (domain : string)
           (w : world) : list (option string) * world :=
  fold_left (fun acc c =>
    let w1 := mergeDomain domain (snd acc) in
    fold_left (fun acc d =>
                 ((fst acc ++ [p_name d])%list,
                  mergeRel (node_key c) "BELONGS_TO" (node_key d) [] (snd acc)))
              (filter (domain_named domain) (nodes (store w1)))
              (fst acc, w1))
    (filter (with_id (Some "Concept") conceptId) (nodes (store w)))
    ([], w).

(** [MATCH (a:...) MATCH (b) ... MERGE (a)-[r:TYPE]->(b) SET r += $properties
     RETURN type(r) as relationship, a.id, b.id] *)
Record rel_record : Type := mkRelRecord {
  rr_relationship : string;
  rr_sourceId : option string;
  rr_targetId : option string
}.

Definition relate (label : option string) (sourceId targetId : option string)
           (type : string) (properties : list (string * string)) (w : world)
  : list rel_record * world :=
  fold_left (fun acc a =>
    fold_left (fun acc b =>
                 ((fst acc ++ [mkRelRecord type (p_id a) (p_id b)])%list,
                  mergeRel (node_key a) type (node_key b) properties (snd acc)))
              (filter (with_id None targetId) (nodes (store w)))
              acc)
    (filter (with_id label sourceId) (nodes (store w)))
    ([], w).

(** The store after the concept query of the builder has run, and the
    concepts of a name it holds. *)
Definition upsert (p : CypherBuilder.concept_params) (w : world) : world :=
  snd (mergeConcept (params (CypherBuilder.createConceptQuery p)) w).

Definition concepts_named (name : string) (w : world) : list node :=
  filter (concept_named (Some name)) (nodes (store w)).

(** *** storeConcept *)

Record concept_request : Type := mkConceptRequest {
  concept : CypherBuilder.concept_params;
  domain : option string;
  relationships : option (list (string * string))
}.

Inductive store_response : Type :=
| Stored (id : option string) (name : option string)
| StoreFailure (error : string).

Definition relateConcept_query (type : string) (conceptId : option string)
           (targetId : string) : built_query :=
  mkBuilt (Text.relateConcept_pre ++ type ++ Text.relateConcept_post)%string
    [ ("conceptId", CypherBuilder.opt_value conceptId);
      ("targetId", VStr targetId) ].

(** [for (const rel of params.relationships)]; a relationship is a
    pair of its [type] and its [targetId]. *)
Fixpoint relate_all (conceptId : option string) (rels : list (string * string))
  : session unit :=
  match rels with
  | [] => Session.ret tt
  | (type, targetId) :: rest =>
      Session.run_update (relateConcept_query type conceptId targetId)
        (relate (Some "Concept") conceptId (Some targetId) type []) ;;;
      relate_all conceptId rest
  end.

Definition storeConcept (p : concept_request) : session store_response :=
  Session.open ;;;
  Session.finally
    (Session.try_catch
       (let q := CypherBuilder.createConceptQuery (concept p) in
        records <- Session.run_update q (mergeConcept (params q)) ;;
        match records with
        | [] => Session.throw "Failed to create concept"
        | record :: _ =>
            (if JS.truthy_string (domain p) then
               Session.run_update
                 (mkBuilt Text.attachDomain_text
                    [ ("conceptId", CypherBuilder.opt_value (cr_id record));
                      ("domain", CypherBuilder.opt_value (domain p)) ])
                 (attachDomain (cr_id record)
                               (JS.or_string (domain p) EmptyString)) ;;;
               Session.ret tt
             else Session.ret tt) ;;;
            relate_all (cr_id record)
                       (match relationships p with Some rs => rs | None => [] end) ;;;
            Session.ret (Stored (cr_id record) (cr_name record))
        end)
       (fun error => Session.ret (StoreFailure error)))
    Session.close.

(** *** createRelationship *)

Record relationship_params : Type := mkRelationshipParams {
  sourceId : string;
  targetId : string;
  type : string;
  properties : option (list (string * string))
}.

Definition createRelationship_query (p : relationship_params) : built_query :=
  let properties := match properties p with Some ps => ps | None => [] end in
  mkBuilt
    (Text.createRelationship_pre ++ type p ++ Text.createRelationship_post)%string
    [ ("sourceId", VStr (sourceId p));
      ("targetId", VStr (targetId p));
      ("properties", VMap properties) ].

Inductive relationship_response : Type :=
| RelationshipCreated (relationship : string) (sourceId targetId : option string)
| RelationshipFailure (error : string).

Definition createRelationship (p : relationship_params)
  : session relationship_response :=
  Session.open ;;;
  Session.finally
    (Session.try_catch
       (records <- Session.run_update (createRelationship_query p)
                     (relate None (Some (sourceId p)) (Some (targetId p)) (type p)
                        (match properties p with Some ps => ps | None => [] end)) ;;
        match records with
        | [] => Session.throw "Failed to create relationship"
        | record :: _ =>
            Session.ret (RelationshipCreated (rr_relationship record)
                                             (rr_sourceId record)
                                             (rr_targetId record))
        end)
       (fun error => Session.ret (RelationshipFailure error)))
    Session.close.

End Storage.

(** ** Regular expressions

    A backtracking matcher for the fragment the extractor uses:
    character classes, sequence, the greedy star and plus, and the
    word boundary.  A position is the character before it, if any,
    and the text after it. *)

Module Regex.

Inductive re : Type :=
| Class (p : ascii -> bool)
| Seq (r1 r2 : re)
| Star (r : re)
| Boundary.

Definition Plus (r : re) : re := Seq r (Star r).

(** [\b]: exactly one side of the position is a word character. *)
Definition at_boundary (before : option ascii) (after : string) : bool :=
  xorb (match before with Some c => JS.is_word c | None => false end)
       (match after with String c _ => JS.is_word c | EmptyString => false end).

(** [run r before s k]: match [r] at the position, then go on with
    [k]; the alternatives are tried in the order of a backtracking
    engine, the longest repetition first.  An iteration of a star
    that consumes nothing is refused. *)
Fixpoint run (r : re) (before : option ascii) (s : string)
         (k : option ascii -> string -> option string) {struct r}
  : option string :=
  match r with
  | Class p =>
      match s with
      | String c s' => if p c then k (Some c) s' else None
      | EmptyString => None
      end
  | Seq r1 r2 => run r1 before s (fun before' s' => run r2 before' s' k)
  | Star r1 =>
      (fix star (fuel : nat) (before : option ascii) (s : string)
         : option string :=
         match fuel with
         | O => k before s
         | S fuel' =>
             match run r1 before s (fun before' s' =>
                     if String.length s' <? String.length s
                     then star fuel' before' s' else None) with
             | Some rest => Some rest
             | None => k before s
             end
         end) (String.length s) before s
  | Boundary => if at_boundary before s then k before s else None
  end.

(** The characters an expression can consume. *)
Fixpoint consumes (r : re) (c : ascii) : bool :=
  match r with
  | Class p => p c
  | Seq r1 r2 => consumes r1 c || consumes r2 c
  | Star r1 => consumes r1 c
  | Boundary => false
  end.

(** Every character of a text is in a class. *)
Fixpoint all_in (p : ascii -> bool) (s : string) : bool :=
  match s with
  | EmptyString => true
  | String c s' => p c && all_in p s'
  end.

(** The text left after a match at the position, if there is one. *)
Definition match_here (r : re) (before : option ascii) (s : string)
  : option string :=
  run r before s (fun _ rest => Some rest).

(** [s.match(/r/g)]: the matches from left to right, each search
    starting where the previous match ended.  [skip] counts the
    characters still inside the previous match. *)
Fixpoint scan (r : re) (before : option ascii) (skip : nat) (s : string)
         {struct s} : list string :=
  match skip with
  | S skip' =>
      match s with
      | String c s' => scan r (Some c) skip' s'
      | EmptyString => []
      end
  | O =>
      match match_here r before s with
      | Some rest =>
          let n := String.length s - String.length rest in
          substring 0 n s ::
          match s with
          | String c s' => scan r (Some c) (n - 1) s'
          | EmptyString => []
          end
      | None =>
          match s with
          | String c s' => scan r (Some c) 0 s'
          | EmptyString => []
          end
      end
  end.

Definition match_all (r : re) (s : string) : list string := scan r None 0 s.

End Regex.

(** ** extractors/mcp-extractor.js

    The two extraction steps of [processOutput]; what it then stores
    goes through the storage operations. *)

Module McpExtractor.

Import Regex.

(** The expression of step 1, [conceptRegex]: a word boundary, a
    capitalised run of letters [[A-Z][a-zA-Z]*], any number of
    further such runs each after white space [\s+], and a word
    boundary. *)
Definition conceptRegex : re :=
  Seq Boundary
   (Seq (Class JS.is_upper)
    (Seq (Star (Class JS.is_letter))
     (Seq (Star (Seq (Plus (Class JS.is_space))
                 (Seq (Class JS.is_upper) (Star (Class JS.is_letter)))))
      Boundary))).

Definition rawConcepts (rawOutput : string) : list string :=
  match_all conceptRegex rawOutput.

Definition stopwords : list string :=
  ["The"; "A"; "An"; "This"; "That"; "These"; "Those"; "I"; "You"; "We"; "They"].

Definition uniqueConcepts (rawOutput : string) : list string :=
  firstn 10
    (filter (fun concept =>
               negb (JS.mem concept stopwords) && (3 <? String.length concept))
            (JS.unique (rawConcepts rawOutput))).

Definition factIndicators : list string :=
  ["is a"; "are"; "was"; "were"; "will be"; "can be"; "should be";
   "has"; "have"; "had"; "contains"; "includes"; "consists of";
   "enables"; "requires"; "supports"; "contradicts"].

(** [/[.!?]/] *)
Definition sentence_end (c : ascii) : bool :=
  Ascii.eqb c "." || Ascii.eqb c "!" || Ascii.eqb c "?".

Definition sentences (rawOutput : string) : list string :=
  filter (fun s => (20 <? String.length s) && (String.length s <? 200))
         (map JS.trim (JS.split sentence_end rawOutput)).

Definition potentialFacts (rawOutput : string) : list string :=
  firstn 5
    (filter (fun sentence =>
               existsb (fun indicator =>
                          JS.includes (JS.toLowerCase sentence) indicator)
                       factIndicators)
            (sentences rawOutput)).

End McpExtractor.

(** ** A small store

    The two concepts of the end-to-end scenario, stored through
    [storeConcept] into an empty store under one domain. *)

Module Scenario.

Definition empty_world : world := mkWorld (Graph.mkGraph [] []) [] 0 0 None.

Definition concept_in (domain name : string) (confidence : Q)
  : Storage.concept_request :=
  Storage.mkConceptRequest
    (CypherBuilder.mkConceptParams name None (Some "scenario") (Some confidence) None)
    (Some domain) None.

Definition after {A : Type} (m : session A) (w : world) : world := snd (m w).

Definition two_concepts : world :=
  after (Storage.storeConcept
           (concept_in "Financial Planning" "Tax Planning" (8 # 10)))
    (after (Storage.storeConcept
              (concept_in "Financial Planning" "Infinite Banking" (9 # 10)))
       empty_world).

(** The two concepts once more, after
    ["Infinite Banking" -[:RELATED_TO]-> "Tax Planning"] has been
    created. *)
Definition related : world :=
  after (Storage.createRelationship
           (Storage.mkRelationshipParams (Storage.uuid 0) (Storage.uuid 3)
                                         "RELATED_TO" None))
        two_concepts.

Definition banking_to_tax (maxPathLength : nat) : Retrieval.path_params :=
  Retrieval.mkPathParams "Infinite Banking" "Tax Planning"
                         (Some maxPathLength) None.

(** A store with one knowledge node that carries both a content and a
    name. *)
Definition note : Graph.node :=
  Graph.mkNode 0 ["Knowledge"; "Note"] (Some (Storage.uuid 0))
               (Some "beta") (Some "alpha") None None None
               (Some (9 # 10)) None None None None.

Definition one_note : world := mkWorld (Graph.mkGraph [note] []) [] 0 1 None.

Definition braces (n : Graph.node) : string := "{}".

(** The text of the extraction example. *)
Definition sample_text : string :=
  "Neo4j is a Graph Database. It supports Cypher queries.".

(** A similarity function for the examples; the two concepts carry no
    keywords, so it is never consulted on them. *)
Definition no_similarity (a b : string) : Q := 0.

End Scenario.

(** ** The identifier allow-list of the specification *)

Module Spec.

(** The pattern [^[A-Za-z_][A-Za-z0-9_]*$] the specification asks of
    every interpolated token.  It follows the specification's words;
    no function of the sources tests it. *)
Definition is_identifier (token : string) : bool :=
  match token with
  | String c rest =>
      (JS.is_letter c || Ascii.eqb c "_") &&
      forallb JS.is_word (list_ascii_of_string rest)
  | EmptyString => false
  end.

(** A caller's token that is not an identifier. *)
Definition unsafe_token : string := "ABOUT]->(c) DETACH DELETE f //".

End Spec.

(** ** What an operation leaves behind *)

Module Discipline.

(** The same store, clock and identifier supply as before, and a log
    that grew by the opening of a session, the given queries and the
    closing of the session. *)
Definition released (w w' : world) (queries : list event) : Prop :=
  store w' = store w /\ clock w' = clock w /\ fresh w' = fresh w /\
  outage w' = outage w /\
  log w' = (log w ++ SessionOpened :: queries ++ [SessionClosed])%list.

Definition asked (q : built_query) : event := QueryRun (query q) (params q).



Definition linked (a : nat) (type : string) (b : nat) (w : world) : bool :=
  existsb (Storage.joins a type b) (Graph.rels (store w)).

(** The second world holds the nodes of the first, followed by nodes
    labelled [Domain] and nothing else; every relationship of a type
    between two nodes of the first is still there; and the store
    answers as before. *)
Definition grown (w1 w2 : world) : Prop :=
  (exists extra,
      Graph.nodes (store w2) = (Graph.nodes (store w1) ++ extra)%list /\
      Forall (fun n => Graph.labels n = ["Domain"]) extra) /\
  (forall a type b, linked a type b w1 = true -> linked a type b w2 = true) /\
  outage w2 = outage w1.

(** Tokens that are names: what the builders splice into a text is
    then a relationship type or a label, and nothing else. *)
Definition names (tokens : list string) : Prop :=
  Forall (fun token => Spec.is_identifier token = true) tokens.

(** The content types of a filter. *)
Definition types_of (f : Reading.filters) : list string :=
  match Reading.f_contentType f with
  | Some (Reading.OneType t) => [t]
  | Some (Reading.ManyTypes ts) => ts
  | None => []
  end.

(** The data model gives an entity one primary text: a node carries
    at most one of [content], [name] and [statement]. *)
Definition one_text (n : Graph.node) : Prop :=
  (Graph.p_name n = None /\ Graph.p_statement n = None) \/
  (Graph.p_content n = None /\ Graph.p_statement n = None) \/
  (Graph.p_content n = None /\ Graph.p_name n = None).

(** Every node of the first world is still a node of the second, with
    its key, labels, id and name. *)
Definition kept (w1 w2 : world) : Prop :=
  forall n, In n (Graph.nodes (store w1)) ->
    exists n', In n' (Graph.nodes (store w2)) /\
      Graph.node_key n' = Graph.node_key n /\
      Graph.labels n' = Graph.labels n /\
      Graph.p_id n' = Graph.p_id n /\
      Graph.p_name n' = Graph.p_name n.

End Discipline.

(** ** Reading a relationship summary *)

Module Summary.

(** What the summary holds of its own under a name. *)
Fixpoint count_of (summary : list (string * Retrieval.tally)) (type : string)
  : option Retrieval.tally :=
  match summary with
  | [] => None
  | (k, v) :: rest => if (k =? type)%string then Some v else count_of rest type
  end.

(** The relationship names of all connected nodes, in order. *)
Definition all_relationships (nodes : list Retrieval.explored_node)
  : list string :=
  List.concat (map Retrieval.en_relationships nodes).

End Summary.

(** ** Further stores for the examples *)

Module Examples.

(** The store of the scenario while the database is unreachable. *)
Definition unreachable : world :=
  mkWorld (store Scenario.two_concepts) [] 0 (fresh Scenario.two_concepts)
          (Some "ServiceUnavailable").

(** A filter that asks for full confidence. *)
Definition certain_only : Reading.filters :=
  Reading.mkFilters None (Some 1%Q) None None.

(** The empty store after one concept has been stored. *)
Definition neo4j : CypherBuilder.concept_params :=
  CypherBuilder.mkConceptParams "Neo4j" (Some "A graph database")
                                (Some "docs") (Some (6 # 10)) None.

Definition one_concept : world := Storage.upsert neo4j Scenario.empty_world.




(** The two concepts of the scenario by their identifiers. *)
Definition banking_to_tax_by_id (maxPathLength : option nat)
  : Retrieval.path_params :=
  Retrieval.mkPathParams (Storage.uuid 0) (Storage.uuid 3) maxPathLength None.

(** A message of the store for a text it cannot parse. *)
Definition rejected (text : string) : string := "SyntaxError".

(** Two generic knowledge nodes as [storeKnowledge] writes them, with
    a content and no name or statement, and a relationship from the
    first to the second. *)
Definition memo : Graph.node :=
  Graph.mkNode 0 ["Knowledge"; "Note"] (Some (Storage.uuid 0))
               None (Some "Alpha beta") None None (Some "notes")
               (Some (9 # 10)) None (Some 0) (Some 0) (Some "{}").

Definition draft : Graph.node :=
  Graph.mkNode 1 ["Knowledge"; "Note"] (Some (Storage.uuid 1))
               None (Some "Gamma") None None (Some "notes")
               (Some (8 # 10)) None (Some 0) (Some 0) (Some "{}").

Definition memos : world :=
  mkWorld (Graph.mkGraph [memo; draft]
                         [Graph.mkRel 2 0 "CITES" 1 []]) [] 0 3 None.

End Examples.

(** ** Storing the extracted concepts (extractors/mcp-extractor.js) *)

Module Extraction.

Local Open Scope session_scope.

(** An entry of [extractionResults.concepts]. *)
Record extracted : Type := mkExtracted {
  ex_id : option string;
  ex_name : string
}.

(** The request that [processOutput] makes for a candidate:
    [{name: conceptName,
      description: `Concept extracted from ${mcpSource}`,
      source: mcpSource, confidence: 0.7,
      metadata: {extraction_method: 'mcp_processing',
                 processing_instructions: processingInstructions}}] *)
Definition concept_for (mcpSource processingInstructions conceptName : string)
  : Storage.concept_request :=
  Storage.mkConceptRequest
    (CypherBuilder.mkConceptParams
       conceptName
       (Some ("Concept extracted from " ++ mcpSource)%string)
       (Some mcpSource)
       (Some (7 # 10))
       (Some [ ("extraction_method", "mcp_processing");
               ("processing_instructions", processingInstructions) ]))
    None None.

(** [for (const conceptName of uniqueConcepts) {
       const conceptResult = await this.storage.storeConcept({...});
       if (conceptResult.success) {
         extractionResults.concepts.push({id: conceptResult.id,
                                          name: conceptName}); } }] *)
Fixpoint storeConcepts (mcpSource processingInstructions : string)
         (candidates : list string) (concepts : list extracted)
  : session (list extracted) :=
  match candidates with
  | [] => Session.ret concepts
  | conceptName :: rest =>
      conceptResult <-
        Storage.storeConcept
          (concept_for mcpSource processingInstructions conceptName) ;;
      storeConcepts mcpSource processingInstructions rest
        (match conceptResult with
         | Storage.Stored id _ => (concepts ++ [mkExtracted id conceptName])%list
         | Storage.StoreFailure _ => concepts
         end)
  end.

(** Step 1 of [processOutput] on a raw output. *)
Definition extractConcepts (mcpSource processingInstructions rawOutput : string)
  : session (list extracted) :=
  storeConcepts mcpSource processingInstructions
                (McpExtractor.uniqueConcepts rawOutput) [].

(** The store holds a concept with the name and the id of an entry. *)
Definition held (w : world) (e : extracted) : Prop :=
  exists c, In c (Storage.concepts_named (ex_name e) w) /\
            Graph.p_id c = ex_id e.

(** The concept queries asked for a list of candidates. *)
Definition asked_for (mcpSource processingInstructions : string)
           (candidates : list string) : list event :=
  map (fun conceptName =>
         Discipline.asked
           (CypherBuilder.createConceptQuery
              (Storage.concept
                 (concept_for mcpSource processingInstructions conceptName))))
      candidates.

End Extraction.

(** ** The path tool of the server (index.js) *)

Module HandlerText.

(* handleFindPaths: the text when no path is found, around ${args.conceptA}, ${args.conceptB} and ${args.maxPathLength || 5} *)
Definition paths_none_0 : string :=
("No paths found between " ++ JS.dquote)%string.
Definition paths_none_1 : string :=
(JS.dquote ++ " and " ++ JS.dquote)%string.
Definition paths_none_2 : string :=
(JS.dquote ++ " within ")%string.
Definition paths_none_3 : string :=
" steps.

Try:
• Increasing maxPathLength
• Using broader concept terms
• Checking if both concepts exist in the knowledge graph".

(* handleFindPaths: the head of the text when paths are found, around ${args.conceptA}, ${args.conceptB}, ${args.maxPathLength || 5} and ${paths.length} *)
Definition paths_head_0 : string :=
"Knowledge Paths Found

From: ".
Definition paths_head_1 : string :=
"
To: ".
Definition paths_head_2 : string :=
"
Max Path Length: ".
Definition paths_head_3 : string :=
"

Found ".
Definition paths_head_4 : string :=
" path(s):".

(* handleFindPaths: the line of a path, around ${path.index}, ${path.length} and ${path.nodes.length} *)
Definition path_0 : string :=
"

Path ".
Definition path_1 : string :=
" (".
Definition path_2 : string :=
" steps, ".
Definition path_3 : string :=
" nodes):".

(* handleFindPaths: the line of a segment, around its source, relationship and target *)
Definition segment_0 : string :=
"
  ".
Definition segment_1 : string :=
" --[".
Definition segment_2 : string :=
"]--> ".

(* handleFindPaths: the end of the text, around ${result.shortestPathLength} *)
Definition paths_tail_0 : string :=
"

Shortest path has ".
Definition paths_tail_1 : string :=
" steps.

Use explore-knowledge-graph to examine nodes along these paths in detail.".

End HandlerText.

Module Handlers.

Local Open Scope session_scope.

(** [{content: [{type: "text", text}]}], or
    [{error: {code, message, data: {details}}}] *)
Inductive tool_response : Type :=
| ToolContent (text : string)
| ToolError (code : Z) (message : string) (details : string).

(** [a || b] on two values that are each a string or [null]. *)
Definition or_else (a b : option string) : option string :=
  if JS.truthy_string a then a else b.

(** A string or [null] in a template literal. *)
Definition shown (a : option string) : string :=
  match a with Some s => s | None => "null" end.

(** [args.maxPathLength || 5] *)
Definition shown_bound (args : Retrieval.path_params) : nat :=
  match Retrieval.pp_maxPathLength args with
  | Some (S n) => S n
  | _ => 5
  end.

(** [${segment.source.name || segment.source.id}
     --[${segment.relationship}]-->
     ${segment.target.name || segment.target.id}] *)
Definition segment_line (segment : Retrieval.segment) : string :=
  (HandlerText.segment_0
   ++ shown (or_else (Reading.pn_name (Retrieval.seg_source segment))
                     (Reading.pn_id (Retrieval.seg_source segment)))
   ++ HandlerText.segment_1 ++ Retrieval.seg_relationship segment
   ++ HandlerText.segment_2
   ++ shown (or_else (Reading.pn_name (Retrieval.seg_target segment))
                     (Reading.pn_id (Retrieval.seg_target segment))))%string.

(** The text added for a path: its line, then the lines of its
    segments. *)
Definition path_lines (path : Retrieval.found_path) : string :=
  (HandlerText.path_0 ++ JS.of_nat (Retrieval.fp_index path)
   ++ HandlerText.path_1 ++ JS.of_nat (Retrieval.fp_length path)
   ++ HandlerText.path_2 ++ JS.of_nat (List.length (Retrieval.fp_nodes path))
   ++ HandlerText.path_3
   ++ String.concat EmptyString (map segment_line (Retrieval.fp_segments path)))%string.

(** [Math.min] of no argument is [Infinity]. *)
Definition shown_min (m : option nat) : string :=
  match m with Some n => JS.of_nat n | None => "Infinity" end.

Definition no_paths_text (conceptA conceptB : string) (bound : nat) : string :=
  (HandlerText.paths_none_0 ++ conceptA ++ HandlerText.paths_none_1 ++ conceptB
   ++ HandlerText.paths_none_2 ++ JS.of_nat bound
   ++ HandlerText.paths_none_3)%string.

Section PathTool.

(** The store's message for a text it cannot parse. *)
Variable syntax_error : string -> string.

Definition handleFindPaths (args : Retrieval.path_params)
  : session tool_response :=
  result <- Retrieval.findKnowledgePaths syntax_error args ;;
  match result with
  | Retrieval.PathsFailure error =>
      Session.ret (ToolError (-32603) "Failed to find knowledge paths" error)
  | Retrieval.PathsNotFound _ =>
      Session.ret
        (ToolContent (no_paths_text (Retrieval.pp_conceptA args)
                                    (Retrieval.pp_conceptB args)
                                    (shown_bound args)))
  | Retrieval.PathsFound paths _ shortestPathLength =>
      Session.ret
        (ToolContent
           (HandlerText.paths_head_0 ++ Retrieval.pp_conceptA args
            ++ HandlerText.paths_head_1 ++ Retrieval.pp_conceptB args
            ++ HandlerText.paths_head_2 ++ JS.of_nat (shown_bound args)
            ++ HandlerText.paths_head_3 ++ JS.of_nat (List.length paths)
            ++ HandlerText.paths_head_4
            ++ String.concat EmptyString (map path_lines paths)
            ++ HandlerText.paths_tail_0 ++ shown_min shortestPathLength
            ++ HandlerText.paths_tail_1)%string)
  end.

End PathTool.

End Handlers.

(** ** Setting up the schema (schemas/schema-setup.js) *)

Module SchemaSetup.

Import Graph.
Local Open Scope session_scope.

(* setupSchema: the query that merges a domain *)
Definition domainQuery : string :=
"
        MERGE (d:Domain {name: $name})
        ON CREATE SET 
          d.id = randomUUID(), 
          d.description = $description, 
          d.created_date = datetime()
        RETURN d
      ".

(** [constraints] *)
Definition constraints : list string :=
  [ "CREATE CONSTRAINT knowledge_id IF NOT EXISTS FOR (k:Knowledge) REQUIRE k.id IS UNIQUE";
    "CREATE CONSTRAINT concept_id IF NOT EXISTS FOR (c:Concept) REQUIRE c.id IS UNIQUE";
    "CREATE CONSTRAINT concept_name IF NOT EXISTS FOR (c:Concept) REQUIRE c.name IS UNIQUE";
    "CREATE CONSTRAINT fact_id IF NOT EXISTS FOR (f:Fact) REQUIRE f.id IS UNIQUE";
    "CREATE CONSTRAINT source_id IF NOT EXISTS FOR (s:Source) REQUIRE s.id IS UNIQUE";
    "CREATE CONSTRAINT person_id IF NOT EXISTS FOR (p:Person) REQUIRE p.id IS UNIQUE";
    "CREATE CONSTRAINT domain_id IF NOT EXISTS FOR (d:Domain) REQUIRE d.id IS UNIQUE";
    "CREATE CONSTRAINT ai_processing_id IF NOT EXISTS FOR (a:AIProcessing) REQUIRE a.id IS UNIQUE" ].

(** [indexes] *)
Definition indexes : list string :=
  [ "CREATE INDEX knowledge_content IF NOT EXISTS FOR (k:Knowledge) ON (k.content)";
    "CREATE INDEX knowledge_source IF NOT EXISTS FOR (k:Knowledge) ON (k.source)";
    "CREATE INDEX knowledge_confidence IF NOT EXISTS FOR (k:Knowledge) ON (k.confidence)";
    "CREATE INDEX concept_name_idx IF NOT EXISTS FOR (c:Concept) ON (c.name)";
    "CREATE INDEX fact_statement IF NOT EXISTS FOR (f:Fact) ON (f.statement)";
    "CREATE INDEX source_type IF NOT EXISTS FOR (s:Source) ON (s.source_type)" ].

(** [domains]: the [name] and the [description] of each *)
Definition domains : list (string * string) :=
  [ ("Financial Planning",
     "Knowledge related to financial strategies and planning");
    ("Technology",
     "Technical knowledge and programming concepts");
    ("Business",
     "Business processes and strategies");
    ("General",
     "General knowledge not fitting other categories") ].

(** [try { await session.run(statement); } catch (err) { ... }]: the
    statement is run with no parameter and yields no record; an error
    is reported on the console and goes no further.  The console is
    not part of the model. *)
Definition attempt (statement : string) : session unit :=
  Session.try_catch
    (Session.run (mkBuilt statement []) (fun _ => @nil unit) ;;; Session.ret tt)
    (fun _ => Session.ret tt).

(** [for (const constraint of constraints) { ... }] *)
Fixpoint attempt_all (statements : list string) : session unit :=
  match statements with
  | [] => Session.ret tt
  | statement :: rest => attempt statement ;;; attempt_all rest
  end.

(** [MERGE (d:Domain {name: $name})
     ON CREATE SET d.id = randomUUID(), d.description = $description,
                   d.created_date = datetime()
     RETURN d] *)
Definition mergeDomain (name description : string) (w : world)
  : list node * world :=
  match filter (Storage.domain_named name) (nodes (store w)) with
  | [] =>
      let d := mkNode (fresh w) ["Domain"] (Some (Storage.uuid (fresh w)))
                      (Some name) None None (Some description) None None None
                      (Some (clock w)) None None in
      ([d],
       Storage.with_store w (mkGraph (nodes (store w) ++ [d]) (rels (store w))) 1)
  | found => (found, w)
  end.

Definition domain_query (domain : string * string) : built_query :=
  mkBuilt domainQuery
          [ ("name", VStr (fst domain)); ("description", VStr (snd domain)) ].

(** [for (const domain of domains) { await session.run(domainQuery, domain); }] *)
Fixpoint merge_all (domains : list (string * string)) : session unit :=
  match domains with
  | [] => Session.ret tt
  | domain :: rest =>
      Session.run_update (domain_query domain)
                         (mergeDomain (fst domain) (snd domain)) ;;;
      merge_all rest
  end.

Inductive setup_response : Type :=
| SetupDone
| SetupFailure (error : string).

Definition setupSchema : session setup_response :=
  Session.open ;;;
  Session.finally
    (Session.try_catch
       (attempt_all constraints ;;;
        attempt_all indexes ;;;
        merge_all domains ;;;
        Session.ret SetupDone)
       (fun error => Session.ret (SetupFailure error)))
    Session.close.

(** The events of running statements without parameters. *)
Definition statements_run (statements : list string) : list event :=
  map (fun statement => Discipline.asked (mkBuilt statement [])) statements.

(** The events of merging domains. *)
Definition domains_run (domains : list (string * string)) : list event :=
  map (fun domain => Discipline.asked (domain_query domain)) domains.

(** A [Domain] node of each name is held. *)
Definition all_held (names : list string) (w : world) : Prop :=
  Forall (fun name =>
            existsb (Storage.domain_named name) (nodes (store w)) = true)
         names.

End SchemaSetup.

(** * Properties *)

(** ** Lists: order and limit *)

Section OrderFacts.

Context {A : Type}.
Variable leb : A -> A -> bool.

Lemma insert_perm (x : A) (xs : list A) :
  Permutation (x :: xs) (Order.insert leb x xs).
Proof.
  induction xs as [|y rest IH]; simpl.
  - apply Permutation_refl.
  - destruct (leb x y).
    + apply Permutation_refl.
    + eapply perm_trans; [apply perm_swap|].
      now apply perm_skip.
Qed.

Lemma order_by_perm (xs : list A) : Permutation xs (Order.order_by leb xs).
Proof.
  induction xs as [|x rest IH]; simpl.
  - constructor.
  - eapply perm_trans; [apply perm_skip, IH|]. apply insert_perm.
Qed.

Lemma order_by_In (x : A) (xs : list A) :
  In x (Order.order_by leb xs) <-> In x xs.
Proof.
  split; intro H.
  - eapply Permutation_in; [apply Permutation_sym, order_by_perm|exact H].
  - eapply Permutation_in; [apply order_by_perm|exact H].
Qed.

Lemma order_by_length (xs : list A) :
  List.length (Order.order_by leb xs) = List.length xs.
Proof. symmetry. apply Permutation_length, order_by_perm. Qed.

Hypothesis leb_total : forall a b, leb a b = false -> leb b a = true.

Lemma insert_sorted (x : A) (xs : list A) :
  Sorted (Order.in_order leb) xs -> Sorted (Order.in_order leb) (Order.insert leb x xs).
Proof.
  induction xs as [|y rest IH]; simpl; intro Hs.
  - repeat constructor.
  - destruct (leb x y) eqn:E.
    + constructor; [exact Hs|]. constructor. exact E.
    + inversion Hs as [|? ? Hrest Hhd]; subst.
      constructor; [now apply IH|].
      destruct rest as [|z rest']; simpl.
      * constructor. now apply leb_total.
      * destruct (leb x z); constructor.
        -- now apply leb_total.
        -- now inversion Hhd.
Qed.

Lemma order_by_sorted (xs : list A) : Sorted (Order.in_order leb) (Order.order_by leb xs).
Proof.
  induction xs as [|x rest IH]; simpl.
  - constructor.
  - now apply insert_sorted.
Qed.

End OrderFacts.

Lemma limit_In {A : Type} (n : nat) (x : A) (xs : list A) :
  In x (Order.limit n xs) -> In x xs.
Proof.
  unfold Order.limit. revert xs.
  induction n as [|n IH]; intros [|y rest]; simpl; try tauto.
  intros [->|H]; [now left|right; now apply IH].
Qed.

Lemma limit_length {A : Type} (n : nat) (xs : list A) :
  List.length (Order.limit n xs) <= n.
Proof. apply firstn_le_length. Qed.

Lemma limit_sorted {A : Type} (R : A -> A -> Prop) (n : nat) (xs : list A) :
  Sorted R xs -> Sorted R (Order.limit n xs).
Proof.
  unfold Order.limit. revert xs.
  induction n as [|n IH]; intros xs Hs; simpl.
  - constructor.
  - destruct xs as [|x rest]; [constructor|].
    inversion Hs as [|? ? Hrest Hhd]; subst.
    constructor; [now apply IH|].
    destruct rest as [|y rest']; destruct n; simpl; constructor.
    now inversion Hhd.
Qed.

Lemma limit_all {A : Type} (n : nat) (xs : list A) :
  List.length xs <= n -> Order.limit n xs = xs.
Proof. apply firstn_all2. Qed.

Lemma Qle_bool_total (x y : Q) : Qle_bool x y = false -> Qle_bool y x = true.
Proof.
  intro H. apply Qle_bool_iff. apply Qlt_le_weak. apply Qnot_le_lt.
  intro Hle. apply Qle_bool_iff in Hle. congruence.
Qed.

Lemma opt_leb_total (a b : option Q) :
  Order.opt_leb a b = false -> Order.opt_leb b a = true.
Proof.
  destruct a as [x|], b as [y|]; simpl; try congruence.
  apply Qle_bool_total.
Qed.

Lemma Qltb_lt (x y : Q) : Graph.Qltb x y = true <-> (x < y)%Q.
Proof.
  unfold Graph.Qltb. rewrite negb_true_iff. split; intro H.
  - apply Qnot_le_lt. intro Hle. apply Qle_bool_iff in Hle. congruence.
  - destruct (Qle_bool y x) eqn:E; [|reflexivity].
    apply Qle_bool_iff in E. exfalso. eapply Qlt_not_le; eauto.
Qed.

(** ** Gap analysis *)

Section GapFacts.

Variable jaroWinklerDistance : string -> string -> Q.

Lemma analyzeGapsQuery_unknown (domain analysisType : string)
      (threshold : option Q) :
  analysisType <> "missing-connections" ->
  analysisType <> "weak-areas" ->
  analysisType <> "outdated-content" ->
  CypherBuilder.analyzeGapsQuery domain analysisType threshold
  = Thrown ("Unknown analysis type: " ++ analysisType).
Proof.
  intros H1 H2 H3. unfold CypherBuilder.analyzeGapsQuery.
  apply String.eqb_neq in H1, H2, H3.
  now rewrite H1, H2, H3.
Qed.

(** C9.  A gap analysis whose [analysisType] is none of
    [missing-connections], [weak-areas] and [outdated-content] fails
    in the builder with the message [Unknown analysis type: ...]; the
    caller gets it as a failure response, not as an exception, and no
    query has been run: the store and the list of queries asked of it
    are what they were, the session having been opened and closed. *)
Theorem unknown_analysis_type_fails_before_any_query
        (domain analysisType : string) (threshold : option Q) (w : world) :
  analysisType <> "missing-connections" ->
  analysisType <> "weak-areas" ->
  analysisType <> "outdated-content" ->
  CypherBuilder.analyzeGapsQuery domain analysisType threshold
  = Thrown ("Unknown analysis type: " ++ analysisType) /\
  fst (Retrieval.analyzeKnowledgeGaps jaroWinklerDistance
         domain analysisType threshold w)
  = Returned (Retrieval.GapsFailure ("Unknown analysis type: " ++ analysisType)) /\
  let w' := snd (Retrieval.analyzeKnowledgeGaps jaroWinklerDistance
                   domain analysisType threshold w) in
  Session.queries_run w' = Session.queries_run w /\
  log w' = (log w ++ [SessionOpened; SessionClosed])%list /\
  store w' = store w.
Proof.
  intros H1 H2 H3. split; [now apply analyzeGapsQuery_unknown|].
  unfold Retrieval.analyzeKnowledgeGaps.
  rewrite (analyzeGapsQuery_unknown domain analysisType _ H1 H2 H3).
  unfold Session.queries_run. cbn.
  rewrite <- app_assoc. cbn.
  repeat split.
  rewrite filter_app. cbn. now rewrite app_nil_r.
Qed.

Lemma weak_rows_weak (g : Graph.graph) (domain : string) (threshold : Q)
      (r : Reading.weak_record) :
  In r (Reading.weak_rows g domain threshold) ->
  (Reading.wa_connectionCount r < 3 \/
   exists c, Reading.wa_confidence r = Some c /\ (c < threshold)%Q) /\
  Reading.wa_reason r = "weak_connections" /\
  exists d c,
    In d (Graph.domains g domain) /\ In c (Graph.members_of g d) /\
    Reading.wa_connectionCount r = Graph.outDegree g c + Graph.inDegree g c /\
    Reading.wa_confidence r = Graph.p_confidence c.
Proof.
  unfold Reading.weak_rows. intro H.
  apply in_flat_map in H as (d & Hd & H).
  apply in_flat_map in H as (c & Hc & H).
  destruct (Graph.holds _) eqn:E; [|contradiction].
  destruct H as [<-|[]]. cbn [Reading.wa_connectionCount Reading.wa_confidence
                                Reading.wa_reason].
  split; [|split; [reflexivity|now exists d, c]].
  destruct (Graph.outDegree g c + Graph.inDegree g c <? 3) eqn:E3.
  - left. now apply Nat.ltb_lt.
  - right. destruct (Graph.p_confidence c) as [q|]; cbn in E; [|discriminate].
    exists q. split; [reflexivity|].
    apply Qltb_lt. now destruct (Graph.Qltb q threshold).
Qed.

Lemma by_count_then_confidence_total (a b : Reading.weak_record) :
  Reading.by_count_then_confidence a b = false ->
  Reading.by_count_then_confidence b a = true.
Proof.
  unfold Reading.by_count_then_confidence.
  destruct (Nat.ltb_spec (Reading.wa_connectionCount a) (Reading.wa_connectionCount b));
    [discriminate|].
  destruct (Nat.ltb_spec (Reading.wa_connectionCount b) (Reading.wa_connectionCount a));
    [reflexivity|].
  assert (E : Reading.wa_connectionCount a = Reading.wa_connectionCount b) by lia.
  rewrite E, Nat.eqb_refl. cbn. apply opt_leb_total.
Qed.

(** C8.  A weak-areas analysis answers with a failure only when the
    store is out; otherwise every reported member of the domain has
    [connectionCount = outDegree + inDegree] below 3 or a confidence
    below the threshold, so none has both a count of at least 3 and a
    confidence of at least the threshold; each carries the reason
    [weak_connections]; the report is in ascending order of count,
    then of confidence, and holds at most 20 entries. *)
Theorem weak_areas_reports_only_weak_members
        (domain : string) (threshold : option Q) (w : world) :
  let th := CypherBuilder.threshold_or_default threshold in
  match fst (Retrieval.analyzeKnowledgeGaps jaroWinklerDistance
               domain "weak-areas" threshold w) with
  | Returned (Retrieval.GapsSuccess _ _ _ results count) =>
      outage w = None /\
      exists rows,
        results = map Retrieval.gap_of_weak rows /\
        count = List.length rows /\
        Forall (fun r =>
          (Reading.wa_connectionCount r < 3 \/
           exists c, Reading.wa_confidence r = Some c /\ (c < th)%Q) /\
          ~ (3 <= Reading.wa_connectionCount r /\
             exists c, Reading.wa_confidence r = Some c /\ (th <= c)%Q) /\
          Reading.wa_reason r = "weak_connections" /\
          exists d c,
            In d (Graph.domains (store w) domain) /\
            In c (Graph.members_of (store w) d) /\
            Reading.wa_connectionCount r
            = Graph.outDegree (store w) c + Graph.inDegree (store w) c /\
            Reading.wa_confidence r = Graph.p_confidence c) rows /\
        Sorted (Order.in_order Reading.by_count_then_confidence) rows /\
        List.length rows <= 20
  | Returned (Retrieval.GapsFailure e) => outage w = Some e
  | Thrown _ => False
  end.
Proof.
  intro th. unfold Retrieval.analyzeKnowledgeGaps.
  cbn -[Reading.weakAreas].
  destruct (outage w) as [e|] eqn:Eo; cbn -[Reading.weakAreas]; [reflexivity|].
  split; [reflexivity|].
  exists (Reading.weakAreas (store w) domain th).
  split; [reflexivity|]. split; [now rewrite length_map|].
  split; [|split].
  - apply Forall_forall. intros r Hr.
    unfold Reading.weakAreas in Hr.
    apply limit_In, order_by_In, weak_rows_weak in Hr.
    destruct Hr as (Hweak & Hreason & Hmember).
    repeat split; try assumption.
    intros (H3 & c & Hc & Hle).
    destruct Hweak as [Hlt|(c' & Hc' & Hlt)]; [lia|].
    rewrite Hc in Hc'. injection Hc' as <-.
    eapply Qlt_not_le; eauto.
  - apply limit_sorted, order_by_sorted, by_count_then_confidence_total.
  - apply limit_length.
Qed.

Lemma adjacent_sym (g : Graph.graph) (a b : Graph.node) :
  Graph.adjacent g a b = Graph.adjacent g b a.
Proof.
  unfold Graph.adjacent. induction (Graph.rels g) as [|r rest IH]; simpl.
  - reflexivity.
  - rewrite IH. f_equal. apply orb_comm.
Qed.

Lemma missing_rows_In (g : Graph.graph) (domain : string) (threshold : Q)
      (c c2 : Graph.node) (s : Q) :
  In (c, c2, s) (Reading.missing_rows jaroWinklerDistance g domain threshold)
  <-> Reading.missing_row jaroWinklerDistance g domain threshold c c2 s.
Proof.
  unfold Reading.missing_rows, Reading.missing_row. split.
  - intro H.
    apply in_flat_map in H as (d & Hd & H).
    apply in_flat_map in H as (x & Hx & H).
    apply in_flat_map in H as (y & Hy & H).
    destruct (negb (Graph.same_node x y)) eqn:Ek; [|contradiction].
    destruct (negb (Graph.adjacent g x y)) eqn:Ea; [|contradiction].
    cbn [andb] in H.
    destruct (Reading.similarity jaroWinklerDistance x y) as [q|] eqn:Es;
      [|contradiction].
    destruct (Graph.Qltb threshold q) eqn:Et; [|contradiction].
    destruct H as [H|[]]. injection H as -> -> ->.
    exists d. repeat split; try assumption.
    + apply negb_true_iff in Ek. now apply Nat.eqb_neq in Ek.
    + now apply negb_true_iff in Ea.
    + now apply Qltb_lt.
  - intros (d & Hd & Hc & Hc2 & Hk & Ha & Hs & Ht).
    apply in_flat_map. exists d. split; [assumption|].
    apply in_flat_map. exists c. split; [assumption|].
    apply in_flat_map. exists c2. split; [assumption|].
    unfold Graph.same_node. apply Nat.eqb_neq in Hk. rewrite Hk, Ha, Hs. cbn.
    apply Qltb_lt in Ht. rewrite Ht. now left.
Qed.

Lemma similarity_without_keywords (c c2 : Graph.node) :
  Graph.p_keywords c = None \/ Graph.p_keywords c2 = None ->
  Reading.similarity jaroWinklerDistance c c2 = Some (1 # 2).
Proof.
  unfold Reading.similarity.
  intros [H|H]; rewrite H; [reflexivity|].
  now destruct (Graph.p_keywords c).
Qed.

(** C6, as the code has it.  A missing-connections analysis answers
    with a failure only when the store is out.  Otherwise its report
    is the first 20 of a list, in descending order of similarity, of
    exactly the ordered pairs of two member concepts of the domain
    that no relationship joins and whose similarity exceeds the
    threshold, where the similarity is the store's score of the two
    names when both concepts carry keywords and 0.5 otherwise.  A
    pair is listed in each order in which it passes; two members with
    no relationship between them, one of which has no keywords, are
    listed in both orders with similarity 0.5 whenever the threshold
    is below 0.5. *)
Theorem missing_connections_reports_ordered_pairs
        (domain : string) (threshold : option Q) (w : world) :
  let th := CypherBuilder.threshold_or_default threshold in
  match fst (Retrieval.analyzeKnowledgeGaps jaroWinklerDistance
               domain "missing-connections" threshold w) with
  | Returned (Retrieval.GapsSuccess _ _ _ results count) =>
      outage w = None /\
      exists all,
        results = map (fun row => Retrieval.gap_of_missing (Reading.missing_of row))
                      (firstn 20 all) /\
        count = List.length (firstn 20 all) /\
        count <= 20 /\
        (forall c c2 s,
            In (c, c2, s) all <->
            Reading.missing_row jaroWinklerDistance (store w) domain th c c2 s) /\
        Sorted (Order.in_order Reading.by_similarity_desc) all /\
        (forall c c2 s s',
            In (c, c2, s) all ->
            Reading.similarity jaroWinklerDistance c2 c = Some s' ->
            (th < s')%Q ->
            In (c2, c, s') all) /\
        (forall d c c2,
            In d (Graph.domains (store w) domain) ->
            In c (Graph.members_of (store w) d) ->
            In c2 (Graph.members_of (store w) d) ->
            Graph.node_key c <> Graph.node_key c2 ->
            Graph.adjacent (store w) c c2 = false ->
            Graph.p_keywords c = None \/ Graph.p_keywords c2 = None ->
            (th < 1 # 2)%Q ->
            In (c, c2, 1 # 2) all /\ In (c2, c, 1 # 2) all)
  | Returned (Retrieval.GapsFailure e) => outage w = Some e
  | Thrown _ => False
  end.
Proof.
  intro th. unfold Retrieval.analyzeKnowledgeGaps.
  cbn -[Order.limit Order.order_by firstn].
  destruct (outage w) as [e|] eqn:Eo; cbn -[Order.limit Order.order_by firstn];
    [reflexivity|].
  split; [reflexivity|].
  exists (Order.order_by Reading.by_similarity_desc
            (Reading.missing_rows jaroWinklerDistance (store w) domain th)).
  assert (Hin : forall c c2 s,
             In (c, c2, s)
                (Order.order_by Reading.by_similarity_desc
                   (Reading.missing_rows jaroWinklerDistance (store w) domain th))
             <-> Reading.missing_row jaroWinklerDistance (store w) domain th c c2 s).
  { intros. rewrite order_by_In. apply missing_rows_In. }
  split; [|split; [|split; [|split; [|split; [|split]]]]].
  - unfold Reading.missingConnections, Order.limit. now rewrite map_map.
  - unfold Reading.missingConnections, Order.limit. now rewrite !length_map.
  - unfold Reading.missingConnections. rewrite !length_map. apply limit_length.
  - exact Hin.
  - apply order_by_sorted. intros a b. unfold Reading.by_similarity_desc.
    apply Qle_bool_total.
  - intros c c2 s s' H Hs' Ht. apply Hin. apply Hin in H.
    destruct H as (d & Hd & Hc & Hc2 & Hk & Ha & _).
    exists d. repeat split; try assumption.
    + congruence.
    + now rewrite adjacent_sym.
  - intros d c c2 Hd Hc Hc2 Hk Ha Hkw Ht. split; apply Hin; exists d.
    + repeat split; try assumption. now apply similarity_without_keywords.
    + repeat split; try assumption.
      * congruence.
      * now rewrite adjacent_sym.
      * apply similarity_without_keywords. tauto.
Qed.

End GapFacts.

(** An analysis type the builder does not know, on the store of the
    scenario. *)
Lemma unknown_analysis_type_fails_before_any_query_witness :
  CypherBuilder.analyzeGapsQuery "Financial Planning" "trend-analysis" None
  = Thrown "Unknown analysis type: trend-analysis" /\
  fst (Retrieval.analyzeKnowledgeGaps Scenario.no_similarity
         "Financial Planning" "trend-analysis" None Scenario.two_concepts)
  = Returned (Retrieval.GapsFailure "Unknown analysis type: trend-analysis") /\
  let w' := snd (Retrieval.analyzeKnowledgeGaps Scenario.no_similarity
                   "Financial Planning" "trend-analysis" None
                   Scenario.two_concepts) in
  Session.queries_run w' = Session.queries_run Scenario.two_concepts /\
  log w' = (log Scenario.two_concepts ++ [SessionOpened; SessionClosed])%list /\
  store w' = store Scenario.two_concepts.
Proof.
  apply (unknown_analysis_type_fails_before_any_query
           Scenario.no_similarity "Financial Planning" "trend-analysis" None
           Scenario.two_concepts); discriminate.
Defined.

(** C6, as stated, fails on the two concepts of the scenario: with
    threshold 0.1 the one pair without a relationship is reported
    twice, once in each order, and with the fixed similarity 0.5. *)
Lemma missing_connections_reports_pair_twice :
  fst (Retrieval.analyzeKnowledgeGaps Scenario.no_similarity
         "Financial Planning" "missing-connections" (Some (1 # 10))
         Scenario.two_concepts)
  = Returned
      (Retrieval.GapsSuccess "Financial Planning" "missing-connections" (1 # 10)
         [ Retrieval.MissingConnection
             (Some "Infinite Banking") (Some "Tax Planning") (1 # 2);
           Retrieval.MissingConnection
             (Some "Tax Planning") (Some "Infinite Banking") (1 # 2) ]
         2).
Proof. vm_compute. reflexivity. Qed.

(** ** Query building *)

Lemma append_assoc (a b c : string) : ((a ++ b) ++ c = a ++ (b ++ c))%string.
Proof. induction a as [|x a IH]; simpl; [reflexivity|now rewrite IH]. Qed.

(** C1, as stated, fails: a relationship type that is not an
    identifier is rejected by none of the three builders; each returns
    a query text with the token written into the pattern. *)
Lemma builders_accept_a_token_that_is_no_identifier :
  Spec.is_identifier Spec.unsafe_token = false /\
  query (CypherBuilder.createFactConceptRelationQuery
           "f-1" "c-1" (Some Spec.unsafe_token))
  = (Text.linkFactConcept_pre ++ "ABOUT]->(c) DETACH DELETE f //"
       ++ Text.linkFactConcept_post)%string /\
  query (Storage.createRelationship_query
           (Storage.mkRelationshipParams "s-1" "t-1" Spec.unsafe_token None))
  = (Text.createRelationship_pre ++ "ABOUT]->(c) DETACH DELETE f //"
       ++ Text.createRelationship_post)%string /\
  CypherBuilder.relFilter [Spec.unsafe_token] 2
  = "[r:ABOUT]->(c) DETACH DELETE f //*1..2]".
Proof. repeat split. Qed.

(** C1, as the code has it.  The three builders write the caller's
    relationship types into the pattern as they are given, with no
    test and no rejection: fact-to-concept linking and relationship
    creation put the token between two fixed texts, path finding puts
    the tokens, joined by a bar, into the variable-length pattern.
    Identifiers and endpoint texts travel as bound parameters: the
    text of a link or of a created relationship is the same for all
    of them, and the text of a path query depends on an endpoint only
    through its having the shape of a UUID.  The hop bound is both
    written into the pattern, as a number, and bound. *)
Theorem relationship_types_are_interpolated_unchecked (token : string) :
  (forall factId conceptId,
      CypherBuilder.createFactConceptRelationQuery factId conceptId (Some token)
      = mkBuilt (Text.linkFactConcept_pre ++ token ++ Text.linkFactConcept_post)
                [ ("factId", VStr factId); ("conceptId", VStr conceptId) ]) /\
  (forall sourceId targetId properties,
      Storage.createRelationship_query
        (Storage.mkRelationshipParams sourceId targetId token (Some properties))
      = mkBuilt (Text.createRelationship_pre ++ token
                   ++ Text.createRelationship_post)
                [ ("sourceId", VStr sourceId); ("targetId", VStr targetId);
                  ("properties", VMap properties) ]) /\
  (forall conceptA conceptB maxPathLength tokens includePathNodes,
      let q := CypherBuilder.findPathsQuery
                 (CypherBuilder.mkPathsParams conceptA conceptB
                    (Some maxPathLength) (Some (token :: tokens))
                    includePathNodes) in
      (exists before rest,
          query q
          = (before ++ "[r:" ++ JS.join "|" (token :: tokens) ++ "*1.."
               ++ JS.of_nat maxPathLength ++ "]" ++ rest)%string) /\
      params q = [ ("conceptA", VStr conceptA); ("conceptB", VStr conceptB);
                   ("maxPathLength", VInt maxPathLength) ]) /\
  (exists text : bool -> bool -> nat -> list string -> option bool -> string,
      forall p,
        query (CypherBuilder.findPathsQuery p)
        = text (CypherBuilder.isUuid (CypherBuilder.conceptA p))
               (CypherBuilder.isUuid (CypherBuilder.conceptB p))
               (CypherBuilder.hops p) (CypherBuilder.types p)
               (CypherBuilder.includePathNodes p)).
Proof.
  split; [reflexivity|]. split; [reflexivity|]. split.
  - intros conceptA conceptB maxPathLength tokens includePathNodes q.
    split; [|reflexivity].
    exists (Text.findPaths_match ++ CypherBuilder.matchA conceptA
              ++ Text.findPaths_comma ++ CypherBuilder.matchB conceptB
              ++ Text.findPaths_path)%string.
    exists (Text.findPaths_with ++
            (if match includePathNodes with Some b => b | None => true end
             then Text.findPaths_return_nodes
             else Text.findPaths_return_plain))%string.
    unfold q, CypherBuilder.findPathsQuery, CypherBuilder.relFilter.
    cbn [query CypherBuilder.conceptA CypherBuilder.conceptB CypherBuilder.types
         CypherBuilder.hops CypherBuilder.relationshipTypes
         CypherBuilder.maxPathLength CypherBuilder.includePathNodes
         List.length Nat.ltb Nat.leb].
    destruct (match includePathNodes with Some b => b | None => true end);
      now rewrite !append_assoc.
  - exists (fun (a b : bool) (n : nat) (ts : list string) (inc : option bool) =>
      let head :=
        (Text.findPaths_match ++
         (if a then "(a:Concept {id: $conceptA})"
          else "(a:Concept) WHERE a.name = $conceptA OR a.name CONTAINS $conceptA")
         ++ Text.findPaths_comma ++
         (if b then "(b:Concept {id: $conceptB})"
          else "(b:Concept) WHERE b.name = $conceptB OR b.name CONTAINS $conceptB")
         ++ Text.findPaths_path ++ CypherBuilder.relFilter ts n
         ++ Text.findPaths_with)%string in
      if match inc with Some x => x | None => true end
      then (head ++ Text.findPaths_return_nodes)%string
      else (head ++ Text.findPaths_return_plain)%string).
    intro p. unfold CypherBuilder.findPathsQuery, CypherBuilder.matchA,
               CypherBuilder.matchB.
    cbn [query].
    now destruct (match CypherBuilder.includePathNodes p with
                  | Some b => b | None => true end).
Qed.

(** ** Concept upsert *)

Section Upsert.

Import Graph.

Lemma bound_of_concept (p : CypherBuilder.concept_params) :
  let bound := params (CypherBuilder.createConceptQuery p) in
  Storage.bound_string "name" bound = Some (CypherBuilder.name p) /\
  Storage.bound_string "description" bound
  = Some (JS.or_string (CypherBuilder.description p) (CypherBuilder.name p)) /\
  Storage.bound_number "confidence" bound
  = Some (JS.or_number (CypherBuilder.confidence p) (8 # 10)).
Proof. repeat split. Qed.

Lemma concept_named_self (name : string) (n : node) :
  labels n = ["Concept"] -> p_name n = Some name ->
  Storage.concept_named (Some name) n = true.
Proof.
  intros Hl Hn. unfold Storage.concept_named, has_label. rewrite Hl, Hn.
  cbn. now rewrite String.eqb_refl.
Qed.

(** The first upsert of a name creates one node. *)
Lemma upsert_creates (p : CypherBuilder.concept_params) (w : world) :
  Storage.concepts_named (CypherBuilder.name p) w = [] ->
  Storage.concepts_named (CypherBuilder.name p) (Storage.upsert p w)
  = [Storage.created_concept (params (CypherBuilder.createConceptQuery p)) w].
Proof.
  intro Hnone. unfold Storage.upsert, Storage.mergeConcept.
  destruct (bound_of_concept p) as (Hname & _). cbv zeta in Hname.
  rewrite Hname. unfold Storage.concepts_named in Hnone. rewrite Hnone.
  unfold Storage.concepts_named. cbn [snd Storage.with_store store nodes].
  rewrite filter_app, Hnone. cbn [filter app].
  rewrite concept_named_self; [reflexivity|reflexivity|].
  cbn [Storage.created_concept p_name]. exact Hname.
Qed.

Lemma matched_keeps_name (bound : list (string * value)) (now : nat)
      (name : option string) (c : node) :
  Storage.concept_named name (Storage.matched_concept bound now c)
  = Storage.concept_named name c.
Proof. reflexivity. Qed.

(** A later upsert of the name updates the nodes that carry it. *)
Lemma upsert_updates (p : CypherBuilder.concept_params) (w : world) :
  Storage.concepts_named (CypherBuilder.name p) w <> [] ->
  Storage.concepts_named (CypherBuilder.name p) (Storage.upsert p w)
  = map (Storage.matched_concept (params (CypherBuilder.createConceptQuery p))
                                 (clock w))
        (Storage.concepts_named (CypherBuilder.name p) w).
Proof.
  intro Hsome. unfold Storage.upsert, Storage.mergeConcept.
  destruct (bound_of_concept p) as (Hname & _). cbv zeta in Hname.
  rewrite Hname. unfold Storage.concepts_named in *.
  destruct (filter _ (nodes (store w))) as [|c0 cs] eqn:E; [congruence|].
  rewrite <- E. cbn [snd Storage.with_store store nodes]. clear E Hsome.
  induction (nodes (store w)) as [|n rest IH]; [reflexivity|].
  cbn [map filter].
  destruct (Storage.concept_named (Some (CypherBuilder.name p)) n) eqn:En.
  - rewrite matched_keeps_name, En. cbn [map]. now rewrite IH.
  - rewrite En. exact IH.
Qed.

Lemma raise_is_max (a b : Q) : (if Qltb a b then b else a) = Qmax a b.
Proof.
  unfold Qmax, GenericMinMax.gmax. destruct (Qltb a b) eqn:E.
  - apply Qltb_lt in E. rewrite Qlt_alt in E. now rewrite E.
  - destruct (a ?= b)%Q eqn:C; try reflexivity.
    apply Qlt_alt, Qltb_lt in C. congruence.
Qed.

(** Two upserts of a new name leave one node, whose confidence is the
    larger of the two values the builder bound. *)
Lemma two_upserts_bind_max (p1 p2 : CypherBuilder.concept_params) (w : world) :
  CypherBuilder.name p2 = CypherBuilder.name p1 ->
  Storage.concepts_named (CypherBuilder.name p1) w = [] ->
  exists c,
    Storage.concepts_named (CypherBuilder.name p1)
                           (Storage.upsert p2 (Storage.upsert p1 w)) = [c] /\
    p_confidence c
    = Some (Qmax (JS.or_number (CypherBuilder.confidence p1) (8 # 10))
                 (JS.or_number (CypherBuilder.confidence p2) (8 # 10))).
Proof.
  intros Hsame Hnone.
  pose proof (upsert_creates p1 w Hnone) as H1.
  rewrite <- Hsame in *.
  rewrite upsert_updates by (rewrite H1; discriminate).
  rewrite H1. cbn [map]. eexists. split; [reflexivity|].
  cbn [Storage.matched_concept p_confidence Storage.created_concept].
  destruct (bound_of_concept p1) as (_ & _ & Hc1).
  destruct (bound_of_concept p2) as (_ & _ & Hc2).
  cbv zeta in Hc1, Hc2. rewrite Hc1, Hc2. cbn [lt3 lift2 holds].
  rewrite <- raise_is_max.
  now destruct (Qltb _ _).
Qed.

(** Re-asserting a concept with no description, or an empty one,
    writes the concept's name over the description it had: the builder
    binds the name, which the query takes for a new description. *)
Lemma reassertion_without_description (p : CypherBuilder.concept_params)
      (w : world) (c : ascii) (rest : string) :
  CypherBuilder.name p = String c rest ->
  JS.truthy_string (CypherBuilder.description p) = false ->
  Storage.concepts_named (CypherBuilder.name p) w <> [] ->
  Forall (fun n => p_description n = Some (CypherBuilder.name p))
         (Storage.concepts_named (CypherBuilder.name p) (Storage.upsert p w)).
Proof.
  intros Hname Hfalsy Hsome.
  rewrite upsert_updates by exact Hsome.
  apply Forall_forall. intros n Hn.
  apply in_map_iff in Hn as (n0 & <- & _).
  cbn [Storage.matched_concept p_description].
  destruct (bound_of_concept p) as (_ & Hd & _). cbv zeta in Hd. rewrite Hd.
  assert (Hor : JS.or_string (CypherBuilder.description p) (CypherBuilder.name p)
                = CypherBuilder.name p).
  { destruct (CypherBuilder.description p) as [[|x d]|]; cbn in *;
      congruence. }
  rewrite Hor, Hname. reflexivity.
Qed.

End Upsert.

(** With no domain and no relationship asked for, [storeConcept] runs
    the concept query and nothing else. *)
Lemma storeConcept_upserts (p : CypherBuilder.concept_params) (w : world) :
  outage w = None ->
  store (snd (Storage.storeConcept (Storage.mkConceptRequest p None None) w))
  = store (Storage.upsert p w).
Proof.
  destruct w as [g l c f o]. cbn [outage]. intros ->.
  cbv [Storage.storeConcept Session.finally Session.try_catch Session.bind
       Session.run_update Session.open Session.close Session.record
       Session.ret Session.throw fst snd outage Storage.upsert
       Storage.concept Storage.domain Storage.relationships JS.truthy_string
       Storage.relate_all].
  cbn [store log clock fresh].
  unfold Storage.mergeConcept.
  cbn [store log clock fresh].
  destruct (filter _ (Graph.nodes g)) as [|n ns] eqn:E.
  - reflexivity.
  - cbn [map]. destruct (map _ (filter _ (map _ (Graph.nodes g)))); reflexivity.
Qed.

(** C2, as the code has it.  Two successive upserts of a name the
    store does not hold yet, with confidences [c1] then [c2] that are
    not zero, leave exactly one concept of that name, and its
    confidence is the maximum of [c1] and [c2]. *)
Theorem upsert_twice_keeps_max_confidence
        (name : string) (d1 d2 s1 s2 : option string)
        (m1 m2 : option (list (string * string))) (c1 c2 : Q) (w : world) :
  Storage.concepts_named name w = [] ->
  Qeq_bool c1 0 = false ->
  Qeq_bool c2 0 = false ->
  exists c,
    Storage.concepts_named name
      (Storage.upsert (CypherBuilder.mkConceptParams name d2 s2 (Some c2) m2)
         (Storage.upsert (CypherBuilder.mkConceptParams name d1 s1 (Some c1) m1)
            w)) = [c] /\
    Graph.p_confidence c = Some (Qmax c1 c2).
Proof.
  intros Hnone H1 H2.
  destruct (two_upserts_bind_max
              (CypherBuilder.mkConceptParams name d1 s1 (Some c1) m1)
              (CypherBuilder.mkConceptParams name d2 s2 (Some c2) m2)
              w eq_refl Hnone) as (c & Hc & Hconf).
  exists c. split; [exact Hc|].
  rewrite Hconf. cbn [CypherBuilder.confidence JS.or_number].
  now rewrite H1, H2.
Qed.

(** The example of the specification: 0.6 then 0.9 yields 0.9. *)
Lemma upsert_twice_keeps_max_confidence_witness :
  exists c,
    Storage.concepts_named "Neo4j"
      (Storage.upsert
         (CypherBuilder.mkConceptParams "Neo4j" None None (Some (9 # 10)) None)
         (Storage.upsert
            (CypherBuilder.mkConceptParams "Neo4j" None None (Some (6 # 10)) None)
            Scenario.empty_world)) = [c] /\
    Graph.p_confidence c = Some (Qmax (6 # 10) (9 # 10)).
Proof.
  apply (upsert_twice_keeps_max_confidence
           "Neo4j" None None None None None None (6 # 10) (9 # 10)
           Scenario.empty_world); reflexivity.
Defined.

(** C2, as stated, fails when a confidence is zero: the builder binds
    0.8 in its place, so 0.5 then 0 leaves 0.8, which is not the
    maximum of 0.5 and 0. *)
Lemma upsert_with_zero_confidence_binds_default :
  exists c,
    Storage.concepts_named "Neo4j"
      (Storage.upsert
         (CypherBuilder.mkConceptParams "Neo4j" None None (Some 0%Q) None)
         (Storage.upsert
            (CypherBuilder.mkConceptParams "Neo4j" None None (Some (1 # 2)) None)
            Scenario.empty_world)) = [c] /\
    Graph.p_confidence c = Some (8 # 10) /\
    ~ (8 # 10 == Qmax (1 # 2) 0)%Q.
Proof.
  eexists. split; [vm_compute; reflexivity|].
  split; [reflexivity|]. intro H. discriminate H.
Qed.

(** C3 on the failing input: after an upsert with description [desc],
    an upsert of the same name with the empty description leaves the
    name as description, because the builder binds the name in place
    of an empty description and the query then sees a description
    that is not empty.  The other order yields [desc]. *)
Theorem empty_description_overwrites_with_name :
  (exists c,
      Storage.concepts_named "Neo4j"
        (Storage.upsert
           (CypherBuilder.mkConceptParams "Neo4j" (Some EmptyString) None None None)
           (Storage.upsert
              (CypherBuilder.mkConceptParams "Neo4j" (Some "desc") None None None)
              Scenario.empty_world)) = [c] /\
      Graph.p_description c = Some "Neo4j") /\
  (exists c,
      Storage.concepts_named "Neo4j"
        (Storage.upsert
           (CypherBuilder.mkConceptParams "Neo4j" (Some "desc") None None None)
           (Storage.upsert
              (CypherBuilder.mkConceptParams "Neo4j" (Some EmptyString) None None None)
              Scenario.empty_world)) = [c] /\
      Graph.p_description c = Some "desc").
Proof.
  split; eexists; (split; [vm_compute; reflexivity|reflexivity]).
Qed.

(** ** Exact search *)

Section SearchFacts.

Import Graph.

Variable syntax_error : string -> string.
Variable stringify_node : node -> string.

Lemma holds_or3 (a b : option bool) :
  holds (or3 a b) = true -> holds a = true \/ holds b = true.
Proof. destruct a as [[]|], b as [[]|]; cbn; auto. Qed.

Lemma holds_and3 (a b : option bool) :
  holds (and3 a b) = true -> holds a = true /\ holds b = true.
Proof. destruct a as [[]|], b as [[]|]; cbn; auto. Qed.

Lemma holds_contains_lower (field : option string) (query : string) :
  holds (contains3 (toLower field) (toLower (Some query))) = true ->
  exists s, field = Some s /\
            JS.includes (JS.toLowerCase s) (JS.toLowerCase query) = true.
Proof.
  destruct field as [s|]; cbn; [|discriminate].
  intro H. exists s. split; [reflexivity|].
  now destruct (JS.includes _ _).
Qed.

(** The text fields of a node the query is looked for in. *)
Lemma exact_where_field (query : string) (f : Reading.filters) (n : node) :
  holds (Reading.exact_where query f n) = true ->
  exists s,
    (p_content n = Some s \/ p_name n = Some s \/ p_statement n = Some s) /\
    JS.includes (JS.toLowerCase s) (JS.toLowerCase query) = true.
Proof.
  unfold Reading.exact_where. intro H.
  apply holds_or3 in H as [H|H]; [apply holds_or3 in H as [H|H]|].
  - assert (Hc : holds (contains3 (toLower (p_content n)) (toLower (Some query)))
                 = true).
    { destruct (JS.truthy_string (Reading.f_source f));
        [apply holds_and3 in H as [_ H]|];
        (destruct (JS.truthy_number (Reading.f_minConfidence f));
         [now apply holds_and3 in H as [_ H]|exact H]). }
    apply holds_contains_lower in Hc as (s & Hs & Hi). exists s. tauto.
  - apply holds_contains_lower in H as (s & Hs & Hi). exists s. tauto.
  - apply holds_contains_lower in H as (s & Hs & Hi). exists s. tauto.
Qed.

Lemma includes_empty (s : string) : JS.includes s EmptyString = true.
Proof. now destruct s. Qed.

Lemma includes_in_empty (t : string) :
  JS.includes EmptyString t = true -> t = EmptyString.
Proof. now destruct t. Qed.

Lemma toLowerCase_empty (s : string) :
  JS.toLowerCase s = EmptyString -> s = EmptyString.
Proof. now destruct s. Qed.

(** A node with a single text field displays that field, or matches
    the empty query only. *)
Lemma display_of_single_field (query : string) (n : node) (s : string) :
  (p_content n = Some s /\ p_name n = None /\ p_statement n = None) \/
  (p_content n = None /\ p_name n = Some s /\ p_statement n = None) \/
  (p_content n = None /\ p_name n = None /\ p_statement n = Some s) ->
  JS.includes (JS.toLowerCase s) (JS.toLowerCase query) = true ->
  JS.includes (JS.toLowerCase (Retrieval.display stringify_node n))
              (JS.toLowerCase query) = true.
Proof.
  intros Hone Hi. unfold Retrieval.display.
  destruct s as [|c s].
  - apply includes_in_empty in Hi. rewrite Hi. apply includes_empty.
  - destruct Hone as [(-> & -> & ->)|[(-> & -> & ->)|(-> & -> & ->)]];
      exact Hi.
Qed.

Lemma domain_rows_In (g : graph) (f : Reading.filters) (n m : node) :
  In m (Reading.domain_rows g f n) -> m = n.
Proof.
  unfold Reading.domain_rows.
  destruct (JS.truthy_string (Reading.f_domain f)).
  - intro H. apply in_flat_map in H as (r & _ & H).
    destruct (_ && _); [|contradiction].
    destruct (node_at g (rel_end r)) as [d|]; [|contradiction].
    destruct (_ && _); [|contradiction].
    now destruct H as [<-|[]].
  - now intros [<-|[]].
Qed.

Lemma exactSearch_In (query : string) (f : Reading.filters) (maxResults : nat)
      (g : graph) (n : node) (relevance : Q) :
  In (n, relevance) (Reading.exactSearch query f maxResults g) ->
  In n (nodes g) /\ has_label "Knowledge" n = true /\
  holds (Reading.exact_where query f n) = true /\
  relevance = Reading.relevance_of n.
Proof.
  unfold Reading.exactSearch. intro H.
  apply limit_In, order_by_In, in_map_iff in H as (m & Hm & H).
  injection Hm as -> ->.
  apply filter_In in H as (H & Hw).
  apply in_flat_map in H as (m & Hin & H).
  apply domain_rows_In in H as ->.
  apply filter_In in Hin as (Hin & Hl). apply andb_prop in Hl as (Hl & _).
  auto.
Qed.

(** What an exact search answers: a failure when the store is out or
    cannot parse the text, and otherwise at most [maxResults] results,
    each made from a node labelled [Knowledge] of which a text field
    contains the query with case ignored. *)
Lemma searchKnowledge_answer (p : Retrieval.search_params) (w : world) :
  match fst (Retrieval.searchKnowledge syntax_error stringify_node p w) with
  | Returned (Retrieval.SearchSuccess results totalCount _ _) =>
      outage w = None /\
      Reading.several_types (Retrieval.contextFilters p) = false /\
      totalCount = List.length results /\
      totalCount <= Retrieval.maxResults p /\
      Forall (fun r =>
        exists n,
          In n (nodes (store w)) /\ has_label "Knowledge" n = true /\
          (exists s,
              (p_content n = Some s \/ p_name n = Some s \/
               p_statement n = Some s) /\
              JS.includes (JS.toLowerCase s)
                          (JS.toLowerCase (Retrieval.sp_query p)) = true) /\
          r = Retrieval.to_result stringify_node (n, Reading.relevance_of n))
        results
  | Returned (Retrieval.SearchFailure e) =>
      outage w = Some e \/
      (outage w = None /\
       Reading.several_types (Retrieval.contextFilters p) = true)
  | Thrown _ => False
  end.
Proof.
  destruct w as [g l c f o].
  unfold Retrieval.searchKnowledge.
  destruct (Reading.several_types (Retrieval.contextFilters p)) eqn:Es;
    cbv [Session.finally Session.try_catch Session.bind Session.run
         Session.run_rejected Session.open Session.close Session.record
         Session.ret fst snd outage];
    cbn [store]; destruct o as [e|]; auto.
  split; [reflexivity|]. split; [reflexivity|]. split; [reflexivity|]. split.
  - rewrite length_map. apply limit_length.
  - apply Forall_forall. intros r Hr.
    apply in_map_iff in Hr as ([n relevance] & <- & Hr).
    apply exactSearch_In in Hr as (Hin & Hl & Hw & ->).
    apply exact_where_field in Hw as (s & Hs & Hi).
    exists n. repeat split; try assumption. now exists s.
Qed.

(** C4.  In a store whose [Knowledge] nodes carry one text each, as
    the data model has it and as the code writes them, and for
    content types that are names, every result of an exact search has
    a content that contains the query with case ignored, and its
    relevance is the confidence stored on the node it is made from,
    or 0.5 when the node has none. *)
Theorem exact_search_results_contain_the_query
        (p : Retrieval.search_params) (w : world) :
  (forall n, In n (nodes (store w)) -> has_label "Knowledge" n = true ->
             Discipline.one_text n) ->
  Discipline.names (Discipline.types_of (Retrieval.contextFilters p)) ->
  match fst (Retrieval.searchKnowledge syntax_error stringify_node p w) with
  | Returned (Retrieval.SearchSuccess results _ _ _) =>
      Forall (fun r =>
        JS.includes (JS.toLowerCase (Retrieval.sr_content r))
                    (JS.toLowerCase (Retrieval.sp_query p)) = true /\
        exists n,
          In n (nodes (store w)) /\ has_label "Knowledge" n = true /\
          Retrieval.sr_id r = p_id n /\
          Retrieval.sr_relevance r
          = match p_confidence n with Some c => c | None => 1 # 2 end)
        results
  | _ => True
  end.
Proof.
  intros Hmodel _.
  pose proof (searchKnowledge_answer p w) as H.
  destruct (fst (Retrieval.searchKnowledge syntax_error stringify_node p w))
    as [[results totalCount searchType includeContext|e]|e]; try exact I.
  destruct H as (_ & _ & _ & _ & H).
  eapply Forall_impl; [|exact H]. cbn beta.
  intros r (n & Hin & Hl & (s & Hs & Hi) & ->).
  split; [|exists n; repeat split; assumption].
  cbn [Retrieval.to_result Retrieval.sr_content fst].
  apply display_of_single_field with (s := s); [|exact Hi].
  destruct (Hmodel n Hin Hl) as [(H1 & H2)|[(H1 & H2)|(H1 & H2)]];
    destruct Hs as [Hs|[Hs|Hs]]; try congruence; tauto.
Qed.

End SearchFacts.

(** A generic knowledge node that holds the query in another case is
    found and displayed with its content. *)
Lemma exact_search_results_contain_the_query_witness :
  match fst (Retrieval.searchKnowledge
               Examples.rejected Scenario.braces
               (Retrieval.mkSearchParams "BETA" None None None)
               Examples.memos) with
  | Returned (Retrieval.SearchSuccess results _ _ _) =>
      Forall (fun r =>
        JS.includes (JS.toLowerCase (Retrieval.sr_content r))
                    (JS.toLowerCase "BETA") = true /\
        exists n,
          In n (Graph.nodes (store Examples.memos)) /\
          Graph.has_label "Knowledge" n = true /\
          Retrieval.sr_id r = Graph.p_id n /\
          Retrieval.sr_relevance r
          = match Graph.p_confidence n with Some c => c | None => 1 # 2 end)
        results
  | _ => True
  end.
Proof.
  apply (exact_search_results_contain_the_query
           Examples.rejected Scenario.braces
           (Retrieval.mkSearchParams "BETA" None None None) Examples.memos).
  - intros n [<-|[<-|[]]] _; left; split; reflexivity.
  - constructor.
Defined.

(** ** Path finding *)

Section PathFacts.

Import Graph.

Lemma walks_length (g : graph) (types : list string) (hops : nat) :
  forall from used w,
    In w (walks g types hops from used) -> 1 <= List.length w <= hops.
Proof.
  induction hops as [|h IH]; intros from used w H; [contradiction|].
  cbn [walks] in H. apply in_flat_map in H as (r & _ & H).
  destruct (_ && _); [|contradiction].
  destruct (other_end from r) as [next|]; [|contradiction].
  destruct H as [<-|H]; [cbn; lia|].
  apply in_map_iff in H as (w' & <- & H). apply IH in H. cbn. lia.
Qed.

Lemma findPaths_length (p : CypherBuilder.paths_params) (g : graph)
      (r : Reading.path_record) :
  In r (Reading.findPaths p g) ->
  1 <= Reading.rec_pathLength r <= CypherBuilder.hops p.
Proof.
  unfold Reading.findPaths. intro H.
  apply limit_In, order_by_In in H.
  apply in_flat_map in H as (a & _ & H).
  apply in_flat_map in H as (b & _ & H).
  unfold Reading.paths_between in H.
  apply in_map_iff in H as (w & <- & H).
  apply filter_In in H as (H & _).
  apply walks_length in H. exact H.
Qed.


Variable syntax_error : string -> string.

(** What the path finder answers in a store that is not out. *)
Lemma findKnowledgePaths_answer (p : Retrieval.path_params) (w : world) :
  outage w = None ->
  fst (Retrieval.findKnowledgePaths syntax_error p w)
  = Returned
      (if CypherBuilder.isUuid (Retrieval.pp_conceptA p) then
         match Reading.findPaths (Retrieval.builder_params p) (store w) with
         | [] => Retrieval.PathsNotFound (Retrieval.not_found_message p)
         | _ => Retrieval.PathsFailure Retrieval.bigint_to_number
         end
       else
         Retrieval.PathsFailure
           (syntax_error
              (query (CypherBuilder.findPathsQuery (Retrieval.builder_params p))))).
Proof.
  destruct w as [g l c f o]. cbn [outage]. intros ->.
  unfold Retrieval.findKnowledgePaths, Reading.path_text_parses.
  cbn [Retrieval.builder_params CypherBuilder.conceptA].
  destruct (CypherBuilder.isUuid (Retrieval.pp_conceptA p));
    cbv [Session.finally Session.try_catch Session.bind Session.run
         Session.run_rejected Session.open Session.close Session.record
         Session.ret Session.throw fst snd outage];
    cbn [store]; [|reflexivity].
  now destruct (Reading.findPaths _ g).
Qed.

(** C7, as the code has it.  In a store that is not out and for
    relationship constraints that are names: when [conceptA] has not
    the shape of an identifier the store cannot parse the composed
    text and the answer is a failure, whether a path exists or not;
    when it has and the store finds a path, [Math.min] throws on the
    length and the answer is a failure again; only when it has and
    the store finds no path is the answer [found: false] with the
    message.  No answer carries a path. *)
Theorem path_finder_fails_for_a_name_and_for_a_path
        (p : Retrieval.path_params) (w : world) :
  outage w = None ->
  Discipline.names (Retrieval.relationshipConstraints p) ->
  (CypherBuilder.isUuid (Retrieval.pp_conceptA p) = false ->
   fst (Retrieval.findKnowledgePaths syntax_error p w)
   = Returned
       (Retrieval.PathsFailure
          (syntax_error
             (query (CypherBuilder.findPathsQuery
                       (Retrieval.builder_params p)))))) /\
  (CypherBuilder.isUuid (Retrieval.pp_conceptA p) = true ->
   Reading.findPaths (Retrieval.builder_params p) (store w) <> [] ->
   fst (Retrieval.findKnowledgePaths syntax_error p w)
   = Returned (Retrieval.PathsFailure Retrieval.bigint_to_number)) /\
  (CypherBuilder.isUuid (Retrieval.pp_conceptA p) = true ->
   Reading.findPaths (Retrieval.builder_params p) (store w) = [] ->
   fst (Retrieval.findKnowledgePaths syntax_error p w)
   = Returned (Retrieval.PathsNotFound (Retrieval.not_found_message p))) /\
  (forall paths count shortestPathLength,
      fst (Retrieval.findKnowledgePaths syntax_error p w)
      <> Returned (Retrieval.PathsFound paths count shortestPathLength)).
Proof.
  intros Ho _. rewrite (findKnowledgePaths_answer p w Ho).
  split; [|split; [|split]].
  - now intros ->.
  - intros -> H. now destruct (Reading.findPaths _ (store w)).
  - now intros -> ->.
  - intros paths count shortestPathLength.
    destruct (CypherBuilder.isUuid _); [|discriminate].
    destruct (Reading.findPaths _ (store w)); discriminate.
Qed.

End PathFacts.

(** The failing input of C7: the two concepts of the scenario by their
    names, once related.  The answer is the store's error. *)
Lemma path_finder_fails_for_a_name_and_for_a_path_witness :
  fst (Retrieval.findKnowledgePaths Examples.rejected
         (Scenario.banking_to_tax 5) Scenario.related)
  = Returned
      (Retrieval.PathsFailure
         (Examples.rejected
            (query (CypherBuilder.findPathsQuery
                      (Retrieval.builder_params (Scenario.banking_to_tax 5)))))).
Proof.
  apply (proj1 (path_finder_fails_for_a_name_and_for_a_path
                  Examples.rejected (Scenario.banking_to_tax 5) Scenario.related
                  eq_refl (Forall_nil _))).
  reflexivity.
Defined.

(** The same two concepts by their identifiers: the store finds the
    path of one relationship, and the answer is the error of
    [Math.min]; before they are related, the answer is
    [found: false]. *)
Lemma path_by_identifier_fails_on_its_length :
  Reading.findPaths
    (Retrieval.builder_params (Examples.banking_to_tax_by_id (Some 1)))
    (store Scenario.related) <> [] /\
  fst (Retrieval.findKnowledgePaths Examples.rejected
         (Examples.banking_to_tax_by_id (Some 1)) Scenario.related)
  = Returned
      (Retrieval.PathsFailure "Cannot convert a BigInt value to a number") /\
  fst (Retrieval.findKnowledgePaths Examples.rejected
         (Examples.banking_to_tax_by_id (Some 1)) Scenario.two_concepts)
  = Returned
      (Retrieval.PathsNotFound
         (Retrieval.not_found_message (Examples.banking_to_tax_by_id (Some 1)))).
Proof.
  split; [|split]; vm_compute; [discriminate|reflexivity|reflexivity].
Qed.

(** ** Exploration *)

Section ExploreFacts.

Import Graph.


Lemma distinct_keeps_first (x : Reading.connection)
      (rest : list Reading.connection) :
  Reading.distinct [] (x :: rest) = x :: Reading.distinct [x] rest.
Proof. reflexivity. Qed.


Lemma explore_some (startConcept : string) (types : list string)
      (maxDepth : nat) (g : graph) (record : node * list Reading.connection) :
  In record (Reading.explore startConcept types maxDepth g) ->
  In (fst record) (Reading.starts g startConcept) /\
  snd record <> [] /\
  snd record
  = Reading.distinct [] (Reading.connections_of g types maxDepth (fst record)).
Proof.
  unfold Reading.explore. intro H.
  apply limit_In, in_flat_map in H as (start & Hs & H).
  destruct (Reading.connections_of g types maxDepth start) as [|x rest] eqn:E;
    [contradiction|].
  destruct H as [<-|[]]. cbn [fst snd]. rewrite E.
  split; [exact Hs|]. split; [|reflexivity].
  rewrite distinct_keeps_first. discriminate.
Qed.


End ExploreFacts.


(** ** Extraction *)

(** *** What the expression of step 1 can match *)

Section RegexFacts.

Import Regex.

Lemma all_in_app (p : ascii -> bool) (a b : string) :
  all_in p (a ++ b) = all_in p a && all_in p b.
Proof.
  induction a as [|c a IH]; cbn; [reflexivity|].
  now rewrite IH, andb_assoc.
Qed.

Lemma all_in_weaken (p q : ascii -> bool) (s : string) :
  (forall c, p c = true -> q c = true) ->
  all_in p s = true -> all_in q s = true.
Proof.
  intro H. induction s as [|c s IH]; cbn; [reflexivity|].
  intro Hs. apply andb_prop in Hs as (Hc & Hs).
  now rewrite (H c Hc), IH.
Qed.

(** A successful run splits the text into what the expression
    consumed, all of it within [consumes], and what its continuation
    was given. *)
Lemma run_consumes (r : re) :
  forall before s k rest,
    run r before s k = Some rest ->
    exists consumed before' s',
      s = (consumed ++ s')%string /\
      all_in (consumes r) consumed = true /\
      k before' s' = Some rest.
Proof.
  induction r as [p|r1 IH1 r2 IH2|r1 IH1|]; intros before s k rest H.
  - cbn [run] in H. destruct s as [|c s']; [discriminate|].
    destruct (p c) eqn:Ep; [|discriminate].
    exists (String c EmptyString), (Some c), s'. cbn. now rewrite Ep.
  - cbn [run] in H.
    apply IH1 in H as (c1 & b1 & s1 & -> & Hc1 & H).
    apply IH2 in H as (c2 & b2 & s2 & -> & Hc2 & H).
    exists (c1 ++ c2)%string, b2, s2. split; [now rewrite append_assoc|].
    split; [|exact H].
    rewrite all_in_app. cbn [consumes].
    rewrite (all_in_weaken (consumes r1) _ c1), (all_in_weaken (consumes r2) _ c2);
      auto; intros c Hc; rewrite Hc; auto using orb_true_r.
  - cbn [run] in H. revert H.
    generalize (String.length s) at 1. intro fuel. revert before s.
    induction fuel as [|fuel IHf]; intros before s H.
    + exists EmptyString, before, s. auto.
    + destruct (run r1 before s _) as [out|] eqn:E.
      * injection H as ->.
        apply IH1 in E as (c1 & b1 & s1 & -> & Hc1 & E).
        destruct (String.length s1 <? String.length (c1 ++ s1)); [|discriminate].
        apply IHf in E as (c2 & b2 & s2 & -> & Hc2 & E).
        exists (c1 ++ c2)%string, b2, s2. split; [now rewrite append_assoc|].
        split; [|exact E].
        rewrite all_in_app, Hc2.
        rewrite (all_in_weaken (consumes r1) (consumes (Star r1)) c1); auto.
      * exists EmptyString, before, s. auto.
  - cbn [run] in H. destruct (at_boundary before s); [|discriminate].
    exists EmptyString, before, s. auto.
Qed.

Lemma length_app (a b : string) :
  String.length (a ++ b) = String.length a + String.length b.
Proof. induction a as [|c a IH]; cbn; [reflexivity|now rewrite IH]. Qed.

Lemma substring_front (a b : string) :
  substring 0 (String.length (a ++ b) - String.length b) (a ++ b) = a.
Proof.
  rewrite length_app, Nat.add_sub.
  induction a as [|c a IH]; cbn.
  - now destruct b.
  - now rewrite IH.
Qed.

(** Every text [s.match(/r/g)] returns is within [consumes r]. *)
Lemma scan_consumes (r : re) (s : string) :
  forall before skip m,
    In m (scan r before skip s) -> all_in (consumes r) m = true.
Proof.
  induction s as [|c s IH]; intros before skip m H.
  - destruct skip as [|skip]; [|contradiction].
    cbn [scan] in H. unfold match_here in H.
    destruct (run r before EmptyString _) as [rest|] eqn:E; [|contradiction].
    apply run_consumes in E as (consumed & _ & s' & Hs & Hc & E).
    injection E as ->.
    destruct H as [<-|[]]. rewrite Hs, substring_front. exact Hc.
  - destruct skip as [|skip]; cbn [scan] in H; [|now apply IH in H].
    unfold match_here in H.
    destruct (run r before (String c s) _) as [rest|] eqn:E;
      [|now apply IH in H].
    apply run_consumes in E as (consumed & _ & s' & Hs & Hc & E).
    injection E as ->.
    destruct H as [<-|H]; [|now apply IH in H].
    rewrite Hs, substring_front. exact Hc.
Qed.

Lemma unique_from_In (seen xs : list string) (x : string) :
  In x (JS.unique_from seen xs) -> In x xs.
Proof.
  revert seen. induction xs as [|y rest IH]; intros seen H; [contradiction|].
  cbn [JS.unique_from] in H. destruct (JS.mem y seen).
  - right. now apply IH in H.
  - destruct H as [->|H]; [now left|right; now apply IH in H].
Qed.

(** Whatever the text, a concept candidate is made of letters and
    white space: a word with a digit in it, such as [Neo4j], is never
    one. *)
Lemma candidates_are_letters_and_spaces (rawOutput candidate : string) :
  In candidate (McpExtractor.uniqueConcepts rawOutput) ->
  all_in (fun c => JS.is_letter c || JS.is_space c) candidate = true.
Proof.
  unfold McpExtractor.uniqueConcepts, McpExtractor.rawConcepts, match_all,
    JS.unique.
  intro H. apply limit_In, filter_In in H as (H & _).
  apply unique_from_In, scan_consumes in H.
  revert H. apply all_in_weaken. intro c. cbn.
  unfold JS.is_letter.
  destruct (JS.is_upper c), (JS.is_lower c), (JS.is_space c); cbn; auto.
Qed.

Lemma Neo4j_is_never_a_candidate (rawOutput : string) :
  ~ In "Neo4j" (McpExtractor.uniqueConcepts rawOutput).
Proof.
  intro H. apply candidates_are_letters_and_spaces in H. discriminate H.
Qed.

End RegexFacts.

(** C5, as stated, fails: the candidates of the sample text are not
    [Neo4j], [Graph Database], [Cypher]. *)
Lemma sample_candidates_lack_Neo4j :
  McpExtractor.uniqueConcepts Scenario.sample_text
  <> ["Neo4j"; "Graph Database"; "Cypher"].
Proof. vm_compute. discriminate. Qed.

(** C5, as the code has it.  On the sample text the expression finds
    [Graph Database], [It] and [Cypher], in that order: [Neo4j] is
    not found, since the letters [Neo] are followed by a digit and so
    end at no word boundary.  The candidates kept are [Graph
    Database] and [Cypher], [It] being shorter than 4 characters.
    Both sentences are kept as facts, and the first contains
    [is a].  No text at all yields the candidate [Neo4j]. *)
Theorem sample_text_extraction :
  McpExtractor.rawConcepts Scenario.sample_text
  = ["Graph Database"; "It"; "Cypher"] /\
  McpExtractor.uniqueConcepts Scenario.sample_text
  = ["Graph Database"; "Cypher"] /\
  McpExtractor.potentialFacts Scenario.sample_text
  = ["Neo4j is a Graph Database"; "It supports Cypher queries"] /\
  (exists fact,
      In fact (McpExtractor.potentialFacts Scenario.sample_text) /\
      JS.includes fact "is a" = true) /\
  (forall rawOutput, ~ In "Neo4j" (McpExtractor.uniqueConcepts rawOutput)).
Proof.
  split; [vm_compute; reflexivity|].
  split; [vm_compute; reflexivity|].
  split; [vm_compute; reflexivity|].
  split; [|exact Neo4j_is_never_a_candidate].
  exists "Neo4j is a Graph Database". split; [vm_compute; now left|reflexivity].
Qed.

(** * Further properties of the code *)

(** Running a session by hand: the combinators are unfolded on a
    world given by its fields. *)
Ltac run_session :=
  cbv [Session.finally Session.try_catch Session.bind Session.run
       Session.run_rejected Session.run_clocked Session.run_update
       Session.open Session.close Session.record Session.ret Session.throw
       fst snd outage];
  cbn [store log clock fresh].

Ltac released_now :=
  unfold Discipline.released, Discipline.asked;
  cbn [store log clock fresh outage query params];
  repeat split; rewrite <- ?app_assoc; reflexivity.

(** ** Sessions of the retrieval operations *)

Section SessionFacts.

Variable syntax_error : string -> string.
Variable stringify_node : Graph.node -> string.
Variable jaroWinklerDistance : string -> string -> Q.

(** X1.  An exact search, an exploration and a path search whose
    content types and relationship types are names each return a
    response and never throw, whether the store fails, rejects the
    text or answers; each opens one session, runs exactly one query,
    the one composed for it, and closes the session; none changes the
    store. *)
Theorem retrieval_runs_one_query_and_releases_the_session
        (search : Retrieval.search_params) (exploration : Retrieval.explore_params)
        (paths : Retrieval.path_params) (w : world) :
  Discipline.names (Discipline.types_of (Retrieval.contextFilters search)) ->
  Discipline.names (Retrieval.explore_types exploration) ->
  Discipline.names (Retrieval.relationshipConstraints paths) ->
  (exists r,
      fst (Retrieval.searchKnowledge syntax_error stringify_node search w)
      = Returned r /\
      Discipline.released w
        (snd (Retrieval.searchKnowledge syntax_error stringify_node search w))
        [QueryRun (Retrieval.search_text (Retrieval.contextFilters search))
                  (Retrieval.search_bound search)]) /\
  (exists r,
      fst (Retrieval.exploreKnowledgeGraph exploration w) = Returned r /\
      Discipline.released w (snd (Retrieval.exploreKnowledgeGraph exploration w))
        [Discipline.asked (Retrieval.explore_query exploration)]) /\
  (exists r,
      fst (Retrieval.findKnowledgePaths syntax_error paths w) = Returned r /\
      Discipline.released w
        (snd (Retrieval.findKnowledgePaths syntax_error paths w))
        [Discipline.asked
           (CypherBuilder.findPathsQuery (Retrieval.builder_params paths))]).
Proof.
  intros _ _ _. destruct w as [g l c f o]. split; [|split].
  - unfold Retrieval.searchKnowledge.
    destruct (Reading.several_types _); run_session;
      destruct o as [e|]; eexists; (split; [reflexivity|]); released_now.
  - unfold Retrieval.exploreKnowledgeGraph. run_session.
    destruct o as [e|].
    + eexists; (split; [reflexivity|]); released_now.
    + destruct (Reading.explore _ _ _ g); eexists; (split; [reflexivity|]);
        released_now.
  - unfold Retrieval.findKnowledgePaths.
    destruct (Reading.path_text_parses _); run_session; destruct o as [e|];
      try (eexists; (split; [reflexivity|]); released_now).
    destruct (Reading.findPaths _ g);
      cbn [Retrieval.to_paths map Retrieval.math_min]; run_session;
      eexists; (split; [reflexivity|]); released_now.
Qed.

(** X2.  A gap analysis returns a response and never throws; it opens
    and closes one session, runs one query when the analysis type is
    one of the three the builder knows and none otherwise, and does
    not change the store. *)
Theorem gap_analysis_releases_the_session
        (domain analysisType : string) (threshold : option Q) (w : world) :
  exists r,
    fst (Retrieval.analyzeKnowledgeGaps jaroWinklerDistance
           domain analysisType threshold w) = Returned r /\
    Discipline.released w
      (snd (Retrieval.analyzeKnowledgeGaps jaroWinklerDistance
              domain analysisType threshold w))
      match CypherBuilder.analyzeGapsQuery domain analysisType
              (Some (CypherBuilder.threshold_or_default threshold)) with
      | Returned q => [Discipline.asked q]
      | Thrown _ => []
      end.
Proof.
  destruct w as [g l c f o].
  unfold Retrieval.analyzeKnowledgeGaps, CypherBuilder.analyzeGapsQuery.
  destruct (analysisType =? "missing-connections")%string;
    [|destruct (analysisType =? "weak-areas")%string;
      [|destruct (analysisType =? "outdated-content")%string]];
    run_session.
  1-3: destruct o as [e|]; eexists; (split; [reflexivity|released_now]).
  eexists. split; [reflexivity|released_now].
Qed.

(** X3.  When the store fails, an exact search, an exploration, a
    path search and a gap analysis of a known type each answer
    [{success: false, error}] with the store's message. *)
Theorem store_failure_becomes_a_failure_response (e : string) (w : world) :
  outage w = Some e ->
  (forall p,
      fst (Retrieval.searchKnowledge syntax_error stringify_node p w)
      = Returned (Retrieval.SearchFailure e)) /\
  (forall p,
      fst (Retrieval.exploreKnowledgeGraph p w)
      = Returned (Retrieval.ExploreFailure e)) /\
  (forall p,
      fst (Retrieval.findKnowledgePaths syntax_error p w)
      = Returned (Retrieval.PathsFailure e)) /\
  (forall domain analysisType threshold,
      In analysisType ["missing-connections"; "weak-areas"; "outdated-content"] ->
      fst (Retrieval.analyzeKnowledgeGaps jaroWinklerDistance
             domain analysisType threshold w)
      = Returned (Retrieval.GapsFailure e)).
Proof.
  destruct w as [g l c f o]. cbn [outage]. intros ->.
  split; [|split; [|split]].
  - intro p. unfold Retrieval.searchKnowledge.
    destruct (Reading.several_types _); now run_session.
  - intro p. unfold Retrieval.exploreKnowledgeGraph. now run_session.
  - intro p. unfold Retrieval.findKnowledgePaths.
    destruct (Reading.path_text_parses _); now run_session.
  - intros domain analysisType threshold H.
    unfold Retrieval.analyzeKnowledgeGaps.
    destruct H as [<-|[<-|[<-|[]]]]; now run_session.
Qed.

End SessionFacts.

Lemma retrieval_runs_one_query_and_releases_the_session_witness :
  (exists r,
      fst (Retrieval.searchKnowledge
             Examples.rejected Scenario.braces
             (Retrieval.mkSearchParams "beta" None None None) Examples.memos)
      = Returned r /\
      Discipline.released Examples.memos
        (snd (Retrieval.searchKnowledge
                Examples.rejected Scenario.braces
                (Retrieval.mkSearchParams "beta" None None None)
                Examples.memos))
        [QueryRun (Retrieval.search_text
                     (Retrieval.contextFilters
                        (Retrieval.mkSearchParams "beta" None None None)))
                  (Retrieval.search_bound
                     (Retrieval.mkSearchParams "beta" None None None))]) /\
  (exists r,
      fst (Retrieval.exploreKnowledgeGraph
             (Retrieval.mkExploreParams "Alpha beta" (Some ["CITES"]) None)
             Examples.memos) = Returned r /\
      Discipline.released Examples.memos
        (snd (Retrieval.exploreKnowledgeGraph
                (Retrieval.mkExploreParams "Alpha beta" (Some ["CITES"]) None)
                Examples.memos))
        [Discipline.asked
           (Retrieval.explore_query
              (Retrieval.mkExploreParams "Alpha beta" (Some ["CITES"]) None))]) /\
  (exists r,
      fst (Retrieval.findKnowledgePaths
             Examples.rejected (Examples.banking_to_tax_by_id None)
             Examples.memos) = Returned r /\
      Discipline.released Examples.memos
        (snd (Retrieval.findKnowledgePaths
                Examples.rejected (Examples.banking_to_tax_by_id None)
                Examples.memos))
        [Discipline.asked
           (CypherBuilder.findPathsQuery
              (Retrieval.builder_params (Examples.banking_to_tax_by_id None)))]).
Proof.
  apply (retrieval_runs_one_query_and_releases_the_session
           Examples.rejected Scenario.braces
           (Retrieval.mkSearchParams "beta" None None None)
           (Retrieval.mkExploreParams "Alpha beta" (Some ["CITES"]) None)
           (Examples.banking_to_tax_by_id None) Examples.memos).
  - constructor.
  - repeat constructor.
  - constructor.
Defined.

Lemma store_failure_becomes_a_failure_response_witness :
  (forall p,
      fst (Retrieval.searchKnowledge Examples.rejected Scenario.braces p
                                     Examples.unreachable)
      = Returned (Retrieval.SearchFailure "ServiceUnavailable")) /\
  (forall p,
      fst (Retrieval.exploreKnowledgeGraph p Examples.unreachable)
      = Returned (Retrieval.ExploreFailure "ServiceUnavailable")) /\
  (forall p,
      fst (Retrieval.findKnowledgePaths Examples.rejected p Examples.unreachable)
      = Returned (Retrieval.PathsFailure "ServiceUnavailable")) /\
  (forall domain analysisType threshold,
      In analysisType ["missing-connections"; "weak-areas"; "outdated-content"] ->
      fst (Retrieval.analyzeKnowledgeGaps Scenario.no_similarity
             domain analysisType threshold Examples.unreachable)
      = Returned (Retrieval.GapsFailure "ServiceUnavailable")).
Proof.
  apply (store_failure_becomes_a_failure_response
           Examples.rejected Scenario.braces Scenario.no_similarity
           "ServiceUnavailable" Examples.unreachable).
  reflexivity.
Defined.

(** ** Exploration: depths and the relationship summary *)

Section ExplorationData.

Import Graph.

Lemma mem_In (x : string) (xs : list string) :
  JS.mem x xs = true -> In x xs.
Proof.
  unfold JS.mem. intro H. apply existsb_exists in H as (y & Hy & E).
  apply String.eqb_eq in E. now subst.
Qed.

Lemma distinct_In (seen xs : list Reading.connection) (x : Reading.connection) :
  In x (Reading.distinct seen xs) -> In x xs.
Proof.
  revert seen. induction xs as [|y rest IH]; intros seen H; [contradiction|].
  cbn [Reading.distinct] in H. destruct (existsb _ seen).
  - right. now apply IH in H.
  - destruct H as [->|H]; [now left|right; now apply IH in H].
Qed.

(** Every relationship of a walk is of a listed type, when types are
    listed. *)
Lemma walks_types (g : graph) (types : list string) (hops : nat) :
  forall from used w,
    In w (walks g types hops from used) ->
    Forall (fun st => type_allowed types (fst st) = true) w.
Proof.
  induction hops as [|h IH]; intros from used w H; [contradiction|].
  cbn [walks] in H. apply in_flat_map in H as (r & _ & H).
  destruct (type_allowed types r) eqn:Et; [|contradiction].
  destruct (negb _); [|contradiction]. cbn [andb] in H.
  destruct (other_end from r) as [next|]; [|contradiction].
  destruct H as [<-|H]; [now repeat constructor|].
  apply in_map_iff in H as (w' & <- & H).
  constructor; [exact Et|]. now apply IH in H.
Qed.

Lemma type_allowed_In (types : list string) (r : rel) :
  type_allowed types r = true -> types = [] \/ In (rel_type r) types.
Proof.
  unfold type_allowed. destruct types as [|t ts]; [now left|].
  intro H. right. now apply mem_In.
Qed.

Lemma connections_of_bounds (g : graph) (types : list string) (maxDepth : nat)
      (start : node) (conn : Reading.connection) :
  In conn (Reading.connections_of g types maxDepth start) ->
  1 <= Reading.conn_depth conn <= maxDepth /\
  List.length (Reading.conn_relationships conn) <= Reading.conn_depth conn /\
  Forall (fun t => types = [] \/ In t types) (Reading.conn_relationships conn) /\
  has_label "Knowledge" (Reading.conn_node conn) = true.
Proof.
  unfold Reading.connections_of. intro H.
  apply in_flat_map in H as (w & Hw & H).
  destruct (node_at g _) as [connected|]; [|contradiction].
  destruct (has_label "Knowledge" connected) eqn:El; [|contradiction].
  destruct H as [<-|[]]. cbn [Reading.conn_depth Reading.conn_relationships
                               Reading.conn_node].
  split; [now apply walks_length in Hw|]. split; [|split; [|exact El]].
  - rewrite length_map. unfold walk_rels.
    etransitivity; [apply filter_length_le|]. now rewrite length_map.
  - apply walks_types in Hw. apply Forall_forall. intros t Ht.
    apply in_map_iff in Ht as (r & <- & Hr).
    apply filter_In in Hr as (Hr & _). unfold walk_rels in Hr.
    apply in_map_iff in Hr as (st & <- & Hst).
    rewrite Forall_forall in Hw. now apply type_allowed_In, Hw.
Qed.

(** X4.  For relationship types that are names, a successful
    exploration reports every connected node at a depth between 1 and
    [maxDepth] (3 when none is given), with at most as many
    relationship names as its depth, all of them among
    [relationshipTypes] when types were asked for.  The start node
    carries no depth. *)
Theorem exploration_depth_is_bounded (p : Retrieval.explore_params) (w : world) :
  Discipline.names (Retrieval.explore_types p) ->
  match fst (Retrieval.exploreKnowledgeGraph p w) with
  | Returned (Retrieval.ExploreSuccess data) =>
      Retrieval.en_depth (Retrieval.startNode data) = None /\
      Forall (fun n =>
        exists d,
          Retrieval.en_depth n = Some d /\
          1 <= d <= Retrieval.maxDepth p /\
          List.length (Retrieval.en_relationships n) <= d /\
          Forall (fun t => Retrieval.explore_types p = [] \/
                           In t (Retrieval.explore_types p))
                 (Retrieval.en_relationships n))
        (Retrieval.connectedNodes data)
  | _ => True
  end.
Proof.
  intros _. destruct w as [g l c f o].
  unfold Retrieval.exploreKnowledgeGraph. run_session.
  destruct o as [e|]; [exact I|].
  destruct (Reading.explore _ _ _ g) as [|record rest] eqn:E; [exact I|].
  assert (Hin : In record (Reading.explore (Retrieval.ep_startConcept p)
                             (Retrieval.explore_types p)
                             (Retrieval.maxDepth p) g))
    by (rewrite E; now left).
  apply explore_some in Hin as (_ & _ & Hconn).
  destruct record as [start conns]. cbn [fst snd] in Hconn.
  cbn [Retrieval.startNode Retrieval.connectedNodes Retrieval.start_of
       Retrieval.en_depth].
  split; [reflexivity|].
  apply Forall_forall. intros n Hn.
  apply in_map_iff in Hn as (conn & <- & Hc).
  rewrite Hconn in Hc. apply distinct_In, connections_of_bounds in Hc.
  destruct Hc as (Hd & Hl & Ht & _).
  exists (Reading.conn_depth conn). now repeat split.
Qed.

(** The relationships of a walk are relationships of the store. *)
Lemma walks_rels (g : graph) (types : list string) (hops : nat) :
  forall from used w,
    In w (walks g types hops from used) ->
    Forall (fun st => In (fst st) (rels g)) w.
Proof.
  induction hops as [|h IH]; intros from used w H; [contradiction|].
  cbn [walks] in H. apply in_flat_map in H as (r & Hr & H).
  destruct (_ && _); [|contradiction].
  destruct (other_end from r) as [next|]; [|contradiction].
  destruct H as [<-|H]; [now repeat constructor|].
  apply in_map_iff in H as (w' & <- & H).
  constructor; [exact Hr|]. now apply IH in H.
Qed.

Lemma connections_of_names (g : graph) (types : list string) (maxDepth : nat)
      (start : node) (conn : Reading.connection) :
  In conn (Reading.connections_of g types maxDepth start) ->
  Forall (fun t => exists r, In r (rels g) /\ rel_type r = t)
         (Reading.conn_relationships conn).
Proof.
  unfold Reading.connections_of. intro H.
  apply in_flat_map in H as (w & Hw & H).
  destruct (node_at g _) as [connected|]; [|contradiction].
  destruct (has_label "Knowledge" connected); [|contradiction].
  destruct H as [<-|[]]. cbn [Reading.conn_relationships].
  apply walks_rels in Hw. apply Forall_forall. intros t Ht.
  apply in_map_iff in Ht as (r & <- & Hr).
  apply filter_In in Hr as (Hr & _). unfold walk_rels in Hr.
  apply in_map_iff in Hr as (st & <- & Hst).
  rewrite Forall_forall in Hw. exists (fst st). split; [now apply Hw|reflexivity].
Qed.

(** The number a summary holds under a name, 0 when it holds none. *)
Lemma not_inherited (rel : string) :
  JS.mem rel Retrieval.inherited = false ->
  (rel =? "__proto__")%string = false.
Proof.
  unfold JS.mem, Retrieval.inherited. cbn [existsb]. intro H.
  repeat (apply orb_false_iff in H as (? & H)). assumption.
Qed.

Lemma count_type_counts (rel : string)
      (summary : list (string * Retrieval.tally)) :
  JS.mem rel Retrieval.inherited = false ->
  Forall (fun kv => exists n, snd kv = Retrieval.Count n /\ 0 < n) summary ->
  Forall (fun kv => exists n, snd kv = Retrieval.Count n /\ 0 < n)
         (Retrieval.count_type rel summary).
Proof.
  intros Hrel. induction summary as [|[k v] rest IH];
    cbn [Retrieval.count_type]; intro H.
  - rewrite (not_inherited rel Hrel), Hrel. repeat constructor.
    exists 1. split; [reflexivity|lia].
  - inversion H as [|? ? (n & Hv & Hn) Hrest]; subst. cbn [snd] in Hv. subst v.
    destruct (k =? rel)%string; constructor; auto; cbn [snd].
    + exists (n + 1). split; [reflexivity|lia].
    + now exists n.
Qed.

Lemma count_of_count_type (rel : string)
      (summary : list (string * Retrieval.tally)) (t : string) :
  JS.mem rel Retrieval.inherited = false ->
  Forall (fun kv => exists n, snd kv = Retrieval.Count n /\ 0 < n) summary ->
  match Summary.count_of (Retrieval.count_type rel summary) t with
  | Some (Retrieval.Count n) => n
  | _ => 0
  end
  = match Summary.count_of summary t with
    | Some (Retrieval.Count n) => n
    | _ => 0
    end + (if string_dec rel t then 1 else 0).
Proof.
  intros Hrel. induction summary as [|[k v] rest IH];
    cbn [Retrieval.count_type Summary.count_of]; intro H.
  - rewrite (not_inherited rel Hrel), Hrel. cbn [Summary.count_of].
    destruct (string_dec rel t) as [->|Hne].
    + now rewrite String.eqb_refl.
    + apply String.eqb_neq in Hne. now rewrite Hne.
  - inversion H as [|? ? (n & Hv & Hn) Hrest]; subst. cbn [snd] in Hv. subst v.
    destruct (String.eqb_spec k rel) as [->|Hk]; cbn [Summary.count_of].
    + destruct (String.eqb_spec rel t) as [->|Ht].
      * destruct (string_dec t t); [reflexivity|congruence].
      * destruct (string_dec rel t); [congruence|lia].
    + destruct (String.eqb_spec k t) as [->|Ht].
      * destruct (string_dec rel t); [congruence|lia].
      * now apply IH.
Qed.

Lemma keys_of_count_type (rel : string)
      (summary : list (string * Retrieval.tally)) (k : string) :
  In k (map fst (Retrieval.count_type rel summary)) ->
  k = rel \/ In k (map fst summary).
Proof.
  induction summary as [|[k' v] rest IH]; cbn [Retrieval.count_type].
  - destruct (rel =? "__proto__")%string; [contradiction|].
    destruct (JS.mem rel Retrieval.inherited); cbn; intuition.
  - destruct (String.eqb_spec k' rel) as [->|Hk]; cbn [map fst In]; intuition.
Qed.

(** Whatever the names, no name is listed twice. *)
Lemma count_type_NoDup (rel : string)
      (summary : list (string * Retrieval.tally)) :
  NoDup (map fst summary) -> NoDup (map fst (Retrieval.count_type rel summary)).
Proof.
  induction summary as [|[k v] rest IH]; cbn [Retrieval.count_type map fst];
    intro H.
  - destruct (rel =? "__proto__")%string; [constructor|].
    destruct (JS.mem rel Retrieval.inherited); repeat constructor; intros [].
  - inversion H as [|? ? Hnot Hrest]; subst.
    destruct (String.eqb_spec k rel) as [->|Hk]; cbn [map fst].
    + now constructor.
    + constructor; [|now apply IH].
      intro Hin. apply keys_of_count_type in Hin as [->|Hin];
        [congruence|contradiction].
Qed.

Lemma tally_invariant (rels : list string) :
  Forall (fun rel => JS.mem rel Retrieval.inherited = false) rels ->
  forall summary,
    NoDup (map fst summary) ->
    Forall (fun kv => exists n, snd kv = Retrieval.Count n /\ 0 < n) summary ->
    let final := fold_left (fun summary rel => Retrieval.count_type rel summary)
                           rels summary in
    NoDup (map fst final) /\
    Forall (fun kv => exists n, snd kv = Retrieval.Count n /\ 0 < n) final /\
    forall t,
      match Summary.count_of final t with
      | Some (Retrieval.Count n) => n
      | _ => 0
      end
      = match Summary.count_of summary t with
        | Some (Retrieval.Count n) => n
        | _ => 0
        end + count_occ string_dec rels t.
Proof.
  induction 1 as [|rel rest Hrel _ IH]; intros summary Hnd Hpos; cbn.
  - repeat split; auto.
  - destruct (IH (Retrieval.count_type rel summary)
                 (count_type_NoDup rel summary Hnd)
                 (count_type_counts rel summary Hrel Hpos)) as (H1 & H2 & H3).
    repeat split; auto.
    intro t. rewrite H3, count_of_count_type by assumption.
    destruct (string_dec rel t); lia.
Qed.

Lemma summarize_flat (nodes : list Retrieval.explored_node) :
  forall summary,
    fold_left (fun summary node =>
                 fold_left (fun summary rel => Retrieval.count_type rel summary)
                           (Retrieval.en_relationships node) summary)
              nodes summary
    = fold_left (fun summary rel => Retrieval.count_type rel summary)
                (Summary.all_relationships nodes) summary.
Proof.
  unfold Summary.all_relationships.
  induction nodes as [|n rest IH]; intro summary; cbn; [reflexivity|].
  now rewrite fold_left_app, IH.
Qed.

Lemma count_of_In (summary : list (string * Retrieval.tally)) (t : string)
      (v : Retrieval.tally) :
  Summary.count_of summary t = Some v -> In (t, v) summary.
Proof.
  induction summary as [|[k v'] rest IH]; cbn; [discriminate|].
  destruct (String.eqb_spec k t) as [->|Hk].
  - intro H. injection H as ->. now left.
  - intro H. right. now apply IH.
Qed.

Lemma In_count_of (summary : list (string * Retrieval.tally)) (t : string)
      (v : Retrieval.tally) :
  NoDup (map fst summary) -> In (t, v) summary ->
  Summary.count_of summary t = Some v.
Proof.
  induction summary as [|[k v'] rest IH]; cbn; intros Hnd Hin; [contradiction|].
  inversion Hnd as [|? ? Hnot Hmore]; subst.
  destruct Hin as [Heq|Hin].
  - injection Heq as -> ->. now rewrite String.eqb_refl.
  - destruct (String.eqb_spec k t) as [->|Hk]; [|now apply IH].
    exfalso. apply Hnot. apply (in_map fst) in Hin. exact Hin.
Qed.

(** X5.  In a store of which no relationship type is a property that
    a plain object inherits ([constructor], [toString], [__proto__]
    and the like), and for relationship types asked for that are
    names, the relationship summary of a successful exploration is a
    histogram: it lists each relationship name once, with the number
    of times the name occurs over the relationship lists of all
    connected nodes, and lists no name that does not occur. *)
Theorem relationship_summary_counts_occurrences
        (p : Retrieval.explore_params) (w : world) :
  forallb (fun r => negb (JS.mem (rel_type r) Retrieval.inherited))
          (rels (store w)) = true ->
  Discipline.names (Retrieval.explore_types p) ->
  match fst (Retrieval.exploreKnowledgeGraph p w) with
  | Returned (Retrieval.ExploreSuccess data) =>
      let summary := Retrieval.relationshipSummary data in
      let names := Summary.all_relationships (Retrieval.connectedNodes data) in
      NoDup (map fst summary) /\
      (forall t,
          Summary.count_of summary t
          = match count_occ string_dec names t with
            | 0 => None
            | S n => Some (Retrieval.Count (S n))
            end) /\
      (forall t v, In (t, v) summary -> In t names)
  | _ => True
  end.
Proof.
  intros Hplain _. destruct w as [g l c f o]. cbn [store] in Hplain.
  unfold Retrieval.exploreKnowledgeGraph. run_session.
  destruct o as [e|]; [exact I|].
  destruct (Reading.explore _ _ _ g) as [|record rest] eqn:E; [exact I|].
  assert (Hin : In record (Reading.explore (Retrieval.ep_startConcept p)
                             (Retrieval.explore_types p)
                             (Retrieval.maxDepth p) g))
    by (rewrite E; now left).
  apply explore_some in Hin as (_ & _ & Hconn).
  destruct record as [start conns]. cbn [fst snd] in Hconn.
  cbn [Retrieval.relationshipSummary Retrieval.connectedNodes].
  set (nodes := map Retrieval.connected_of conns).
  assert (Hnames : Forall (fun rel => JS.mem rel Retrieval.inherited = false)
                          (Summary.all_relationships nodes)).
  { apply Forall_forall. intros t Ht.
    unfold Summary.all_relationships in Ht. apply in_concat in Ht as (ts & Hts & Ht).
    apply in_map_iff in Hts as (n & <- & Hn).
    unfold nodes in Hn. apply in_map_iff in Hn as (conn & <- & Hc).
    rewrite Hconn in Hc. apply distinct_In, connections_of_names in Hc.
    rewrite Forall_forall in Hc.
    destruct (Hc t Ht) as (r & Hr & <-).
    rewrite forallb_forall in Hplain. apply Hplain in Hr.
    now apply negb_true_iff in Hr. }
  unfold Retrieval.summarize. rewrite summarize_flat.
  destruct (tally_invariant (Summary.all_relationships nodes) Hnames []
              (NoDup_nil _) (Forall_nil _)) as (Hnd & Hpos & Hcount).
  cbv zeta in *. cbn [Summary.count_of] in Hcount.
  set (summary := fold_left _ (Summary.all_relationships nodes) []) in *.
  assert (Hvalue : forall t,
             Summary.count_of summary t
             = match count_occ string_dec (Summary.all_relationships nodes) t with
               | 0 => None
               | S n => Some (Retrieval.Count (S n))
               end).
  { intro t. specialize (Hcount t). cbn in Hcount. rewrite <- Hcount.
    destruct (Summary.count_of summary t) as [v|] eqn:Ev; [|reflexivity].
    apply count_of_In in Ev. rewrite Forall_forall in Hpos.
    destruct (Hpos _ Ev) as (n & Hv & Hn). cbn in Hv. subst v.
    destruct n; [lia|reflexivity]. }
  split; [exact Hnd|]. split; [exact Hvalue|].
  intros t v Hin.
  apply In_count_of in Hin; [|exact Hnd]. rewrite Hvalue in Hin.
  apply (count_occ_In string_dec).
  destruct (count_occ string_dec (Summary.all_relationships nodes) t);
    [discriminate|lia].
Qed.

End ExplorationData.

(** The first memo cites the second: the exploration from the first
    by the type [CITES] finds the second at depth 1. *)
Lemma exploration_depth_is_bounded_witness :
  match fst (Retrieval.exploreKnowledgeGraph
               (Retrieval.mkExploreParams "Alpha beta" (Some ["CITES"]) None)
               Examples.memos) with
  | Returned (Retrieval.ExploreSuccess data) =>
      Retrieval.en_depth (Retrieval.startNode data) = None /\
      Forall (fun n =>
        exists d,
          Retrieval.en_depth n = Some d /\
          1 <= d <= Retrieval.maxDepth
                      (Retrieval.mkExploreParams "Alpha beta" (Some ["CITES"])
                                                 None) /\
          List.length (Retrieval.en_relationships n) <= d /\
          Forall (fun t =>
                    Retrieval.explore_types
                      (Retrieval.mkExploreParams "Alpha beta" (Some ["CITES"])
                                                 None) = [] \/
                    In t (Retrieval.explore_types
                            (Retrieval.mkExploreParams "Alpha beta"
                                                       (Some ["CITES"]) None)))
                 (Retrieval.en_relationships n))
        (Retrieval.connectedNodes data)
  | _ => True
  end.
Proof.
  apply (exploration_depth_is_bounded
           (Retrieval.mkExploreParams "Alpha beta" (Some ["CITES"]) None)
           Examples.memos).
  repeat constructor.
Defined.

Lemma relationship_summary_counts_occurrences_witness :
  match fst (Retrieval.exploreKnowledgeGraph
               (Retrieval.mkExploreParams "Alpha beta" (Some ["CITES"]) None)
               Examples.memos) with
  | Returned (Retrieval.ExploreSuccess data) =>
      let summary := Retrieval.relationshipSummary data in
      let names := Summary.all_relationships (Retrieval.connectedNodes data) in
      NoDup (map fst summary) /\
      (forall t,
          Summary.count_of summary t
          = match count_occ string_dec names t with
            | 0 => None
            | S n => Some (Retrieval.Count (S n))
            end) /\
      (forall t v, In (t, v) summary -> In t names)
  | _ => True
  end.
Proof.
  apply (relationship_summary_counts_occurrences
           (Retrieval.mkExploreParams "Alpha beta" (Some ["CITES"]) None)
           Examples.memos).
  - reflexivity.
  - repeat constructor.
Defined.

(** What the summary makes of a relationship type that a plain object
    inherits: a text for [constructor], however often it occurs, and
    nothing for [__proto__]. *)
Lemma summary_of_inherited_names :
  Retrieval.summarize
    [Retrieval.mkExplored None None "Note" None None None (Some 1)
                          ["constructor"; "__proto__"; "CITES"; "constructor"]]
  = [("constructor", Retrieval.Text); ("CITES", Retrieval.Count 1)].
Proof. reflexivity. Qed.

(** ** Exact search: order, result fields and filters *)

Section SearchData.

Import Graph.

Variable syntax_error : string -> string.
Variable stringify_node : node -> string.





Lemma or3_true_r (a : option bool) : or3 a (Some true) = Some true.
Proof. now destruct a as [[]|]. Qed.

Lemma or3_true_l (b : option bool) : or3 (Some true) b = Some true.
Proof. now destruct b as [[]|]. Qed.

Lemma limit_keeps_all {A : Type} (n : nat) (xs : list A) (x : A) :
  List.length xs <= n -> In x xs -> In x (Order.limit n xs).
Proof. intros Hn Hx. now rewrite limit_all. Qed.

Lemma domain_rows_length (g : graph) (f : Reading.filters) (n : node) :
  JS.truthy_string (Reading.f_domain f) = false ->
  Reading.domain_rows g f n = [n].
Proof. unfold Reading.domain_rows. now intros ->. Qed.

Lemma flat_map_singleton {A : Type} (f : A -> list A) (xs : list A) :
  (forall x, f x = [x]) -> flat_map f xs = xs.
Proof.
  intro H. induction xs as [|x rest IH]; cbn; [reflexivity|].
  now rewrite H, IH.
Qed.

(** X9.  The [minConfidence] and [source] filters are written before
    the first of the three text conditions and bind to it alone.  For
    a filter with no domain and no array of content types, whose
    content type if any is a name: a [Knowledge] node whose name or
    statement contains the query is returned whatever its confidence
    and source, as long as the limit leaves room; a node that has
    neither a name nor a statement is returned only if its confidence
    reaches [minConfidence]. *)
Theorem confidence_filter_guards_content_only
        (query : string) (f : Reading.filters) (g : graph) (n : node) (min : Q) :
  JS.truthy_string (Reading.f_domain f) = false ->
  Reading.f_minConfidence f = Some min ->
  Qeq_bool min 0 = false ->
  In n (nodes g) ->
  has_label "Knowledge" n = true ->
  Reading.type_matches f n = true ->
  Reading.several_types f = false ->
  Discipline.names (Discipline.types_of f) ->
  ((exists s,
       (p_name n = Some s \/ p_statement n = Some s) /\
       JS.includes (JS.toLowerCase s) (JS.toLowerCase query) = true) ->
   In (n, Reading.relevance_of n)
      (Reading.exactSearch query f (List.length (nodes g)) g)) /\
  (p_name n = None -> p_statement n = None ->
   holds (ge3 (p_confidence n) (Some min)) = false ->
   forall maxResults relevance,
     ~ In (n, relevance) (Reading.exactSearch query f maxResults g)).
Proof.
  intros Hdom Hmin Hnz Hin Hlabel Htype _ _. split.
  - intros (s & Hs & Hi). unfold Reading.exactSearch.
    rewrite (flat_map_singleton (Reading.domain_rows g f))
      by (intro; now apply domain_rows_length).
    apply limit_keeps_all.
    + rewrite order_by_length, length_map.
      etransitivity; [apply filter_length_le|apply filter_length_le].
    + apply order_by_In.
      apply (in_map (fun n => (n, Reading.relevance_of n))).
      apply filter_In. split.
      * apply filter_In. split; [exact Hin|]. now rewrite Hlabel, Htype.
      * unfold Reading.exact_where.
        destruct Hs as [Hs|Hs]; rewrite Hs; cbn; rewrite Hi.
        -- now rewrite or3_true_r, or3_true_l.
        -- now rewrite or3_true_r.
  - intros Hname Hstmt Hlow maxResults relevance H.
    apply exactSearch_In in H as (_ & _ & Hw & _).
    unfold Reading.exact_where in Hw. rewrite Hname, Hstmt, Hmin in Hw.
    cbn [toLower option_map contains3 lift2 JS.truthy_number] in Hw.
    rewrite Hnz in Hw. cbn [negb] in Hw.
    revert Hw Hlow.
    generalize (ge3 (p_confidence n) (Some min)) as ok.
    generalize (contains3 (toLower (p_content n))
                          (Some (JS.toLowerCase query))) as found.
    generalize (eq3 (p_source n) (Reading.f_source f)) as same.
    intros same found ok.
    destruct (JS.truthy_string (Reading.f_source f));
      destruct same as [[]|], found as [[]|], ok as [[]|]; cbn;
      discriminate.
Qed.

End SearchData.

(** The note of the scenario has confidence 0.9 and the name [beta]:
    it is found by its name under a filter that asks for confidence 1. *)
Lemma confidence_filter_guards_content_only_witness :
  ((exists s,
       (Graph.p_name Scenario.note = Some s \/
        Graph.p_statement Scenario.note = Some s) /\
       JS.includes (JS.toLowerCase s) (JS.toLowerCase "beta") = true) ->
   In (Scenario.note, Reading.relevance_of Scenario.note)
      (Reading.exactSearch "beta" Examples.certain_only
         (List.length (Graph.nodes (store Scenario.one_note)))
         (store Scenario.one_note))) /\
  (Graph.p_name Scenario.note = None ->
   Graph.p_statement Scenario.note = None ->
   Graph.holds (Graph.ge3 (Graph.p_confidence Scenario.note) (Some 1%Q)) = false ->
   forall maxResults relevance,
     ~ In (Scenario.note, relevance)
          (Reading.exactSearch "beta" Examples.certain_only maxResults
             (store Scenario.one_note))).
Proof.
  apply (confidence_filter_guards_content_only
           "beta" Examples.certain_only (store Scenario.one_note)
           Scenario.note 1%Q); try reflexivity.
  - now left.
  - constructor.
Defined.

(** ** Concept upsert: what a re-assertion touches *)

Section UpsertData.

Import Graph.

Lemma concept_named_other (name m : string) (n : node) :
  m <> name ->
  Storage.concept_named (Some m) n = true ->
  Storage.concept_named (Some name) n = false.
Proof.
  unfold Storage.concept_named. intros Hne H.
  apply andb_prop in H as (Hl & H). rewrite Hl. cbn [andb].
  destruct (p_name n) as [nm|]; cbn in *; [|reflexivity].
  destruct (String.eqb_spec nm m) as [Hnm|]; [|discriminate].
  rewrite Hnm. apply String.eqb_neq in Hne. now rewrite Hne.
Qed.

(** X10.  An upsert touches the concepts of its own name and nothing
    else: the relationships are the same, every node that is not a
    concept of that name stays in the store as it is, the concepts of
    any other name are the same, and the store grows by one node
    exactly when it held no concept of that name. *)
Theorem upsert_touches_one_name_only
        (p : CypherBuilder.concept_params) (w : world) :
  rels (store (Storage.upsert p w)) = rels (store w) /\
  (forall n,
      In n (nodes (store w)) ->
      Storage.concept_named (Some (CypherBuilder.name p)) n = false ->
      In n (nodes (store (Storage.upsert p w)))) /\
  (forall m,
      m <> CypherBuilder.name p ->
      Storage.concepts_named m (Storage.upsert p w)
      = Storage.concepts_named m w) /\
  List.length (nodes (store (Storage.upsert p w)))
  = List.length (nodes (store w))
    + match Storage.concepts_named (CypherBuilder.name p) w with
      | [] => 1
      | _ => 0
      end.
Proof.
  unfold Storage.upsert, Storage.mergeConcept, Storage.concepts_named.
  destruct (bound_of_concept p) as (Hname & _). cbv zeta in Hname.
  rewrite Hname.
  destruct (filter _ (nodes (store w))) as [|c0 cs] eqn:E;
    cbn [snd Storage.with_store store nodes rels].
  - split; [reflexivity|]. split; [|split].
    + intros n Hn _. apply in_or_app. now left.
    + intros m Hm. rewrite filter_app. cbn [filter].
      replace (Storage.concept_named (Some m) _) with false;
        [now rewrite app_nil_r|].
      unfold Storage.concept_named, Storage.created_concept, has_label.
      cbn [labels p_name]. rewrite Hname. cbn.
      assert (Hne : CypherBuilder.name p <> m) by congruence.
      apply String.eqb_neq in Hne. now rewrite Hne.
    + rewrite List.length_app. reflexivity.
  - split; [reflexivity|]. split; [|split].
    + intros n Hn Hnot. apply in_map_iff. exists n. now rewrite Hnot.
    + intros m Hm. clear E.
      induction (nodes (store w)) as [|n rest IH]; [reflexivity|].
      cbn [map filter].
      destruct (Storage.concept_named (Some m) n) eqn:Em.
      * rewrite (concept_named_other _ m n Hm Em), Em. now rewrite IH.
      * destruct (Storage.concept_named (Some (CypherBuilder.name p)) n);
          [rewrite matched_keeps_name|]; rewrite Em; exact IH.
    + rewrite length_map. lia.
Qed.

Lemma Forall2_map_self {A : Type} (P : A -> A -> Prop) (f : A -> A)
      (xs : list A) :
  (forall x, P x (f x)) -> Forall2 P xs (map f xs).
Proof. intro H. induction xs; cbn; constructor; auto. Qed.

(** X11.  Re-asserting a concept the store holds keeps each node's
    identifier, labels, name, source, creation date and metadata, and
    sets [last_updated] to the store's clock.  A stored confidence is
    never lowered, and a node without confidence stays without. *)
Theorem reassertion_keeps_identity_and_confidence_never_drops
        (p : CypherBuilder.concept_params) (w : world) :
  Storage.concepts_named (CypherBuilder.name p) w <> [] ->
  Forall2 (fun old new =>
    node_key new = node_key old /\ labels new = labels old /\
    p_id new = p_id old /\ p_name new = p_name old /\
    p_source new = p_source old /\
    p_created_date new = p_created_date old /\
    p_metadata new = p_metadata old /\
    p_last_updated new = Some (clock w) /\
    (forall c0, p_confidence old = Some c0 ->
                exists c1, p_confidence new = Some c1 /\ (c0 <= c1)%Q) /\
    (p_confidence old = None -> p_confidence new = None))
    (Storage.concepts_named (CypherBuilder.name p) w)
    (Storage.concepts_named (CypherBuilder.name p) (Storage.upsert p w)).
Proof.
  intro Hsome. rewrite upsert_updates by exact Hsome.
  apply Forall2_map_self. intro n.
  cbn [Storage.matched_concept node_key labels p_id p_name p_source
       p_created_date p_metadata p_last_updated p_confidence].
  destruct (bound_of_concept p) as (_ & _ & Hc). cbv zeta in Hc. rewrite Hc.
  repeat split.
  - intros c0 H0. rewrite H0. cbn [lt3 lift2 holds].
    destruct (Qltb c0 _) eqn:E; eexists; (split; [reflexivity|]).
    + apply Qlt_le_weak. now apply Qltb_lt.
    + apply Qle_refl.
  - now intros ->.
Qed.

End UpsertData.

Lemma reassertion_keeps_identity_and_confidence_never_drops_witness :
  Forall2 (fun old new =>
    Graph.node_key new = Graph.node_key old /\
    Graph.labels new = Graph.labels old /\
    Graph.p_id new = Graph.p_id old /\ Graph.p_name new = Graph.p_name old /\
    Graph.p_source new = Graph.p_source old /\
    Graph.p_created_date new = Graph.p_created_date old /\
    Graph.p_metadata new = Graph.p_metadata old /\
    Graph.p_last_updated new = Some (clock Examples.one_concept) /\
    (forall c0, Graph.p_confidence old = Some c0 ->
                exists c1, Graph.p_confidence new = Some c1 /\ (c0 <= c1)%Q) /\
    (Graph.p_confidence old = None -> Graph.p_confidence new = None))
    (Storage.concepts_named "Neo4j" Examples.one_concept)
    (Storage.concepts_named "Neo4j"
       (Storage.upsert Examples.neo4j Examples.one_concept)).
Proof.
  apply (reassertion_keeps_identity_and_confidence_never_drops
           Examples.neo4j Examples.one_concept).
  vm_compute. discriminate.
Defined.

(** ** Relationship creation *)

Section RelationshipFacts.

Import Graph.

Variable type : string.
Variable properties : list (string * string).

Lemma mergeRel_nodes (a b : nat) (w : world) :
  nodes (store (Storage.mergeRel a type b properties w)) = nodes (store w).
Proof. unfold Storage.mergeRel. now destruct (existsb _ _). Qed.

Lemma existsb_map_same {A : Type} (f : A -> bool) (h : A -> A) (xs : list A) :
  (forall x, f (h x) = f x) -> existsb f (map h xs) = existsb f xs.
Proof.
  intro H. induction xs as [|x rest IH]; cbn; [reflexivity|].
  now rewrite H, IH.
Qed.

Lemma mergeRel_links (a b : nat) (w : world) :
  Discipline.linked a type b (Storage.mergeRel a type b properties w) = true.
Proof.
  unfold Discipline.linked, Storage.mergeRel.
  destruct (existsb _ (rels (store w))) eqn:E; cbn [store Storage.with_store rels].
  - rewrite existsb_map_same; [exact E|].
    intro r. now destruct (Storage.joins a type b r) eqn:Ej.
  - rewrite existsb_app. cbn. unfold Storage.joins. cbn.
    now rewrite !Nat.eqb_refl, String.eqb_refl, orb_true_r.
Qed.

Lemma mergeRel_keeps_links (a b a' b' : nat) (t' : string) (w : world) :
  Discipline.linked a' t' b' w = true ->
  Discipline.linked a' t' b' (Storage.mergeRel a type b properties w) = true.
Proof.
  unfold Discipline.linked, Storage.mergeRel. intro H.
  destruct (existsb (Storage.joins a type b) (rels (store w)));
    cbn [store Storage.with_store rels].
  - rewrite existsb_map_same; [exact H|].
    intro r. now destruct (Storage.joins a type b r).
  - rewrite existsb_app, H. reflexivity.
Qed.




End RelationshipFacts.

Section RelationshipIdempotence.

Import Graph.

Lemma mergeRel_frame (a b : nat) (type : string)
      (properties : list (string * string)) (w : world) :
  log (Storage.mergeRel a type b properties w) = log w /\
  clock (Storage.mergeRel a type b properties w) = clock w /\
  outage (Storage.mergeRel a type b properties w) = outage w.
Proof. unfold Storage.mergeRel. now destruct (existsb _ _). Qed.






End RelationshipIdempotence.

Section RelationshipEndpoints.

Import Graph.



End RelationshipEndpoints.



(** ** Extraction: bounds on the candidates *)

Section ExtractionBounds.

Import Regex.

Lemma unique_from_NoDup (xs : list string) :
  forall seen,
    NoDup (JS.unique_from seen xs) /\
    forall x, In x (JS.unique_from seen xs) -> ~ In x seen.
Proof.
  induction xs as [|y rest IH]; intro seen; cbn [JS.unique_from].
  - split; [constructor|contradiction].
  - destruct (JS.mem y seen) eqn:E.
    + apply IH.
    + destruct (IH (y :: seen)) as (Hnd & Hnot). split.
      * constructor; [|exact Hnd]. intro Hin. apply (Hnot y Hin). now left.
      * intros x [->|Hx].
        -- intro Hin. unfold JS.mem in E.
           assert (existsb (String.eqb x) seen = true)
             by (apply existsb_exists; exists x; split;
                 [exact Hin|apply String.eqb_refl]).
           congruence.
        -- intro Hin. apply (Hnot x Hx). now right.
Qed.

Lemma firstn_NoDup {A : Type} (n : nat) (xs : list A) :
  NoDup xs -> NoDup (firstn n xs).
Proof.
  intro H. rewrite <- (firstn_skipn n xs) in H.
  now apply NoDup_app_remove_r in H.
Qed.

(** X15.  The concept candidates of a text of ASCII characters are at
    most 10, without repetition; each is one of the matches of the
    expression, has at least 4 characters, is none of the stop words,
    and consists of letters and white space. *)
Theorem concept_candidates_are_bounded (rawOutput : string) :
  JS.ascii_only rawOutput = true ->
  let candidates := McpExtractor.uniqueConcepts rawOutput in
  List.length candidates <= 10 /\
  NoDup candidates /\
  Forall (fun c =>
            In c (McpExtractor.rawConcepts rawOutput) /\
            4 <= String.length c /\
            ~ In c McpExtractor.stopwords /\
            all_in (fun x => JS.is_letter x || JS.is_space x) c = true)
         candidates.
Proof.
  intros _. cbv zeta. split; [apply firstn_le_length|]. split.
  - unfold McpExtractor.uniqueConcepts.
    apply firstn_NoDup, NoDup_filter, unique_from_NoDup.
  - apply Forall_forall. intros c Hc.
    pose proof (candidates_are_letters_and_spaces rawOutput c Hc) as Hletters.
    unfold McpExtractor.uniqueConcepts in Hc.
    apply limit_In, filter_In in Hc as (Hraw & Hkeep).
    apply andb_prop in Hkeep as (Hstop & Hlen).
    apply unique_from_In in Hraw.
    split; [exact Hraw|]. split; [now apply Nat.ltb_lt in Hlen|].
    split; [|exact Hletters].
    intro Hin. apply negb_true_iff in Hstop. unfold JS.mem in Hstop.
    assert (existsb (String.eqb c) McpExtractor.stopwords = true)
      by (apply existsb_exists; exists c; split;
          [exact Hin|apply String.eqb_refl]).
    congruence.
Qed.

(** X16.  The fact candidates of a text of ASCII characters are at
    most 5; each is a sentence of more than 20 and fewer than 200
    characters that contains, with case ignored, one of the indicator
    phrases. *)
Theorem fact_candidates_are_bounded (rawOutput : string) :
  JS.ascii_only rawOutput = true ->
  let facts := McpExtractor.potentialFacts rawOutput in
  List.length facts <= 5 /\
  Forall (fun sentence =>
            In sentence (McpExtractor.sentences rawOutput) /\
            20 < String.length sentence < 200 /\
            exists indicator,
              In indicator McpExtractor.factIndicators /\
              JS.includes (JS.toLowerCase sentence) indicator = true)
         facts.
Proof.
  intros _. cbv zeta. split; [apply firstn_le_length|].
  apply Forall_forall. intros sentence H.
  unfold McpExtractor.potentialFacts in H.
  apply limit_In, filter_In in H as (Hs & Hind).
  split; [exact Hs|]. split.
  - unfold McpExtractor.sentences in Hs. apply filter_In in Hs as (_ & Hlen).
    apply andb_prop in Hlen as (H1 & H2).
    apply Nat.ltb_lt in H1, H2. lia.
  - apply existsb_exists in Hind as (indicator & Hin & Hi). now exists indicator.
Qed.

Lemma scan_without_capital (s : string) :
  all_in (fun c => negb (JS.is_upper c)) s = true ->
  forall before, scan McpExtractor.conceptRegex before 0 s = [].
Proof.
  induction s as [|c s IH]; intros Hs before.
  - cbn [scan]. unfold match_here, McpExtractor.conceptRegex. cbn [run].
    now destruct (at_boundary before EmptyString).
  - cbn [all_in] in Hs. apply andb_prop in Hs as (Hc & Hs).
    apply negb_true_iff in Hc.
    cbn [scan]. unfold match_here, McpExtractor.conceptRegex. cbn [run].
    rewrite Hc. destruct (at_boundary before (String c s)); now apply IH.
Qed.

Lemma trimStart_length (s : string) :
  String.length (JS.trimStart s) <= String.length s.
Proof.
  induction s as [|c s IH]; cbn; [lia|]. destruct (JS.is_space c); cbn; lia.
Qed.

Lemma reverse_length (s : string) :
  String.length (JS.reverse s) = String.length s.
Proof.
  unfold JS.reverse.
  assert (H1 : forall l, String.length (string_of_list_ascii l) = List.length l)
    by (induction l; cbn; congruence).
  assert (H2 : forall t, List.length (list_ascii_of_string t) = String.length t)
    by (induction t; cbn; congruence).
  now rewrite H1, length_rev, H2.
Qed.

Lemma trim_length (s : string) :
  String.length (JS.trim s) <= String.length s.
Proof.
  unfold JS.trim. rewrite reverse_length.
  etransitivity; [apply trimStart_length|].
  rewrite reverse_length. apply trimStart_length.
Qed.

Lemma split_length (sep : ascii -> bool) (s piece : string) :
  In piece (JS.split sep s) -> String.length piece <= String.length s.
Proof.
  revert piece. induction s as [|c s IH]; intros piece H.
  - destruct H as [<-|[]]. cbn. lia.
  - cbn [JS.split] in H. destruct (sep c).
    + destruct H as [<-|H]; [cbn; lia|]. apply IH in H. cbn. lia.
    + destruct (JS.split sep s) as [|h t] eqn:E.
      * destruct H as [<-|[]]. cbn. lia.
      * destruct H as [<-|H].
        -- cbn. apply le_n_S. apply IH. now left.
        -- cbn. apply le_S. apply IH. now right.
Qed.

(** X17.  A text with no capital letter yields no concept candidate,
    and a text of at most 20 characters yields no fact candidate; in
    particular the empty text yields neither. *)
Theorem extraction_of_plain_or_short_text_is_empty (rawOutput : string) :
  (all_in (fun c => negb (JS.is_upper c)) rawOutput = true ->
   McpExtractor.rawConcepts rawOutput = [] /\
   McpExtractor.uniqueConcepts rawOutput = []) /\
  (String.length rawOutput <= 20 ->
   McpExtractor.sentences rawOutput = [] /\
   McpExtractor.potentialFacts rawOutput = []).
Proof.
  split.
  - intro H.
    assert (Hraw : McpExtractor.rawConcepts rawOutput = [])
      by (apply scan_without_capital; exact H).
    split; [exact Hraw|].
    unfold McpExtractor.uniqueConcepts. now rewrite Hraw.
  - intro H.
    assert (Hs : McpExtractor.sentences rawOutput = []).
    { unfold McpExtractor.sentences.
      destruct (filter _ _) as [|s rest] eqn:E; [reflexivity|].
      assert (Hin : In s (filter
                 (fun s => (20 <? String.length s) && (String.length s <? 200))
                 (map JS.trim (JS.split McpExtractor.sentence_end rawOutput))))
        by (rewrite E; now left).
      apply filter_In in Hin as (Hin & Hlen).
      apply andb_prop in Hlen as (Hlen & _). apply Nat.ltb_lt in Hlen.
      apply in_map_iff in Hin as (piece & <- & Hpiece).
      apply split_length in Hpiece.
      pose proof (trim_length piece). lia. }
    split; [exact Hs|].
    unfold McpExtractor.potentialFacts. now rewrite Hs.
Qed.

End ExtractionBounds.

Lemma concept_candidates_are_bounded_witness :
  List.length (McpExtractor.uniqueConcepts Scenario.sample_text) <= 10 /\
  NoDup (McpExtractor.uniqueConcepts Scenario.sample_text) /\
  Forall (fun c =>
            In c (McpExtractor.rawConcepts Scenario.sample_text) /\
            4 <= String.length c /\
            ~ In c McpExtractor.stopwords /\
            Regex.all_in (fun x => JS.is_letter x || JS.is_space x) c = true)
         (McpExtractor.uniqueConcepts Scenario.sample_text).
Proof.
  apply (concept_candidates_are_bounded Scenario.sample_text). reflexivity.
Defined.

Lemma fact_candidates_are_bounded_witness :
  List.length (McpExtractor.potentialFacts Scenario.sample_text) <= 5 /\
  Forall (fun sentence =>
            In sentence (McpExtractor.sentences Scenario.sample_text) /\
            20 < String.length sentence < 200 /\
            exists indicator,
              In indicator McpExtractor.factIndicators /\
              JS.includes (JS.toLowerCase sentence) indicator = true)
         (McpExtractor.potentialFacts Scenario.sample_text).
Proof.
  apply (fact_candidates_are_bounded Scenario.sample_text). reflexivity.
Defined.

Lemma extraction_of_plain_or_short_text_is_empty_witness :
  (McpExtractor.rawConcepts "no capitals here" = [] /\
   McpExtractor.uniqueConcepts "no capitals here" = []) /\
  (McpExtractor.sentences "no capitals here" = [] /\
   McpExtractor.potentialFacts "no capitals here" = []).
Proof.
  split;
    [apply (proj1 (extraction_of_plain_or_short_text_is_empty "no capitals here"))
    |apply (proj2 (extraction_of_plain_or_short_text_is_empty "no capitals here"))].
  - reflexivity.
  - cbn. lia.
Defined.

(** ** The shape of an identifier *)

Section UuidShape.

Import Regex.

Lemma hex_run_prefix (n : nat) :
  forall s rest,
    CypherBuilder.hex_run n s = Some rest ->
    exists run,
      s = (run ++ rest)%string /\ String.length run = n /\
      all_in JS.is_hex run = true.
Proof.
  induction n as [|n IH]; intros s rest H; cbn [CypherBuilder.hex_run] in H.
  - injection H as ->. exists EmptyString. auto.
  - destruct s as [|c s]; [discriminate|].
    destruct (JS.is_hex c) eqn:Ec; [|discriminate].
    apply IH in H as (run & -> & Hl & Ha).
    exists (String c run). cbn. rewrite Ec, Hl, Ha. auto.
Qed.

Lemma then_hex_prefix (n : nat) (s : option string) (rest : string) :
  CypherBuilder.then_hex n s = Some rest ->
  exists before run,
    s = Some before /\ before = (run ++ rest)%string /\
    String.length run = n /\ all_in JS.is_hex run = true.
Proof.
  destruct s as [before|]; [|discriminate]. cbn. intro H.
  apply hex_run_prefix in H as (run & H). exists before, run. tauto.
Qed.

Lemma dash_prefix (s : option string) (rest : string) :
  CypherBuilder.dash s = Some rest ->
  exists before, s = Some before /\ before = String "-" rest.
Proof.
  destruct s as [[|c before]|]; try discriminate. cbn.
  destruct (Ascii.eqb_spec c "-") as [->|]; [|discriminate].
  intro H. injection H as ->. now eexists.
Qed.

(** X18.  A text counts as an identifier only if it has exactly 36
    characters, each a hexadecimal digit or a dash: any other text,
    a name with a space in it for one, is matched as a name. *)
Theorem uuid_shaped_texts_have_36_hex_or_dash_characters (str : string) :
  CypherBuilder.isUuid str = true ->
  String.length str = 36 /\
  all_in (fun c => JS.is_hex c || Ascii.eqb c "-") str = true.
Proof.
  unfold CypherBuilder.isUuid.
  destruct (CypherBuilder.then_hex 12 _) as [[|c r]|] eqn:E5; try discriminate.
  intros _.
  apply then_hex_prefix in E5 as (b5 & r5 & E4 & -> & L5 & A5).
  apply dash_prefix in E4 as (b4 & E4 & ->).
  apply then_hex_prefix in E4 as (b3 & r4 & E3 & -> & L4 & A4).
  apply dash_prefix in E3 as (b2 & E3 & ->).
  apply then_hex_prefix in E3 as (b1 & r3 & E2 & -> & L3 & A3).
  apply dash_prefix in E2 as (b0 & E2 & ->).
  apply then_hex_prefix in E2 as (b & r2 & E1 & -> & L2 & A2).
  apply dash_prefix in E1 as (b' & E1 & ->).
  apply hex_run_prefix in E1 as (r1 & -> & L1 & A1).
  assert (Hw : forall run, all_in JS.is_hex run = true ->
                           all_in (fun c => JS.is_hex c || Ascii.eqb c "-") run
                           = true).
  { intros run. apply all_in_weaken. intros c ->. reflexivity. }
  split.
  - repeat (rewrite ?length_app; cbn [String.length]).
    rewrite L1, L2, L3, L4, L5. reflexivity.
  - repeat (rewrite ?all_in_app; cbn [all_in]).
    rewrite !Hw by assumption. reflexivity.
Qed.

End UuidShape.

Lemma uuid_shaped_texts_have_36_hex_or_dash_characters_witness :
  String.length "123e4567-e89b-12d3-A456-426614174000" = 36 /\
  Regex.all_in (fun c => JS.is_hex c || Ascii.eqb c "-")
         "123e4567-e89b-12d3-A456-426614174000" = true.
Proof.
  apply (uuid_shaped_texts_have_36_hex_or_dash_characters
           "123e4567-e89b-12d3-A456-426614174000").
  reflexivity.
Defined.

(** ** Storing a concept under a domain *)

Section StoreConcept.

Import Graph.

Lemma grown_refl (w : world) : Discipline.grown w w.
Proof.
  repeat split; auto. exists []. now rewrite app_nil_r.
Qed.

Lemma grown_trans (w1 w2 w3 : world) :
  Discipline.grown w1 w2 -> Discipline.grown w2 w3 -> Discipline.grown w1 w3.
Proof.
  intros ((e1 & N1 & F1) & L1 & O1) ((e2 & N2 & F2) & L2 & O2).
  repeat split.
  - exists (e1 ++ e2)%list. split.
    + now rewrite N2, N1, app_assoc.
    + now apply Forall_app.
  - auto.
  - congruence.
Qed.

Lemma grown_In (w1 w2 : world) (n : node) :
  Discipline.grown w1 w2 -> In n (nodes (store w1)) -> In n (nodes (store w2)).
Proof.
  intros ((e & N & _) & _) H. rewrite N. apply in_or_app. now left.
Qed.

(** A concept of the grown world was a node of the first. *)
Lemma grown_concept (w1 w2 : world) (n : node) :
  Discipline.grown w1 w2 ->
  In n (nodes (store w2)) -> has_label "Concept" n = true ->
  In n (nodes (store w1)).
Proof.
  intros ((e & N & F) & _) H Hl. rewrite N in H.
  apply in_app_or in H as [H|H]; [exact H|].
  rewrite Forall_forall in F. apply F in H.
  unfold has_label in Hl. rewrite H in Hl. discriminate.
Qed.

Lemma grown_same_store (w1 w2 : world) :
  store w2 = store w1 -> outage w2 = outage w1 -> Discipline.grown w1 w2.
Proof.
  intros Hs Ho. unfold Discipline.grown, Discipline.linked.
  rewrite Hs. repeat split; auto. exists []. now rewrite app_nil_r.
Qed.

Lemma mergeRel_grown (a b : nat) (type : string)
      (properties : list (string * string)) (w : world) :
  Discipline.grown w (Storage.mergeRel a type b properties w).
Proof.
  repeat split.
  - exists []. now rewrite mergeRel_nodes, app_nil_r.
  - intros. now apply mergeRel_keeps_links.
  - apply mergeRel_frame.
Qed.

Lemma mergeDomain_grown (domain : string) (w : world) :
  Discipline.grown w (Storage.mergeDomain domain w) /\
  existsb (Storage.domain_named domain)
          (nodes (store (Storage.mergeDomain domain w))) = true.
Proof.
  unfold Storage.mergeDomain.
  destruct (existsb _ (nodes (store w))) eqn:E.
  - split; [apply grown_refl|exact E].
  - cbn [store Storage.with_store nodes]. split.
    + repeat split; auto. eexists. split; [reflexivity|].
      repeat constructor.
    + rewrite existsb_app. cbn.
      unfold Storage.domain_named, has_label. cbn.
      now rewrite String.eqb_refl, orb_true_r.
Qed.

(** Linking one node to each node of a list. *)
Lemma link_all {X : Type} (g : list X -> node -> list X) (a : nat)
      (type : string) (properties : list (string * string)) (bs : list node) :
  forall acc : list X * world,
    let out :=
      fold_left (fun acc b =>
                   (g (fst acc) b,
                    Storage.mergeRel a type (node_key b) properties (snd acc)))
                bs acc in
    Discipline.grown (snd acc) (snd out) /\
    nodes (store (snd out)) = nodes (store (snd acc)) /\
    forall b, In b bs -> Discipline.linked a type (node_key b) (snd out) = true.
Proof.
  induction bs as [|b rest IH]; intro acc; cbn zeta.
  - cbn. split; [apply grown_refl|]. split; [reflexivity|contradiction].
  - cbn [fold_left].
    destruct (IH (g (fst acc) b,
                  Storage.mergeRel a type (node_key b) properties (snd acc)))
      as (G & N & L).
    cbv zeta in G, N, L. cbn [snd] in G, N, L.
    split; [eapply grown_trans; [apply mergeRel_grown|exact G]|].
    split; [now rewrite N, mergeRel_nodes|].
    intros b' [<-|Hb']; [|now apply L].
    destruct G as (_ & Gl & _). apply Gl, mergeRel_links.
Qed.

(** One step of [attachDomain]: the domain is merged, then the concept
    is linked to every domain node of that name. *)
Lemma attach_step (domain : string) (c : node)
      (acc : list (option string) * world) :
  let w1 := Storage.mergeDomain domain (snd acc) in
  let out :=
    fold_left (fun acc d =>
                 ((fst acc ++ [p_name d])%list,
                  Storage.mergeRel (node_key c) "BELONGS_TO" (node_key d) []
                                   (snd acc)))
              (filter (Storage.domain_named domain) (nodes (store w1)))
              (fst acc, w1) in
  Discipline.grown (snd acc) (snd out) /\
  exists d,
    In d (nodes (store (snd out))) /\ Storage.domain_named domain d = true /\
    Discipline.linked (node_key c) "BELONGS_TO" (node_key d) (snd out) = true.
Proof.
  cbv zeta.
  destruct (mergeDomain_grown domain (snd acc)) as (G1 & E1).
  destruct (link_all (fun xs d => (xs ++ [p_name d])%list) (node_key c)
              "BELONGS_TO" []
              (filter (Storage.domain_named domain)
                      (nodes (store (Storage.mergeDomain domain (snd acc)))))
              (fst acc, Storage.mergeDomain domain (snd acc)))
    as (G2 & N2 & L2).
  cbv zeta in G2, N2, L2. cbn [fst snd] in G2, N2, L2.
  split; [eapply grown_trans; eassumption|].
  apply existsb_exists in E1 as (d & Hd & Hnamed).
  exists d. split; [now rewrite N2|]. split; [exact Hnamed|].
  apply L2. now apply filter_In.
Qed.

Lemma attachDomain_grown (conceptId : option string) (domain : string)
      (w : world) :
  let w' := snd (Storage.attachDomain conceptId domain w) in
  Discipline.grown w w' /\
  forall c,
    In c (nodes (store w)) ->
    Storage.with_id (Some "Concept") conceptId c = true ->
    exists d,
      In d (nodes (store w')) /\ Storage.domain_named domain d = true /\
      Discipline.linked (node_key c) "BELONGS_TO" (node_key d) w' = true.
Proof.
  cbv zeta. unfold Storage.attachDomain.
  assert (H : forall cs (acc : list (option string) * world),
             let out :=
               fold_left (fun acc c =>
                 let w1 := Storage.mergeDomain domain (snd acc) in
                 fold_left (fun acc d =>
                              ((fst acc ++ [p_name d])%list,
                               Storage.mergeRel (node_key c) "BELONGS_TO"
                                                (node_key d) [] (snd acc)))
                           (filter (Storage.domain_named domain)
                                   (nodes (store w1)))
                           (fst acc, w1))
                 cs acc in
             Discipline.grown (snd acc) (snd out) /\
             forall c, In c cs ->
               exists d,
                 In d (nodes (store (snd out))) /\
                 Storage.domain_named domain d = true /\
                 Discipline.linked (node_key c) "BELONGS_TO" (node_key d)
                                   (snd out) = true).
  { induction cs as [|c rest IH]; intro acc; cbn zeta.
    - cbn. split; [apply grown_refl|contradiction].
    - cbn [fold_left].
      destruct (attach_step domain c acc) as (G1 & d & Hd & Hn & Hl).
      cbv zeta in G1, Hd, Hn, Hl.
      set (mid := fold_left _ (filter _ _) (fst acc, _)) in *.
      destruct (IH mid) as (G2 & L2). cbv zeta in G2, L2.
      split; [eapply grown_trans; eassumption|].
      intros c' [<-|Hc']; [|now apply L2].
      exists d. split; [eapply grown_In; eassumption|]. split; [exact Hn|].
      destruct G2 as (_ & Gl & _). now apply Gl. }
  destruct (H (filter (Storage.with_id (Some "Concept") conceptId)
                      (nodes (store w))) ([], w)) as (G & L).
  cbv zeta in G, L. cbn [snd] in G. split; [exact G|].
  intros c Hc Hid. apply L. now apply filter_In.
Qed.

End StoreConcept.

Section StoreConceptRun.

Import Graph.

Lemma bind_eq {A B : Type} (m : session A) (k : A -> session B) (w : world) :
  Session.bind m k w
  = match m w with
    | (Returned a, w') => k a w'
    | (Thrown e, w') => (Thrown e, w')
    end.
Proof. reflexivity. Qed.

Lemma finally_close {A : Type} (m : session A) (w : world) :
  Session.finally m Session.close w
  = (fst (m w), snd (Session.close (snd (m w)))).
Proof.
  unfold Session.finally. now destruct (m w) as [r w'].
Qed.

Lemma try_catch_returned {A : Type} (m : session A) (h : string -> session A)
      (w w' : world) (a : A) :
  m w = (Returned a, w') -> Session.try_catch m h w = (Returned a, w').
Proof. unfold Session.try_catch. now intros ->. Qed.

Lemma run_update_answers {R : Type} (q : built_query)
      (reading : world -> list R * world) (w : world) :
  outage w = None ->
  Session.run_update q reading w
  = (Returned (fst (reading (snd (Session.record (Discipline.asked q) w)))),
     snd (reading (snd (Session.record (Discipline.asked q) w)))).
Proof.
  destruct w as [g l c f o]. cbn [outage]. intros ->.
  cbv [Session.run_update Session.bind Session.record Discipline.asked
       fst snd outage].
  now destruct (reading _).
Qed.

Lemma recorded_grown (e : event) (w : world) :
  Discipline.grown w (snd (Session.record e w)).
Proof. now apply grown_same_store. Qed.

Lemma fold_left_grows {A B : Type} (R : A -> A -> Prop) (step : A -> B -> A)
      (xs : list B) :
  (forall a, R a a) -> (forall a b c, R a b -> R b c -> R a c) ->
  (forall acc x, R acc (step acc x)) ->
  forall acc, R acc (fold_left step xs acc).
Proof.
  intros Hrefl Htrans Hstep.
  induction xs as [|x rest IH]; intro acc; cbn; [apply Hrefl|].
  eapply Htrans; [apply Hstep|apply IH].
Qed.

Lemma relate_grown (label : option string) (sourceId targetId : option string)
      (type : string) (properties : list (string * string)) (w : world) :
  Discipline.grown
    w (snd (Storage.relate label sourceId targetId type properties w)).
Proof.
  unfold Storage.relate.
  pose (R := fun a b : list Storage.rel_record * world =>
               Discipline.grown (snd a) (snd b)).
  assert (Hrefl : forall a, R a a) by (intro; apply grown_refl).
  assert (Htrans : forall a b c, R a b -> R b c -> R a c)
    by (intros a b c; apply grown_trans).
  match goal with
  | |- Discipline.grown _ (snd (fold_left ?step ?xs ?acc)) =>
      change (R acc (fold_left step xs acc))
  end.
  apply fold_left_grows; [exact Hrefl|exact Htrans|].
  intros acc a. apply fold_left_grows; [exact Hrefl|exact Htrans|].
  intros acc' b. unfold R. cbn [snd]. apply mergeRel_grown.
Qed.

(** The loop over the relationships runs to its end when the store
    answers, and only adds to the store. *)
Lemma relate_all_runs (conceptId : option string)
      (rs : list (string * string)) :
  forall w, outage w = None ->
    fst (Storage.relate_all conceptId rs w) = Returned tt /\
    Discipline.grown w (snd (Storage.relate_all conceptId rs w)).
Proof.
  induction rs as [|[type targetId] rest IH]; intros w Ho.
  - split; [reflexivity|apply grown_refl].
  - cbn [Storage.relate_all]. rewrite bind_eq, run_update_answers by exact Ho.
    cbv beta iota.
    set (w1 := snd (Storage.relate _ _ _ _ _ _)).
    assert (G : Discipline.grown w w1).
    { eapply grown_trans; [apply recorded_grown|apply relate_grown]. }
    assert (Ho1 : outage w1 = None).
    { destruct G as (_ & _ & E). congruence. }
    destruct (IH w1 Ho1) as (F & G').
    split; [exact F|eapply grown_trans; eassumption].
Qed.

Lemma mergeConcept_records (bound : list (string * value)) (name : string)
      (w : world) :
  Storage.bound_string "name" bound = Some name ->
  let out := Storage.mergeConcept bound w in
  outage (snd out) = outage w /\
  Discipline.kept w (snd out) /\
  exists c rest,
    fst out = Storage.concept_record_of c :: rest /\
    In c (nodes (store (snd out))) /\
    Storage.concept_named (Some name) c = true.
Proof.
  intro Hname. cbv zeta. unfold Storage.mergeConcept. rewrite Hname.
  destruct (filter _ (nodes (store w))) as [|n ns] eqn:E.
  - split; [reflexivity|]. split.
    { intros n Hn. exists n. cbn [snd Storage.with_store store nodes].
      split; [apply in_or_app; now left|auto]. }
    eexists. exists []. split; [reflexivity|].
    cbn [snd Storage.with_store store nodes]. split.
    + apply in_or_app. right. now left.
    + apply concept_named_self; [reflexivity|exact Hname].
  - split; [reflexivity|].
    cbn [fst snd Storage.with_store store nodes].
    set (update := fun c : node => if Storage.concept_named (Some name) c
                                   then Storage.matched_concept bound (clock w) c
                                   else c).
    split.
    { intros m Hm. exists (update m). split; [now apply in_map|].
      unfold update. now destruct (Storage.concept_named (Some name) m). }
    assert (Hin : In (update n) (filter (Storage.concept_named (Some name))
                                        (map update (nodes (store w))))).
    { assert (Hn : In n (filter (Storage.concept_named (Some name))
                                (nodes (store w)))) by (rewrite E; now left).
      apply filter_In in Hn as (Hn & Hc). apply filter_In. split.
      - now apply in_map.
      - unfold update. now rewrite Hc, matched_keeps_name. }
    destruct (filter _ (map update _)) as [|c rest] eqn:E2; [contradiction|].
    exists c, (map Storage.concept_record_of rest). split; [reflexivity|].
    assert (Hc : In c (filter (Storage.concept_named (Some name))
                              (map update (nodes (store w)))))
      by (rewrite E2; now left).
    now apply filter_In in Hc.
Qed.


End StoreConceptRun.

Section StoreConceptResult.

Import Graph.

Lemma concept_named_name (name : string) (c : node) :
  Storage.concept_named (Some name) c = true ->
  has_label "Concept" c = true /\ p_name c = Some name.
Proof.
  unfold Storage.concept_named. intro H.
  apply andb_true_iff in H as (Hl & Hn). split; [exact Hl|].
  destruct (p_name c) as [n|]; [|discriminate]. cbn in Hn.
  destruct (String.eqb_spec n name); [congruence|discriminate].
Qed.

(** How [storeConcept] runs when the store answers: the concept query
    yields a first record [c]; the domain query, when a domain is
    given, and the relationship queries only add to the store; the
    session is closed and the answer carries the record's id and
    name. *)
Lemma storeConcept_run (p : Storage.concept_request) (w : world) :
  outage w = None ->
  let name := CypherBuilder.name (Storage.concept p) in
  exists c w1 w3,
    In c (nodes (store w1)) /\
    Storage.concept_named (Some name) c = true /\
    outage w1 = None /\
    Discipline.kept w w1 /\
    Discipline.grown
      (if JS.truthy_string (Storage.domain p)
       then snd (Storage.attachDomain
                   (p_id c) (JS.or_string (Storage.domain p) EmptyString)
                   (snd (Session.record
                           (Discipline.asked
                              (mkBuilt Text.attachDomain_text
                                 [ ("conceptId", CypherBuilder.opt_value (p_id c));
                                   ("domain",
                                    CypherBuilder.opt_value (Storage.domain p)) ]))
                           w1)))
       else w1) w3 /\
    Storage.storeConcept p w
    = (Returned (Storage.Stored (p_id c) (Some name)), snd (Session.close w3)).
Proof.
  intros Ho name. unfold Storage.storeConcept.
  rewrite bind_eq.
  set (w0 := snd (Session.open w)).
  change (Session.open w) with (Returned tt, w0). cbv beta iota.
  assert (Ho0 : outage w0 = None) by exact Ho.
  rewrite finally_close.
  set (q := CypherBuilder.createConceptQuery (Storage.concept p)).
  destruct (mergeConcept_records (params q) name
              (snd (Session.record (Discipline.asked q) w0)) eq_refl)
    as (Ho1 & K & c & rest & Hrec & Hin & Hnamed).
  cbv zeta in Ho1, K, Hrec, Hin.
  set (w1 := snd (Storage.mergeConcept _ _)) in *.
  assert (Ho1' : outage w1 = None) by (rewrite Ho1; exact Ho0).
  destruct (concept_named_name name c Hnamed) as (Hlabel & Hname).
  exists c, w1.
  set (rs := match Storage.relationships p with Some rs => rs | None => [] end).
  set (w2 := if JS.truthy_string (Storage.domain p) then _ else w1).
  assert (G2 : Discipline.grown w1 w2).
  { unfold w2. destruct (JS.truthy_string (Storage.domain p)).
    - eapply grown_trans; [apply recorded_grown|apply attachDomain_grown].
    - apply grown_refl. }
  assert (Ho2 : outage w2 = None).
  { destruct G2 as (_ & _ & E). congruence. }
  destruct (relate_all_runs (p_id c) rs w2 Ho2) as (F & G).
  exists (snd (Storage.relate_all (p_id c) rs w2)).
  split; [exact Hin|]. split; [exact Hnamed|]. split; [exact Ho1'|].
  split; [exact K|]. split; [exact G|].
  erewrite try_catch_returned; [reflexivity|].
  rewrite bind_eq, run_update_answers by exact Ho0. cbv beta iota.
  rewrite Hrec. cbv beta iota.
  cbn [Storage.cr_id Storage.cr_name Storage.concept_record_of].
  fold w1. rewrite Hname, bind_eq.
  assert (D : (if JS.truthy_string (Storage.domain p)
               then
                 (Session.run_update
                    (mkBuilt Text.attachDomain_text
                       [ ("conceptId", CypherBuilder.opt_value (p_id c));
                         ("domain", CypherBuilder.opt_value (Storage.domain p)) ])
                    (Storage.attachDomain
                       (p_id c) (JS.or_string (Storage.domain p) EmptyString)) ;;;
                  Session.ret tt)%session
               else Session.ret tt) w1 = (Returned tt, w2)).
  { unfold w2. destruct (JS.truthy_string (Storage.domain p)); [|reflexivity].
    now rewrite bind_eq, run_update_answers by exact Ho1'. }
  rewrite D. cbv beta iota. rewrite bind_eq.
  fold rs. destruct (Storage.relate_all (p_id c) rs w2) as [r w3].
  cbn [fst snd] in *. now rewrite F.
Qed.

Lemma closed_store (w : world) :
  store (snd (Session.close w)) = store w /\
  log (snd (Session.close w)) = (log w ++ [SessionClosed])%list.
Proof. split; reflexivity. Qed.





End StoreConceptResult.

(** ** Writes while the store is unreachable *)

Section FailedWrites.

Lemma storeConcept_unreachable (p : Storage.concept_request) (e : string)
      (w : world) :
  outage w = Some e ->
  fst (Storage.storeConcept p w) = Returned (Storage.StoreFailure e) /\
  Discipline.released
    w (snd (Storage.storeConcept p w))
    [Discipline.asked (CypherBuilder.createConceptQuery (Storage.concept p))].
Proof.
  destruct w as [g l c f o]. cbn [outage]. intros ->.
  unfold Storage.storeConcept. run_session.
  split; [reflexivity|released_now].
Qed.

Lemma createRelationship_unreachable (p : Storage.relationship_params)
      (e : string) (w : world) :
  outage w = Some e ->
  fst (Storage.createRelationship p w)
  = Returned (Storage.RelationshipFailure e) /\
  Discipline.released
    w (snd (Storage.createRelationship p w))
    [Discipline.asked (Storage.createRelationship_query p)].
Proof.
  destruct w as [g l c f o]. cbn [outage]. intros ->.
  unfold Storage.createRelationship. run_session.
  split; [reflexivity|released_now].
Qed.

(** X21.  When the store fails, [storeConcept] and [createRelationship]
    answer [{success: false, error}] with the store's message, after
    one query and no more (no domain or relationship query follows a
    failed concept query); the store is as it was and the session is
    closed. *)
Theorem failed_write_stops_after_its_first_query (e : string) (w : world) :
  outage w = Some e ->
  (forall p,
      fst (Storage.storeConcept p w) = Returned (Storage.StoreFailure e) /\
      Discipline.released
        w (snd (Storage.storeConcept p w))
        [Discipline.asked
           (CypherBuilder.createConceptQuery (Storage.concept p))]) /\
  (forall p,
      fst (Storage.createRelationship p w)
      = Returned (Storage.RelationshipFailure e) /\
      Discipline.released
        w (snd (Storage.createRelationship p w))
        [Discipline.asked (Storage.createRelationship_query p)]).
Proof.
  intro Ho. split; intro p.
  - now apply storeConcept_unreachable.
  - now apply createRelationship_unreachable.
Qed.

Lemma failed_write_stops_after_its_first_query_witness :
  (forall p,
      fst (Storage.storeConcept p Examples.unreachable)
      = Returned (Storage.StoreFailure "ServiceUnavailable") /\
      Discipline.released
        Examples.unreachable (snd (Storage.storeConcept p Examples.unreachable))
        [Discipline.asked
           (CypherBuilder.createConceptQuery (Storage.concept p))]) /\
  (forall p,
      fst (Storage.createRelationship p Examples.unreachable)
      = Returned (Storage.RelationshipFailure "ServiceUnavailable") /\
      Discipline.released
        Examples.unreachable
        (snd (Storage.createRelationship p Examples.unreachable))
        [Discipline.asked (Storage.createRelationship_query p)]).
Proof.
  apply (failed_write_stops_after_its_first_query
           "ServiceUnavailable" Examples.unreachable).
  reflexivity.
Defined.

End FailedWrites.

(** ** Storing the extracted concepts *)

Section ExtractionLoop.

Import Graph.

Variables mcpSource processingInstructions : string.

Lemma grown_kept (w1 w2 : world) :
  Discipline.grown w1 w2 -> Discipline.kept w1 w2.
Proof.
  intros G n Hn. exists n. split; [eapply grown_In; eassumption|auto].
Qed.

Lemma kept_trans (w1 w2 w3 : world) :
  Discipline.kept w1 w2 -> Discipline.kept w2 w3 -> Discipline.kept w1 w3.
Proof.
  intros K1 K2 n Hn.
  destruct (K1 n Hn) as (n1 & H1 & Ek & El & Ei & En).
  destruct (K2 n1 H1) as (n2 & H2 & Ek' & El' & Ei' & En').
  exists n2. split; [exact H2|]. repeat split; congruence.
Qed.

Lemma held_kept (w1 w2 : world) (e : Extraction.extracted) :
  Discipline.kept w1 w2 -> Extraction.held w1 e -> Extraction.held w2 e.
Proof.
  intros K (c & Hc & Hid). apply filter_In in Hc as (Hc & Hnamed).
  destruct (K c Hc) as (c' & Hc' & _ & El & Ei & En).
  exists c'. split; [|congruence].
  apply filter_In. split; [exact Hc'|].
  unfold Storage.concept_named, has_label in *. now rewrite El, En.
Qed.

(** What [storeConcept] answers and leaves when the store answers. *)
Lemma storeConcept_answers (p : Storage.concept_request) (w : world) :
  outage w = None ->
  exists c,
    fst (Storage.storeConcept p w)
    = Returned (Storage.Stored
                  (p_id c) (Some (CypherBuilder.name (Storage.concept p)))) /\
    In c (Storage.concepts_named (CypherBuilder.name (Storage.concept p))
                                 (snd (Storage.storeConcept p w))) /\
    outage (snd (Storage.storeConcept p w)) = None /\
    Discipline.kept w (snd (Storage.storeConcept p w)).
Proof.
  intro Ho.
  destruct (storeConcept_run p w Ho)
    as (c & w1 & w3 & Hin & Hnamed & Ho1 & K & G & E).
  cbv zeta in G, E, Hnamed. rewrite E. cbn [fst snd].
  set (w2 := if JS.truthy_string (Storage.domain p) then _ else w1) in G.
  assert (G2 : Discipline.grown w1 w2).
  { unfold w2. destruct (JS.truthy_string (Storage.domain p)).
    - eapply grown_trans; [apply recorded_grown|apply attachDomain_grown].
    - apply grown_refl. }
  assert (G3 : Discipline.grown w1 w3) by (eapply grown_trans; eassumption).
  exists c. split; [reflexivity|]. split; [|split].
  - apply filter_In. split; [|exact Hnamed].
    destruct (closed_store w3) as (-> & _). eapply grown_In; eassumption.
  - destruct G3 as (_ & _ & Eo). cbn. congruence.
  - eapply kept_trans; [exact K|].
    intros n Hn. destruct (grown_kept _ _ G3 n Hn) as (n' & Hn' & Hrest).
    exists n'. split; [|exact Hrest].
    now destruct (closed_store w3) as (-> & _).
Qed.

Lemma storeConcepts_answers (candidates : list string) :
  forall (concepts : list Extraction.extracted) (w : world),
    outage w = None ->
    Forall (Extraction.held w) concepts ->
    let out := Extraction.storeConcepts mcpSource processingInstructions
                                        candidates concepts w in
    exists entries,
      fst out = Returned (concepts ++ entries)%list /\
      map Extraction.ex_name entries = candidates /\
      Forall (Extraction.held (snd out)) (concepts ++ entries)%list.
Proof.
  induction candidates as [|conceptName rest IH]; intros concepts w Ho Hheld;
    cbv zeta.
  - exists []. rewrite app_nil_r. now repeat split.
  - cbn [Extraction.storeConcepts]. rewrite bind_eq.
    destruct (storeConcept_answers
                (Extraction.concept_for mcpSource processingInstructions
                                        conceptName) w Ho)
      as (c & F & Hc & Ho' & K).
    destruct (Storage.storeConcept _ w) as [r w'].
    cbn [fst snd] in F, Hc, Ho', K. rewrite F.
    cbn [Extraction.concept_for Storage.concept CypherBuilder.name] in Hc |- *.
    destruct (IH (concepts ++ [Extraction.mkExtracted (p_id c) conceptName])%list
                 w' Ho') as (entries & Fr & Hnames & Hall).
    { apply Forall_app. split.
      - eapply Forall_impl; [|exact Hheld]. intros e He.
        eapply held_kept; eassumption.
      - constructor; [|constructor]. exists c. now split. }
    cbv zeta in Fr, Hall.
    exists (Extraction.mkExtracted (p_id c) conceptName :: entries).
    split; [|split].
    + rewrite Fr, <- app_assoc. reflexivity.
    + cbn. now rewrite Hnames.
    + now rewrite <- app_assoc in Hall.
Qed.

(** X22.  When the store answers, step 1 of [processOutput] reports
    every candidate of the raw output, in order and at most ten, and
    the store then holds, for each reported entry, a concept with the
    entry's name and id. *)
Theorem extracted_concepts_are_all_stored (rawOutput : string) (w : world) :
  outage w = None ->
  let out := Extraction.extractConcepts mcpSource processingInstructions
                                        rawOutput w in
  exists entries,
    fst out = Returned entries /\
    map Extraction.ex_name entries = McpExtractor.uniqueConcepts rawOutput /\
    List.length entries <= 10 /\
    Forall (Extraction.held (snd out)) entries.
Proof.
  intros Ho out.
  destruct (storeConcepts_answers (McpExtractor.uniqueConcepts rawOutput)
                                  [] w Ho (Forall_nil _))
    as (entries & F & Hnames & Hall).
  cbv zeta in F, Hall. cbn [app] in F, Hall.
  exists entries. split; [exact F|]. split; [exact Hnames|].
  split; [|exact Hall].
  rewrite <- (length_map Extraction.ex_name), Hnames.
  unfold McpExtractor.uniqueConcepts. apply firstn_le_length.
Qed.

Lemma queries_of_released (w w' : world) (q : built_query) :
  Discipline.released w w' [Discipline.asked q] ->
  Session.queries_run w' = (Session.queries_run w ++ [Discipline.asked q])%list.
Proof.
  intros (_ & _ & _ & _ & El). unfold Session.queries_run.
  rewrite El, filter_app. reflexivity.
Qed.

Lemma storeConcepts_unreachable (e : string) (candidates : list string) :
  forall (concepts : list Extraction.extracted) (w : world),
    outage w = Some e ->
    let out := Extraction.storeConcepts mcpSource processingInstructions
                                        candidates concepts w in
    fst out = Returned concepts /\
    store (snd out) = store w /\
    Session.queries_run (snd out)
    = (Session.queries_run w
       ++ Extraction.asked_for mcpSource processingInstructions candidates)%list.
Proof.
  induction candidates as [|conceptName rest IH]; intros concepts w Ho;
    cbv zeta.
  - cbn. now rewrite app_nil_r.
  - cbn [Extraction.storeConcepts]. rewrite bind_eq.
    destruct (storeConcept_unreachable
                (Extraction.concept_for mcpSource processingInstructions
                                        conceptName) e w Ho) as (F & R).
    destruct (Storage.storeConcept _ w) as [r w'].
    cbn [fst snd] in F, R. rewrite F.
    pose proof (queries_of_released _ _ _ R) as Q.
    destruct R as (Es & _ & _ & Eo & _).
    destruct (IH concepts w') as (Fr & Sr & Qr); [congruence|].
    cbv zeta in Fr, Sr, Qr.
    split; [exact Fr|]. split; [congruence|].
    rewrite Qr, Q, <- app_assoc. reflexivity.
Qed.

(** X23.  When the store fails, step 1 of [processOutput] does not
    fail and does not stop at the first failure: it asks one concept
    query for each candidate, reports no concept and leaves the store
    as it was. *)
Theorem extraction_skips_concepts_it_cannot_store
        (e rawOutput : string) (w : world) :
  outage w = Some e ->
  let out := Extraction.extractConcepts mcpSource processingInstructions
                                        rawOutput w in
  fst out = Returned [] /\
  store (snd out) = store w /\
  Session.queries_run (snd out)
  = (Session.queries_run w
     ++ Extraction.asked_for mcpSource processingInstructions
                             (McpExtractor.uniqueConcepts rawOutput))%list.
Proof.
  intro Ho. apply (storeConcepts_unreachable e). exact Ho.
Qed.

End ExtractionLoop.

Lemma extracted_concepts_are_all_stored_witness :
  exists entries,
    fst (Extraction.extractConcepts "search" EmptyString Scenario.sample_text
                                    Scenario.empty_world)
    = Returned entries /\
    map Extraction.ex_name entries
    = McpExtractor.uniqueConcepts Scenario.sample_text /\
    List.length entries <= 10 /\
    Forall (Extraction.held
              (snd (Extraction.extractConcepts
                      "search" EmptyString Scenario.sample_text
                      Scenario.empty_world)))
           entries.
Proof.
  apply (extracted_concepts_are_all_stored
           "search" EmptyString Scenario.sample_text Scenario.empty_world).
  reflexivity.
Defined.

Lemma extraction_skips_concepts_it_cannot_store_witness :
  fst (Extraction.extractConcepts "search" EmptyString Scenario.sample_text
                                  Examples.unreachable)
  = Returned [] /\
  store (snd (Extraction.extractConcepts
                "search" EmptyString Scenario.sample_text Examples.unreachable))
  = store Examples.unreachable /\
  Session.queries_run
    (snd (Extraction.extractConcepts
            "search" EmptyString Scenario.sample_text Examples.unreachable))
  = (Session.queries_run Examples.unreachable
     ++ Extraction.asked_for "search" EmptyString
                             (McpExtractor.uniqueConcepts Scenario.sample_text))%list.
Proof.
  apply (extraction_skips_concepts_it_cannot_store
           "search" EmptyString "ServiceUnavailable" Scenario.sample_text
           Examples.unreachable).
  reflexivity.
Defined.

(** ** The path tool *)

Section PathTool.

Variable syntax_error : string -> string.

(** The tool's answer follows the operation's. *)
Lemma handleFindPaths_failure (args : Retrieval.path_params) (w : world)
      (error : string) :
  fst (Retrieval.findKnowledgePaths syntax_error args w)
  = Returned (Retrieval.PathsFailure error) ->
  fst (Handlers.handleFindPaths syntax_error args w)
  = Returned (Handlers.ToolError (-32603) "Failed to find knowledge paths" error).
Proof.
  unfold Handlers.handleFindPaths. rewrite bind_eq.
  destruct (Retrieval.findKnowledgePaths syntax_error args w) as [r w'].
  cbn [fst]. now intros ->.
Qed.

Lemma handleFindPaths_not_found (args : Retrieval.path_params) (w : world)
      (message : string) :
  fst (Retrieval.findKnowledgePaths syntax_error args w)
  = Returned (Retrieval.PathsNotFound message) ->
  fst (Handlers.handleFindPaths syntax_error args w)
  = Returned (Handlers.ToolContent
                (Handlers.no_paths_text (Retrieval.pp_conceptA args)
                                        (Retrieval.pp_conceptB args)
                                        (Handlers.shown_bound args))).
Proof.
  unfold Handlers.handleFindPaths. rewrite bind_eq.
  destruct (Retrieval.findKnowledgePaths syntax_error args w) as [r w'].
  cbn [fst]. now intros ->.
Qed.

Lemma findKnowledgePaths_failure (args : Retrieval.path_params) (w : world)
      (e : string) :
  outage w = Some e ->
  fst (Retrieval.findKnowledgePaths syntax_error args w)
  = Returned (Retrieval.PathsFailure e).
Proof.
  destruct w as [g l c f o]. cbn [outage]. intros ->.
  unfold Retrieval.findKnowledgePaths.
  destruct (Reading.path_text_parses _); now run_session.
Qed.

(** X24.  For relationship constraints that are names, the path tool
    answers the error -32603 with the store's message when the store
    is out, with the store's rejection when [conceptA] has not the
    shape of an identifier, and with the message of [Math.min] when
    the store finds a path; in the one case left, an identifier for
    which the store finds no path, it answers the text that no path
    was found.  It never answers the text of found paths. *)
Theorem path_tool_answers_an_error_or_no_paths
        (args : Retrieval.path_params) (w : world) :
  Discipline.names (Retrieval.relationshipConstraints args) ->
  fst (Handlers.handleFindPaths syntax_error args w)
  = Returned
      match outage w with
      | Some e =>
          Handlers.ToolError (-32603) "Failed to find knowledge paths" e
      | None =>
          if CypherBuilder.isUuid (Retrieval.pp_conceptA args) then
            match Reading.findPaths (Retrieval.builder_params args) (store w) with
            | [] =>
                Handlers.ToolContent
                  (Handlers.no_paths_text (Retrieval.pp_conceptA args)
                                          (Retrieval.pp_conceptB args)
                                          (Handlers.shown_bound args))
            | _ =>
                Handlers.ToolError (-32603) "Failed to find knowledge paths"
                                   Retrieval.bigint_to_number
            end
          else
            Handlers.ToolError
              (-32603) "Failed to find knowledge paths"
              (syntax_error
                 (query (CypherBuilder.findPathsQuery
                           (Retrieval.builder_params args))))
      end.
Proof.
  intros _. destruct (outage w) as [e|] eqn:Eo.
  - apply handleFindPaths_failure. now apply findKnowledgePaths_failure.
  - pose proof (findKnowledgePaths_answer syntax_error args w Eo) as H.
    destruct (CypherBuilder.isUuid _);
      [|now apply handleFindPaths_failure].
    destruct (Reading.findPaths _ (store w));
      [now apply handleFindPaths_not_found with
         (message := Retrieval.not_found_message args)
      |now apply handleFindPaths_failure].
Qed.

Lemma findPaths_zero (p : CypherBuilder.paths_params) (g : Graph.graph) :
  CypherBuilder.hops p = 0 -> Reading.findPaths p g = [].
Proof.
  intro H. destruct (Reading.findPaths p g) as [|r rest] eqn:E; [reflexivity|].
  assert (Hin : In r (Reading.findPaths p g)) by (rewrite E; now left).
  apply findPaths_length in Hin. lia.
Qed.

Lemma findKnowledgePaths_message (args : Retrieval.path_params) (w : world)
      (message : string) :
  fst (Retrieval.findKnowledgePaths syntax_error args w)
  = Returned (Retrieval.PathsNotFound message) ->
  message = Retrieval.not_found_message args.
Proof.
  destruct (outage w) as [e|] eqn:Eo.
  - rewrite (findKnowledgePaths_failure args w e Eo). discriminate.
  - rewrite (findKnowledgePaths_answer syntax_error args w Eo).
    destruct (CypherBuilder.isUuid _); [|discriminate].
    destruct (Reading.findPaths _ (store w)); [|discriminate].
    intro H. now injection H.
Qed.

(** X25.  Whenever a path search with [maxPathLength] 0 answers that
    no path was found, the operation's message names the bound 0,
    while the tool's text, which takes [maxPathLength || 5], says
    that no path was found within 5 steps. *)
Theorem zero_path_bound_is_reported_as_five
        (args : Retrieval.path_params) (w : world) (message : string) :
  Retrieval.pp_maxPathLength args = Some 0 ->
  fst (Retrieval.findKnowledgePaths syntax_error args w)
  = Returned (Retrieval.PathsNotFound message) ->
  message
  = ("No paths found between " ++ JS.quoted (Retrieval.pp_conceptA args)
     ++ " and " ++ JS.quoted (Retrieval.pp_conceptB args)
     ++ " within " ++ "0" ++ " steps.")%string /\
  fst (Handlers.handleFindPaths syntax_error args w)
  = Returned
      (Handlers.ToolContent
         (Handlers.no_paths_text (Retrieval.pp_conceptA args)
                                 (Retrieval.pp_conceptB args) 5)).
Proof.
  intros Hzero Hnone. split.
  - rewrite (findKnowledgePaths_message args w message Hnone).
    unfold Retrieval.not_found_message, Retrieval.maxPathLength.
    now rewrite Hzero.
  - rewrite (handleFindPaths_not_found args w message Hnone).
    unfold Handlers.shown_bound. now rewrite Hzero.
Qed.

End PathTool.

(** The two concepts of the scenario by their names, once related:
    the tool answers the store's rejection. *)
Lemma path_tool_answers_an_error_or_no_paths_witness :
  fst (Handlers.handleFindPaths Examples.rejected (Scenario.banking_to_tax 5)
                                Scenario.related)
  = Returned
      match outage Scenario.related with
      | Some e =>
          Handlers.ToolError (-32603) "Failed to find knowledge paths" e
      | None =>
          if CypherBuilder.isUuid
               (Retrieval.pp_conceptA (Scenario.banking_to_tax 5)) then
            match Reading.findPaths
                    (Retrieval.builder_params (Scenario.banking_to_tax 5))
                    (store Scenario.related) with
            | [] =>
                Handlers.ToolContent
                  (Handlers.no_paths_text
                     (Retrieval.pp_conceptA (Scenario.banking_to_tax 5))
                     (Retrieval.pp_conceptB (Scenario.banking_to_tax 5))
                     (Handlers.shown_bound (Scenario.banking_to_tax 5)))
            | _ =>
                Handlers.ToolError (-32603) "Failed to find knowledge paths"
                                   Retrieval.bigint_to_number
            end
          else
            Handlers.ToolError
              (-32603) "Failed to find knowledge paths"
              (Examples.rejected
                 (query (CypherBuilder.findPathsQuery
                           (Retrieval.builder_params
                              (Scenario.banking_to_tax 5)))))
      end.
Proof.
  apply (path_tool_answers_an_error_or_no_paths
           Examples.rejected (Scenario.banking_to_tax 5) Scenario.related).
  constructor.
Defined.

(** The two related concepts by their identifiers and a bound of 0. *)
Lemma zero_path_bound_is_reported_as_five_witness :
  Retrieval.not_found_message (Examples.banking_to_tax_by_id (Some 0))
  = ("No paths found between " ++ JS.quoted (Storage.uuid 0)
     ++ " and " ++ JS.quoted (Storage.uuid 3)
     ++ " within " ++ "0" ++ " steps.")%string /\
  fst (Handlers.handleFindPaths
         Examples.rejected (Examples.banking_to_tax_by_id (Some 0))
         Scenario.related)
  = Returned
      (Handlers.ToolContent
         (Handlers.no_paths_text (Storage.uuid 0) (Storage.uuid 3) 5)).
Proof.
  apply (zero_path_bound_is_reported_as_five
           Examples.rejected (Examples.banking_to_tax_by_id (Some 0))
           Scenario.related
           (Retrieval.not_found_message (Examples.banking_to_tax_by_id (Some 0))));
    reflexivity.
Defined.

(** ** Setting up the schema *)

Section SchemaFacts.

Import Graph.

(** The statements of a list are all run, whether the store answers
    or not, and nothing but the log changes. *)
Lemma attempt_all_runs (statements : list string) :
  forall w,
    SchemaSetup.attempt_all statements w
    = (Returned tt,
       mkWorld (store w) (log w ++ SchemaSetup.statements_run statements)
               (clock w) (fresh w) (outage w)).
Proof.
  induction statements as [|statement rest IH]; intros [g l c f o].
  - cbn. now rewrite app_nil_r.
  - cbn [SchemaSetup.attempt_all]. rewrite bind_eq.
    assert (E : SchemaSetup.attempt statement (mkWorld g l c f o)
                = (Returned tt,
                   mkWorld g (l ++ [Discipline.asked (mkBuilt statement [])])
                           c f o)).
    { unfold SchemaSetup.attempt. run_session. destruct o; reflexivity. }
    rewrite E, IH. cbn [store log clock fresh outage SchemaSetup.statements_run map].
    now rewrite <- app_assoc.
Qed.

Lemma mergeDomain_facts (name description : string) (w : world) :
  let w' := snd (SchemaSetup.mergeDomain name description w) in
  outage w' = outage w /\ log w' = log w /\
  rels (store w') = rels (store w) /\
  (exists extra, nodes (store w') = (nodes (store w) ++ extra)%list) /\
  existsb (Storage.domain_named name) (nodes (store w')) = true /\
  (existsb (Storage.domain_named name) (nodes (store w)) = true ->
   store w' = store w).
Proof.
  cbv zeta. unfold SchemaSetup.mergeDomain.
  destruct (filter _ (nodes (store w))) as [|d ds] eqn:E.
  - cbn [snd Storage.with_store store log outage nodes rels].
    repeat split.
    + eexists. reflexivity.
    + rewrite existsb_app. cbn.
      unfold Storage.domain_named, has_label. cbn.
      now rewrite String.eqb_refl, orb_true_r.
    + intro H. apply existsb_exists in H as (d & Hd & Hn).
      assert (Hin : In d (filter (Storage.domain_named name) (nodes (store w))))
        by (apply filter_In; now split).
      rewrite E in Hin. contradiction.
  - cbn [snd]. repeat split.
    + exists []. now rewrite app_nil_r.
    + apply existsb_exists. exists d.
      assert (Hin : In d (filter (Storage.domain_named name) (nodes (store w))))
        by (rewrite E; now left).
      now apply filter_In in Hin.
Qed.

Lemma existsb_prefix {A : Type} (f : A -> bool) (xs extra : list A) :
  existsb f xs = true -> existsb f (xs ++ extra) = true.
Proof. intro H. now rewrite existsb_app, H. Qed.

Lemma merge_all_answers (domains : list (string * string)) :
  forall w,
    outage w = None ->
    exists w',
      SchemaSetup.merge_all domains w = (Returned tt, w') /\
      outage w' = None /\
      log w' = (log w ++ SchemaSetup.domains_run domains)%list /\
      rels (store w') = rels (store w) /\
      (exists extra, nodes (store w') = (nodes (store w) ++ extra)%list) /\
      SchemaSetup.all_held (map fst domains) w' /\
      (SchemaSetup.all_held (map fst domains) w -> store w' = store w).
Proof.
  induction domains as [|[name description] rest IH]; intros w Ho.
  - exists w. cbn. rewrite app_nil_r. repeat split; auto.
    + exists []. now rewrite app_nil_r.
    + constructor.
  - cbn [SchemaSetup.merge_all]. rewrite bind_eq, run_update_answers by exact Ho.
    cbv beta iota. cbn [fst snd].
    set (w0 := snd (Session.record _ w)).
    destruct (mergeDomain_facts name description w0)
      as (Eo & El & Er & (extra & En) & Hheld & Hsame).
    cbv zeta in Eo, El, Er, En, Hheld, Hsame.
    set (w1 := snd (SchemaSetup.mergeDomain name description w0)) in *.
    destruct (IH w1) as (w' & Erun & Eo' & El' & Er' & (extra' & En') & Hall & Hkeep).
    { rewrite Eo. exact Ho. }
    exists w'. split; [exact Erun|]. split; [exact Eo'|]. split; [|split; [|split; [|split]]].
    + rewrite El', El. unfold w0. cbn [Session.record snd log].
      cbn [SchemaSetup.domains_run map]. now rewrite <- app_assoc.
    + rewrite Er', Er. reflexivity.
    + exists (extra ++ extra')%list. rewrite En', En.
      unfold w0. cbn [Session.record snd store]. now rewrite app_assoc.
    + cbn [map fst]. constructor; [|exact Hall].
      rewrite En'. now apply existsb_prefix.
    + cbn [map fst]. intro H. inversion H as [|x xs Hhead Htail]; subst.
      assert (S1 : store w1 = store w) by (apply Hsame; exact Hhead).
      rewrite Hkeep; [exact S1|].
      unfold SchemaSetup.all_held. now rewrite S1.
Qed.

Lemma merge_all_unreachable (e : string) (domain : string * string)
      (rest : list (string * string)) (w : world) :
  outage w = Some e ->
  SchemaSetup.merge_all (domain :: rest) w
  = (Thrown e,
     mkWorld (store w)
             (log w ++ [Discipline.asked (SchemaSetup.domain_query domain)])
             (clock w) (fresh w) (outage w)).
Proof.
  destruct w as [g l c f o]. cbn [outage]. intros ->.
  cbn [SchemaSetup.merge_all]. now run_session.
Qed.

(** How [setupSchema] runs when the store answers. *)
Lemma setupSchema_run (w : world) :
  outage w = None ->
  exists w',
    SchemaSetup.setupSchema w
    = (Returned SchemaSetup.SetupDone, snd (Session.close w')) /\
    outage w' = None /\
    log w' = (log w ++ SessionOpened
                :: SchemaSetup.statements_run SchemaSetup.constraints
                ++ SchemaSetup.statements_run SchemaSetup.indexes
                ++ SchemaSetup.domains_run SchemaSetup.domains)%list /\
    rels (store w') = rels (store w) /\
    (exists extra, nodes (store w') = (nodes (store w) ++ extra)%list) /\
    SchemaSetup.all_held (map fst SchemaSetup.domains) w' /\
    (SchemaSetup.all_held (map fst SchemaSetup.domains) w -> store w' = store w).
Proof.
  intro Ho. unfold SchemaSetup.setupSchema.
  rewrite bind_eq.
  set (w0 := snd (Session.open w)).
  change (Session.open w) with (Returned tt, w0). cbv beta iota.
  rewrite finally_close.
  set (w2 := mkWorld (store w0)
                     ((log w0 ++ SchemaSetup.statements_run SchemaSetup.constraints)
                      ++ SchemaSetup.statements_run SchemaSetup.indexes)
                     (clock w0) (fresh w0) (outage w0)).
  destruct (merge_all_answers SchemaSetup.domains w2 Ho)
    as (w' & Erun & Eo & El & Er & En & Hall & Hkeep).
  exists w'.
  split; [|split; [exact Eo|split; [|split; [exact Er|split; [exact En|split;
    [exact Hall|exact Hkeep]]]]]].
  - erewrite try_catch_returned; [reflexivity|].
    rewrite bind_eq, attempt_all_runs. cbv beta iota.
    rewrite bind_eq, attempt_all_runs. cbv beta iota.
    cbn [store log clock fresh outage].
    fold w2. rewrite bind_eq, Erun. reflexivity.
  - rewrite El. unfold w2, w0.
    cbn [Session.open Session.record snd log]. rewrite <- !app_assoc.
    reflexivity.
Qed.

Lemma queries_after (w w' : world) (queries : list event) :
  log w' = (log w ++ SessionOpened :: queries)%list ->
  Forall (fun e => match e with QueryRun _ _ => True | _ => False end) queries ->
  Session.queries_run (snd (Session.close w'))
  = (Session.queries_run w ++ queries)%list.
Proof.
  intros El Hq. unfold Session.queries_run.
  set (is_query := fun e => match e with QueryRun _ _ => true | _ => false end).
  assert (Hall : filter is_query queries = queries).
  { clear El. induction Hq as [|q qs Hq _ IH]; [reflexivity|].
    destruct q; try contradiction.
    change (QueryRun text bound :: filter is_query qs = QueryRun text bound :: qs).
    now rewrite IH. }
  change (log (snd (Session.close w'))) with (log w' ++ [SessionClosed])%list.
  rewrite El, !filter_app.
  change (filter is_query (SessionOpened :: queries))
    with (filter is_query queries).
  rewrite Hall. change (filter is_query [SessionClosed]) with (@nil event).
  now rewrite app_nil_r.
Qed.

Lemma setup_queries :
  Forall (fun e => match e with QueryRun _ _ => True | _ => False end)
         (SchemaSetup.statements_run SchemaSetup.constraints
          ++ SchemaSetup.statements_run SchemaSetup.indexes
          ++ SchemaSetup.domains_run SchemaSetup.domains)%list.
Proof. repeat constructor. Qed.

(** X26.  When the store answers, [setupSchema] succeeds after the 8
    constraint statements, the 6 index statements and the 4 domain
    queries, in that order; the store then holds a [Domain] node of
    each of the four names, its earlier nodes stay first and its
    relationships are as they were. *)
Theorem schema_setup_creates_the_domains (w : world) :
  outage w = None ->
  let out := SchemaSetup.setupSchema w in
  fst out = Returned SchemaSetup.SetupDone /\
  Session.queries_run (snd out)
  = (Session.queries_run w
     ++ SchemaSetup.statements_run SchemaSetup.constraints
     ++ SchemaSetup.statements_run SchemaSetup.indexes
     ++ SchemaSetup.domains_run SchemaSetup.domains)%list /\
  SchemaSetup.all_held
    ["Financial Planning"; "Technology"; "Business"; "General"] (snd out) /\
  (exists extra, nodes (store (snd out)) = (nodes (store w) ++ extra)%list) /\
  rels (store (snd out)) = rels (store w).
Proof.
  intros Ho out.
  destruct (setupSchema_run w Ho)
    as (w' & Erun & Eo & El & Er & En & Hall & _).
  unfold out. rewrite Erun. cbn [fst snd].
  split; [reflexivity|]. split; [|split; [exact Hall|split; [exact En|exact Er]]].
  apply queries_after; [exact El|apply setup_queries].
Qed.

(** X27.  Setting up the schema a second time leaves the store as the
    first run left it. *)
Theorem schema_setup_is_idempotent (w : world) :
  outage w = None ->
  store (snd (SchemaSetup.setupSchema (snd (SchemaSetup.setupSchema w))))
  = store (snd (SchemaSetup.setupSchema w)).
Proof.
  intro Ho.
  destruct (setupSchema_run w Ho)
    as (w1 & Erun & Eo & _ & _ & _ & Hall & _).
  rewrite Erun. cbn [snd].
  destruct (setupSchema_run (snd (Session.close w1)) Eo)
    as (w2 & Erun2 & _ & _ & _ & _ & _ & Hkeep).
  rewrite Erun2. cbn [snd]. apply Hkeep. exact Hall.
Qed.

(** X28.  When the store fails, the failures of the 8 constraint and 6
    index statements are swallowed one by one, every one of them is
    still run, and the failure only surfaces at the first domain
    query: [setupSchema] answers [{success: false, error}] with the
    store's message after 15 queries and no more, and the store is as
    it was. *)
Theorem schema_setup_fails_at_the_first_domain (e : string) (w : world) :
  outage w = Some e ->
  let out := SchemaSetup.setupSchema w in
  fst out = Returned (SchemaSetup.SetupFailure e) /\
  store (snd out) = store w /\
  Session.queries_run (snd out)
  = (Session.queries_run w
     ++ SchemaSetup.statements_run SchemaSetup.constraints
     ++ SchemaSetup.statements_run SchemaSetup.indexes
     ++ firstn 1 (SchemaSetup.domains_run SchemaSetup.domains))%list /\
  List.length (SchemaSetup.statements_run SchemaSetup.constraints
               ++ SchemaSetup.statements_run SchemaSetup.indexes
               ++ firstn 1 (SchemaSetup.domains_run SchemaSetup.domains)) = 15.
Proof.
  intros Ho out. unfold out, SchemaSetup.setupSchema.
  rewrite bind_eq.
  set (w0 := snd (Session.open w)).
  change (Session.open w) with (Returned tt, w0). cbv beta iota.
  rewrite finally_close.
  assert (E : Session.try_catch
                (SchemaSetup.attempt_all SchemaSetup.constraints ;;;
                 SchemaSetup.attempt_all SchemaSetup.indexes ;;;
                 SchemaSetup.merge_all SchemaSetup.domains ;;;
                 Session.ret SchemaSetup.SetupDone)%session
                (fun error => Session.ret (SchemaSetup.SetupFailure error)) w0
              = (Returned (SchemaSetup.SetupFailure e),
                 mkWorld (store w)
                   (log w ++ SessionOpened
                      :: SchemaSetup.statements_run SchemaSetup.constraints
                      ++ SchemaSetup.statements_run SchemaSetup.indexes
                      ++ firstn 1 (SchemaSetup.domains_run SchemaSetup.domains))
                   (clock w) (fresh w) (outage w))).
  { unfold Session.try_catch.
    rewrite bind_eq, attempt_all_runs. cbv beta iota.
    rewrite bind_eq, attempt_all_runs. cbv beta iota.
    cbn [store log clock fresh outage].
    rewrite bind_eq.
    unfold SchemaSetup.domains at 1.
    rewrite (merge_all_unreachable e) by exact Ho.
    cbn [store log clock fresh outage Session.ret].
    unfold w0. cbn [Session.open Session.record snd store log clock fresh outage].
    rewrite <- !app_assoc. reflexivity. }
  rewrite E. cbn [fst snd].
  split; [reflexivity|]. split; [reflexivity|]. split; [|reflexivity].
  apply queries_after; [reflexivity|]. repeat constructor.
Qed.

End SchemaFacts.

Lemma schema_setup_creates_the_domains_witness :
  fst (SchemaSetup.setupSchema Scenario.empty_world)
  = Returned SchemaSetup.SetupDone /\
  Session.queries_run (snd (SchemaSetup.setupSchema Scenario.empty_world))
  = (Session.queries_run Scenario.empty_world
     ++ SchemaSetup.statements_run SchemaSetup.constraints
     ++ SchemaSetup.statements_run SchemaSetup.indexes
     ++ SchemaSetup.domains_run SchemaSetup.domains)%list /\
  SchemaSetup.all_held
    ["Financial Planning"; "Technology"; "Business"; "General"]
    (snd (SchemaSetup.setupSchema Scenario.empty_world)) /\
  (exists extra,
      Graph.nodes (store (snd (SchemaSetup.setupSchema Scenario.empty_world)))
      = (Graph.nodes (store Scenario.empty_world) ++ extra)%list) /\
  Graph.rels (store (snd (SchemaSetup.setupSchema Scenario.empty_world)))
  = Graph.rels (store Scenario.empty_world).
Proof.
  apply (schema_setup_creates_the_domains Scenario.empty_world). reflexivity.
Defined.

Lemma schema_setup_is_idempotent_witness :
  store (snd (SchemaSetup.setupSchema
                (snd (SchemaSetup.setupSchema Scenario.two_concepts))))
  = store (snd (SchemaSetup.setupSchema Scenario.two_concepts)).
Proof.
  apply (schema_setup_is_idempotent Scenario.two_concepts). reflexivity.
Defined.

Lemma schema_setup_fails_at_the_first_domain_witness :
  fst (SchemaSetup.setupSchema Examples.unreachable)
  = Returned (SchemaSetup.SetupFailure "ServiceUnavailable") /\
  store (snd (SchemaSetup.setupSchema Examples.unreachable))
  = store Examples.unreachable /\
  Session.queries_run (snd (SchemaSetup.setupSchema Examples.unreachable))
  = (Session.queries_run Examples.unreachable
     ++ SchemaSetup.statements_run SchemaSetup.constraints
     ++ SchemaSetup.statements_run SchemaSetup.indexes
     ++ firstn 1 (SchemaSetup.domains_run SchemaSetup.domains))%list /\
  List.length (SchemaSetup.statements_run SchemaSetup.constraints
               ++ SchemaSetup.statements_run SchemaSetup.indexes
               ++ firstn 1 (SchemaSetup.domains_run SchemaSetup.domains)) = 15.
Proof.
  apply (schema_setup_fails_at_the_first_domain
           "ServiceUnavailable" Examples.unreachable).
  reflexivity.
Defined.
